(** * wayvnc screen capture: the dispatcher and the two ext-screencopy backends

    A shallow embedding of [src/screencopy-interface.c], which holds three
    translation units one after the other:

    - the capture dispatcher ([screencopy_create], [screencopy_start], ...);
    - the ext-screencopy backend that drives the long-lived session object
      itself (attach, damage, commit on the session): module [Session];
    - the ext-screencopy backend that creates one frame object per capture:
      module [Frame].

    Every C function becomes a function in a small state-and-fault monad over
    a [world]: the part of the process the handlers talk to (compositor
    proxies, the buffer pool, the buffers, the caller's callbacks).  Calls
    that leave the translation unit are appended to the world's [trace], in
    program order, so that the order of effects can be stated and proved. *)

From Stdlib Require Import ZArith String List Lia.
From stdpp Require Import base option list gmap.

Local Open Scope Z_scope.

(** ** Values shared by the backends *)

(** A Wayland proxy (session, frame, cursor session, image source, manager)
    is known by its object id; a C pointer that may be [NULL] is an
    [option]. *)
Definition obj := nat.
Definition output := nat.
(** [struct wv_buffer*] *)
Definition buf := nat.

Definition u32 (z : Z) : Z := z mod 2 ^ 32.

Inductive wv_buffer_type :=
| WV_BUFFER_UNSPEC
| WV_BUFFER_SHM
| WV_BUFFER_DMABUF.

Inductive wv_buffer_domain :=
| WV_BUFFER_DOMAIN_UNSPEC
| WV_BUFFER_DOMAIN_OUTPUT
| WV_BUFFER_DOMAIN_CURSOR.

Inductive screencopy_result :=
| SCREENCOPY_DONE
| SCREENCOPY_FAILED.

(** [struct pixman_box16]: four [int16_t]. *)
Record pixman_box16 := { x1 : Z; y1 : Z; x2 : Z; y2 : Z }.

(** A pixman region, as the list of rectangles that
    [pixman_region_rectangles] enumerates. *)
Definition region := list pixman_box16.

(** The fields of [struct wv_buffer] that this file reads or writes. *)
Record wv_buffer := {
  domain : wv_buffer_domain;
  buffer_damage : region;
  frame_damage : region
}.

(** Modelled from the spec: a consumer of the buffer registry of buffer.c,
    which is not under [src/].  The spec speaks of a registry of consumers,
    each with a pending frame damage that the completion of a capture marks;
    the call of the source names a domain, so a consumer is registered for
    one.  Neither says what a consumer is besides: the registry is kept
    apart from the store of buffers. *)
Record consumer := {
  consumer_domain : wv_buffer_domain;
  pending_frame_damage : region
}.

(** Bits or-ed into the [options] word of a capture request, and into the
    [flags] word of a commit.  The generated protocol headers that give them
    numbers are not part of [src/], so a word is kept as the list of the
    bits set in it. *)
Inductive option_bit :=
| OPTIONS_RENDER_CURSORS
| OPTIONS_PAINT_CURSORS
| OPTIONS_ON_DAMAGE.

Inductive log_message :=
| LogCommitted (immediate : bool) (b : option buf)
| LogInitDone
| LogReady
| LogFailed.

(** ** Calls that leave the translation unit

    Requests marshalled to the compositor, calls into buffer.c, pixman and
    neatvnc, and upcalls to the caller.  A constructor carries the arguments
    of the call and, for a call that creates an object, what it returned.

    [wv_buffer_registry_damage_all] and [wv_buffer_damage_rect] belong to
    buffer.c, which is not under [src/].  The first is recorded with the
    buffer whose [frame_damage] region is passed, the rectangles of that
    region at the time of the call, and the domain; what it does to the
    registry follows the spec, see [wv_buffer_registry_damage_all] below.
    The second is recorded with its arguments; what it does to the buffer
    is not modelled. *)

Inductive call :=
(* image sources *)
| c_create_output_source (manager : obj) (o : output) (ret : option obj)
| c_source_destroy (source : obj)
(* capture sessions *)
| c_manager_capture (manager source : obj) (options : list option_bit) (ret : option obj)
| c_manager_capture_cursor (manager source : obj) (options : list option_bit) (ret : option obj)
| c_cursor_get_screencopy_session (cursor : obj) (ret : option obj)
| c_manager_create_session (manager source : obj) (options : list option_bit) (ret : option obj)
| c_session_add_listener (session : obj)
| c_cursor_add_listener (cursor : obj)
| c_session_destroy (session : obj)
(* capture on the session object *)
| c_session_attach_buffer (session : obj) (b : buf)
| c_session_damage_buffer (session : obj) (x y w h : Z)
| c_session_commit (session : obj) (flags : list option_bit)
(* capture on a frame object *)
| c_session_create_frame (session : obj) (ret : option obj)
| c_frame_attach_buffer (frame : obj) (b : buf)
| c_frame_add_listener (frame : obj)
| c_frame_damage_buffer (frame : obj) (x y w h : Z)
| c_frame_capture (frame : obj)
| c_frame_destroy (frame : obj)
(* buffer.h *)
| c_pool_create (ret : option obj)
| c_pool_destroy (pool : option obj)
| c_pool_acquire (pool : option obj) (b : buf)
| c_pool_release (pool : option obj) (b : buf)
| c_pool_resize (pool : option obj) (type : wv_buffer_type) (w h stride format : Z)
| c_registry_damage_all (b : buf) (r : region) (d : wv_buffer_domain)
| c_buffer_damage_rect (b : option buf) (x y w h : Z)
| c_fb_set_transform (b : buf) (transform : Z)
| c_pixman_region_clear_buffer_damage (b : buf)
(* the caller's callbacks *)
| c_on_done (result : screencopy_result) (b : option buf) (userdata : nat)
| c_cursor_enter (userdata : nat)
| c_cursor_leave (userdata : nat)
| c_cursor_hotspot (x y : Z) (userdata : nat)
(* libc and logging *)
| c_log (m : log_message)
| c_free.

(** ** The world outside the session object *)

(** The [extern] manager globals, set by the registry code of the
    program. *)
Record managers := {
  screencopy_manager : option obj;
  ext_image_source_manager : option obj;
  ext_output_image_source_manager : option obj;
  ext_screencopy_manager : option obj
}.

(** What cannot be read off [src/]: the build option of [config.h], and
    whether an allocation or a proxy creation yields an object or [NULL]. *)
Record environment := {
  ENABLE_SCREENCOPY_DMABUF : bool;
  calloc_ok : bool;
  pool_create_ok : bool;
  source_ok : bool;
  session_ok : bool;
  cursor_ok : bool;
  frame_ok : bool
}.

(** The configuration last given to [wv_buffer_pool_resize]. *)
Record pool_config := {
  cfg_type : wv_buffer_type;
  cfg_width : Z;
  cfg_height : Z;
  cfg_stride : Z;
  cfg_format : Z
}.

(** The calls made so far; the buffers behind the [struct wv_buffer*]
    pointers; the consumers of the buffer registry; the buffers released to
    the pool, oldest first, and its configuration; the next free buffer and
    object ids; the manager globals; the environment. *)
Record world := {
  trace : list call;
  bufs : gmap buf wv_buffer;
  registry : list consumer;
  pool_queue : list buf;
  pool_cfg : pool_config;
  next_buf : buf;
  next_obj : obj;
  globals : managers;
  env : environment
}.

(** ** The monad of the handlers *)

Inductive fault :=
| assertion_failed (expr : string)
| null_dereference.

Inductive outcome (A : Type) :=
| Ok (a : A)
| Fault (f : fault).
Arguments Ok {A} a.
Arguments Fault {A} f.

Definition M (A : Type) : Type := world -> outcome (A * world).

Definition ret {A} (a : A) : M A := fun w => Ok (a, w).

Definition bind {A B} (m : M A) (k : A -> M B) : M B :=
  fun w => match m w with
           | Ok (a, w') => k a w'
           | Fault f => Fault f
           end.

Notation "'let*' x ':=' m 'in' k" := (bind m (fun x => k))
  (at level 10, x name, m at level 100, k at level 200, only parsing).
Notation "'let*' ' p ':=' m 'in' k" := (bind m (fun p => k))
  (at level 10, p pattern, m at level 100, k at level 200, only parsing).
Notation "m ';;;' k" := (bind m (fun _ => k))
  (at level 100, k at level 200, right associativity, only parsing).

Definition raise {A} (f : fault) : M A := fun _ => Fault f.

(** [assert(e)] of [<assert.h>]. *)
Definition assert (e : bool) (expr : string) : M unit :=
  if e then ret tt else raise (assertion_failed expr).
Arguments assert e expr%_string.

(** [if (p) f(p);] *)
Definition when_some {A} (p : option A) (f : A -> M unit) : M unit :=
  match p with
  | Some a => f a
  | None => ret tt
  end.

Definition set_trace (t : list call) (w : world) : world :=
  {| trace := t; bufs := bufs w; registry := registry w;
     pool_queue := pool_queue w;
     pool_cfg := pool_cfg w; next_buf := next_buf w; next_obj := next_obj w;
     globals := globals w; env := env w |}.

Definition set_bufs (m : gmap buf wv_buffer) (w : world) : world :=
  {| trace := trace w; bufs := m; registry := registry w;
     pool_queue := pool_queue w;
     pool_cfg := pool_cfg w; next_buf := next_buf w; next_obj := next_obj w;
     globals := globals w; env := env w |}.

Definition set_registry (r : list consumer) (w : world) : world :=
  {| trace := trace w; bufs := bufs w; registry := r;
     pool_queue := pool_queue w;
     pool_cfg := pool_cfg w; next_buf := next_buf w; next_obj := next_obj w;
     globals := globals w; env := env w |}.

Definition set_pool_queue (q : list buf) (w : world) : world :=
  {| trace := trace w; bufs := bufs w; registry := registry w;
     pool_queue := q;
     pool_cfg := pool_cfg w; next_buf := next_buf w; next_obj := next_obj w;
     globals := globals w; env := env w |}.

Definition set_pool_cfg (c : pool_config) (w : world) : world :=
  {| trace := trace w; bufs := bufs w; registry := registry w;
     pool_queue := pool_queue w;
     pool_cfg := c; next_buf := next_buf w; next_obj := next_obj w;
     globals := globals w; env := env w |}.

Definition set_next_buf (n : buf) (w : world) : world :=
  {| trace := trace w; bufs := bufs w; registry := registry w;
     pool_queue := pool_queue w;
     pool_cfg := pool_cfg w; next_buf := n; next_obj := next_obj w;
     globals := globals w; env := env w |}.

Definition set_next_obj (n : obj) (w : world) : world :=
  {| trace := trace w; bufs := bufs w; registry := registry w;
     pool_queue := pool_queue w;
     pool_cfg := pool_cfg w; next_buf := next_buf w; next_obj := n;
     globals := globals w; env := env w |}.

(** Record a call, after all earlier ones. *)
Definition emit (c : call) : M unit :=
  fun w => Ok (tt, set_trace (trace w ++ [c]) w).

Definition get_env : M environment := fun w => Ok (env w, w).
Definition get_globals : M managers := fun w => Ok (globals w, w).

(** A request marshalled on a proxy dereferences it. *)
Definition deref {A} (p : option A) : M A :=
  match p with
  | Some a => ret a
  | None => raise null_dereference
  end.

(** Creating a proxy: a new object id when the allocation succeeds. *)
Definition new_object (granted : bool) : M (option obj) :=
  fun w => if granted
           then Ok (Some (next_obj w), set_next_obj (S (next_obj w)) w)
           else Ok (None, w).

(** Reading and writing through a [struct wv_buffer*]. *)
Definition read_buffer (b : buf) : M wv_buffer :=
  fun w => Ok (default {| domain := WV_BUFFER_DOMAIN_UNSPEC;
                          buffer_damage := []; frame_damage := [] |}
                       (bufs w !! b), w).

Definition set_domain (d : wv_buffer_domain) (x : wv_buffer) : wv_buffer :=
  {| domain := d; buffer_damage := buffer_damage x;
     frame_damage := frame_damage x |}.

Definition set_buffer_damage (r : region) (x : wv_buffer) : wv_buffer :=
  {| domain := domain x; buffer_damage := r;
     frame_damage := frame_damage x |}.

Definition write_buffer (f : wv_buffer -> wv_buffer) (b : buf) : M unit :=
  fun w => Ok (tt, set_bufs (alter f b (bufs w)) w).

(** [pixman_region_clear(&b->buffer_damage)]: the region holds no rectangle
    afterwards. *)
Definition pixman_region_clear_buffer_damage (b : buf) : M unit :=
  write_buffer (set_buffer_damage []) b ;;;
  emit (c_pixman_region_clear_buffer_damage b).

(** ** The buffer registry of buffer.c *)

Definition wv_buffer_domain_eqb (a b : wv_buffer_domain) : bool :=
  match a, b with
  | WV_BUFFER_DOMAIN_UNSPEC, WV_BUFFER_DOMAIN_UNSPEC => true
  | WV_BUFFER_DOMAIN_OUTPUT, WV_BUFFER_DOMAIN_OUTPUT => true
  | WV_BUFFER_DOMAIN_CURSOR, WV_BUFFER_DOMAIN_CURSOR => true
  | _, _ => false
  end.

(** Modelled from the spec: marking the pending frame damage of a consumer
    with a region adds the rectangles of the region to those pending; a
    consumer of another domain is left as it is. *)
Definition mark (r : region) (d : wv_buffer_domain) (c : consumer)
    : consumer :=
  if wv_buffer_domain_eqb (consumer_domain c) d
  then {| consumer_domain := consumer_domain c;
          pending_frame_damage := pending_frame_damage c ++ r |}
  else c.

(** Modelled from the spec: every consumer of the registry is marked, in
    one step. *)
Definition mark_consumers (r : region) (d : wv_buffer_domain) : M unit :=
  fun w => Ok (tt, set_registry (map (mark r d) (registry w)) w).

(** Modelled from the spec: [wv_buffer_registry_damage_all(region, domain)]
    of buffer.c is not under [src/].  Following the spec (Buffer: the frame
    damage is written back to the registry of consumers on success;
    Completion: every consumer's pending frame damage is marked), it marks
    every consumer registered for [domain] with the region it is given.
    [b] is the buffer whose [frame_damage] the region is, kept for the
    record of the call. *)
Definition wv_buffer_registry_damage_all (b : buf) (r : region)
    (d : wv_buffer_domain) : M unit :=
  mark_consumers r d ;;;
  emit (c_registry_damage_all b r d).

(** ** The buffer pool of buffer.c *)

(** Modelled from the spec: the Buffer Pool ([wv_buffer_pool_acquire],
    [wv_buffer_pool_release], [wv_buffer_pool_resize],
    [wv_buffer_pool_create], [wv_buffer_pool_destroy] of buffer.c) is not
    under [src/].  Following the interface of the spec (section 6:
    acquire() gives a Buffer, release(Buffer), resize(type, width, height,
    stride, format)) and its description as an allocator that allocates and
    recycles buffers: acquire hands out the oldest released buffer, or a
    new one when none waits; release queues the buffer for reuse; resize
    records the configuration. *)
Definition wv_buffer_pool_acquire (pool : option obj) : M buf :=
  fun w =>
    match pool_queue w with
    | b :: q =>
        Ok (b, set_trace (trace w ++ [c_pool_acquire pool b])
                 (set_pool_queue q w))
    | [] =>
        let b := next_buf w in
        let fresh := {| domain := WV_BUFFER_DOMAIN_UNSPEC;
                        buffer_damage := []; frame_damage := [] |} in
        Ok (b, set_trace (trace w ++ [c_pool_acquire pool b])
                 (set_next_buf (S b) (set_bufs (<[b := fresh]> (bufs w)) w)))
    end.

(** Modelled from the spec: [wv_buffer_pool_release] of buffer.c, see
    [wv_buffer_pool_acquire]. *)
Definition wv_buffer_pool_release (pool : option obj) (b : buf) : M unit :=
  fun w =>
    Ok (tt, set_trace (trace w ++ [c_pool_release pool b])
              (set_pool_queue (pool_queue w ++ [b]) w)).

(** Modelled from the spec: [wv_buffer_pool_resize] of buffer.c, see
    [wv_buffer_pool_acquire]. *)
Definition wv_buffer_pool_resize (pool : option obj) (type : wv_buffer_type)
    (w_ h_ stride format : Z) : M unit :=
  fun w =>
    Ok (tt, set_trace (trace w ++ [c_pool_resize pool type w_ h_ stride format])
              (set_pool_cfg {| cfg_type := type; cfg_width := w_;
                               cfg_height := h_; cfg_stride := stride;
                               cfg_format := format |} w)).

(** Modelled from the spec: [wv_buffer_pool_create] of buffer.c; it
    yields a pool, or [NULL] when the allocation fails. *)
Definition wv_buffer_pool_create : M (option obj) :=
  let* e := get_env in
  let* p := new_object (pool_create_ok e) in
  emit (c_pool_create p) ;;;
  ret p.

(** Modelled from the spec: [wv_buffer_pool_destroy] of buffer.c. *)
Definition wv_buffer_pool_destroy (pool : option obj) : M unit :=
  emit (c_pool_destroy pool).

(** The fields of [struct screencopy] (screencopy-interface.h) that the
    backends use, but for [on_done], which is [on_done_fn] below.
    [userdata] is the caller's.  A cursor callback is a function pointer
    that may be [NULL]. *)
Record screencopy_parent := {
  rate_limit : Z;
  enable_linux_dmabuf : bool;
  userdata : nat;
  cursor_enter : bool;
  cursor_leave : bool;
  cursor_hotspot : bool
}.

Definition set_rate_limit (v : Z) (p : screencopy_parent) : screencopy_parent :=
  {| rate_limit := v; enable_linux_dmabuf := enable_linux_dmabuf p;
     userdata := userdata p; cursor_enter := cursor_enter p;
     cursor_leave := cursor_leave p; cursor_hotspot := cursor_hotspot p |}.

(** What [calloc] leaves in the parent.  It leaves the [on_done] pointer
    null as well; that pointer is not a field here, see [on_done_fn]. *)
Definition zero_parent : screencopy_parent :=
  {| rate_limit := 0; enable_linux_dmabuf := false; userdata := 0%nat;
     cursor_enter := false; cursor_leave := false; cursor_hotspot := false |}.

(** The completion callback [on_done] of [struct screencopy], called as
    [self->parent.on_done(result, buffer, self->parent.userdata)].  The
    pointer is the owner's: [calloc] leaves it null, no function of the
    source file writes it, and the handlers call it unchecked, so the owner
    has to store its callback once [create] has returned.  The callback
    runs on the session object as the handler has left it, and may change
    it by calling back into the session.  Its type mentions the session
    object [T], so the pointer is an argument of the handlers that call it
    ([..._with]) rather than a field of [screencopy_parent]. *)
Definition on_done_fn (T : Type) : Type :=
  screencopy_result -> option buf -> nat -> T -> M T.

(** The callback of an owner that does not call back into the session:
    the call is recorded with its arguments.  The handlers named as in the
    source, the listeners and the runs take this callback as installed. *)
Definition on_done_recorded {T} (result : screencopy_result)
    (b : option buf) (userdata : nat) (self : T) : M T :=
  emit (c_on_done result b userdata) ;;;
  ret self.
Arguments on_done_recorded {T} result b userdata self /.

(** The damage hints of one capture:
    [x = rects[i].x1; y = rects[i].y1; width = rects[i].x2 - x;
     height = rects[i].y2 - y], all four [uint32_t]. *)
Definition damage_hint (r : pixman_box16) : Z * Z * Z * Z :=
  let x := u32 (x1 r) in
  let y := u32 (y1 r) in
  let width := u32 (x2 r - x) in
  let height := u32 (y2 r - y) in
  (x, y, width, height).

(** [for (int i = 0; i < n_rects; ++i) body(rects[i])] *)
Fixpoint for_each {A} (l : list A) (body : A -> M unit) : M unit :=
  match l with
  | [] => ret tt
  | a :: l' => body a ;;; for_each l' body
  end.

(** [struct screencopy_impl] of screencopy-interface.h: the function table
    of a backend whose session object has type [T].  [create_cursor] may be
    a null pointer. *)
Record screencopy_impl (T : Type) := {
  create : output -> bool -> M (option T);
  create_cursor : option (output -> M (option T));
  destroy : T -> M unit;
  start : T -> bool -> M (Z * T);
  stop : T -> M T
}.
Arguments create {T} _ _ _.
Arguments create_cursor {T} _.
Arguments destroy {T} _ _.
Arguments start {T} _ _ _.
Arguments stop {T} _ _.

(** ** The backend that captures on the session object

    Second translation unit of the source file (its lines 59 to 488). *)
Module Session.

Record ext_screencopy := {
  parent : screencopy_parent;
  wl_output : output;
  session : option obj;
  cursor : option obj;
  render_cursors : bool;
  pool : option obj;
  buffer : option buf;
  have_buffer_info : bool;
  should_start : bool;
  shall_be_immediate : bool;
  capture_cursor : bool;
  width : Z;
  height : Z;
  wl_shm_stride : Z;
  wl_shm_format : Z;
  have_wl_shm : bool;
  have_linux_dmabuf : bool;
  dmabuf_format : Z
}.

Definition set_session (v : option obj) (self : ext_screencopy) : ext_screencopy :=
  {| parent := parent self; wl_output := wl_output self; session := v;
     cursor := cursor self; render_cursors := render_cursors self;
     pool := pool self; buffer := buffer self;
     have_buffer_info := have_buffer_info self;
     should_start := should_start self;
     shall_be_immediate := shall_be_immediate self;
     capture_cursor := capture_cursor self; width := width self;
     height := height self; wl_shm_stride := wl_shm_stride self;
     wl_shm_format := wl_shm_format self; have_wl_shm := have_wl_shm self;
     have_linux_dmabuf := have_linux_dmabuf self;
     dmabuf_format := dmabuf_format self |}.

Definition set_cursor (v : option obj) (self : ext_screencopy) : ext_screencopy :=
  {| parent := parent self; wl_output := wl_output self;
     session := session self; cursor := v;
     render_cursors := render_cursors self; pool := pool self;
     buffer := buffer self; have_buffer_info := have_buffer_info self;
     should_start := should_start self;
     shall_be_immediate := shall_be_immediate self;
     capture_cursor := capture_cursor self; width := width self;
     height := height self; wl_shm_stride := wl_shm_stride self;
     wl_shm_format := wl_shm_format self; have_wl_shm := have_wl_shm self;
     have_linux_dmabuf := have_linux_dmabuf self;
     dmabuf_format := dmabuf_format self |}.

Definition set_buffer (v : option buf) (self : ext_screencopy) : ext_screencopy :=
  {| parent := parent self; wl_output := wl_output self;
     session := session self; cursor := cursor self;
     render_cursors := render_cursors self; pool := pool self; buffer := v;
     have_buffer_info := have_buffer_info self;
     should_start := should_start self;
     shall_be_immediate := shall_be_immediate self;
     capture_cursor := capture_cursor self; width := width self;
     height := height self; wl_shm_stride := wl_shm_stride self;
     wl_shm_format := wl_shm_format self; have_wl_shm := have_wl_shm self;
     have_linux_dmabuf := have_linux_dmabuf self;
     dmabuf_format := dmabuf_format self |}.

Definition set_have_buffer_info (v : bool) (self : ext_screencopy) : ext_screencopy :=
  {| parent := parent self; wl_output := wl_output self;
     session := session self; cursor := cursor self;
     render_cursors := render_cursors self; pool := pool self;
     buffer := buffer self; have_buffer_info := v;
     should_start := should_start self;
     shall_be_immediate := shall_be_immediate self;
     capture_cursor := capture_cursor self; width := width self;
     height := height self; wl_shm_stride := wl_shm_stride self;
     wl_shm_format := wl_shm_format self; have_wl_shm := have_wl_shm self;
     have_linux_dmabuf := have_linux_dmabuf self;
     dmabuf_format := dmabuf_format self |}.

Definition set_should_start (v : bool) (self : ext_screencopy) : ext_screencopy :=
  {| parent := parent self; wl_output := wl_output self;
     session := session self; cursor := cursor self;
     render_cursors := render_cursors self; pool := pool self;
     buffer := buffer self; have_buffer_info := have_buffer_info self;
     should_start := v; shall_be_immediate := shall_be_immediate self;
     capture_cursor := capture_cursor self; width := width self;
     height := height self; wl_shm_stride := wl_shm_stride self;
     wl_shm_format := wl_shm_format self; have_wl_shm := have_wl_shm self;
     have_linux_dmabuf := have_linux_dmabuf self;
     dmabuf_format := dmabuf_format self |}.

Definition set_shall_be_immediate (v : bool) (self : ext_screencopy) : ext_screencopy :=
  {| parent := parent self; wl_output := wl_output self;
     session := session self; cursor := cursor self;
     render_cursors := render_cursors self; pool := pool self;
     buffer := buffer self; have_buffer_info := have_buffer_info self;
     should_start := should_start self; shall_be_immediate := v;
     capture_cursor := capture_cursor self; width := width self;
     height := height self; wl_shm_stride := wl_shm_stride self;
     wl_shm_format := wl_shm_format self; have_wl_shm := have_wl_shm self;
     have_linux_dmabuf := have_linux_dmabuf self;
     dmabuf_format := dmabuf_format self |}.

Definition set_width (v : Z) (self : ext_screencopy) : ext_screencopy :=
  {| parent := parent self; wl_output := wl_output self;
     session := session self; cursor := cursor self;
     render_cursors := render_cursors self; pool := pool self;
     buffer := buffer self; have_buffer_info := have_buffer_info self;
     should_start := should_start self;
     shall_be_immediate := shall_be_immediate self;
     capture_cursor := capture_cursor self; width := v;
     height := height self; wl_shm_stride := wl_shm_stride self;
     wl_shm_format := wl_shm_format self; have_wl_shm := have_wl_shm self;
     have_linux_dmabuf := have_linux_dmabuf self;
     dmabuf_format := dmabuf_format self |}.

Definition set_height (v : Z) (self : ext_screencopy) : ext_screencopy :=
  {| parent := parent self; wl_output := wl_output self;
     session := session self; cursor := cursor self;
     render_cursors := render_cursors self; pool := pool self;
     buffer := buffer self; have_buffer_info := have_buffer_info self;
     should_start := should_start self;
     shall_be_immediate := shall_be_immediate self;
     capture_cursor := capture_cursor self; width := width self;
     height := v; wl_shm_stride := wl_shm_stride self;
     wl_shm_format := wl_shm_format self; have_wl_shm := have_wl_shm self;
     have_linux_dmabuf := have_linux_dmabuf self;
     dmabuf_format := dmabuf_format self |}.

Definition set_wl_shm_stride (v : Z) (self : ext_screencopy) : ext_screencopy :=
  {| parent := parent self; wl_output := wl_output self;
     session := session self; cursor := cursor self;
     render_cursors := render_cursors self; pool := pool self;
     buffer := buffer self; have_buffer_info := have_buffer_info self;
     should_start := should_start self;
     shall_be_immediate := shall_be_immediate self;
     capture_cursor := capture_cursor self; width := width self;
     height := height self; wl_shm_stride := v;
     wl_shm_format := wl_shm_format self; have_wl_shm := have_wl_shm self;
     have_linux_dmabuf := have_linux_dmabuf self;
     dmabuf_format := dmabuf_format self |}.

Definition set_wl_shm_format (v : Z) (self : ext_screencopy) : ext_screencopy :=
  {| parent := parent self; wl_output := wl_output self;
     session := session self; cursor := cursor self;
     render_cursors := render_cursors self; pool := pool self;
     buffer := buffer self; have_buffer_info := have_buffer_info self;
     should_start := should_start self;
     shall_be_immediate := shall_be_immediate self;
     capture_cursor := capture_cursor self; width := width self;
     height := height self; wl_shm_stride := wl_shm_stride self;
     wl_shm_format := v; have_wl_shm := have_wl_shm self;
     have_linux_dmabuf := have_linux_dmabuf self;
     dmabuf_format := dmabuf_format self |}.

Definition set_have_wl_shm (v : bool) (self : ext_screencopy) : ext_screencopy :=
  {| parent := parent self; wl_output := wl_output self;
     session := session self; cursor := cursor self;
     render_cursors := render_cursors self; pool := pool self;
     buffer := buffer self; have_buffer_info := have_buffer_info self;
     should_start := should_start self;
     shall_be_immediate := shall_be_immediate self;
     capture_cursor := capture_cursor self; width := width self;
     height := height self; wl_shm_stride := wl_shm_stride self;
     wl_shm_format := wl_shm_format self; have_wl_shm := v;
     have_linux_dmabuf := have_linux_dmabuf self;
     dmabuf_format := dmabuf_format self |}.

Definition set_have_linux_dmabuf (v : bool) (self : ext_screencopy) : ext_screencopy :=
  {| parent := parent self; wl_output := wl_output self;
     session := session self; cursor := cursor self;
     render_cursors := render_cursors self; pool := pool self;
     buffer := buffer self; have_buffer_info := have_buffer_info self;
     should_start := should_start self;
     shall_be_immediate := shall_be_immediate self;
     capture_cursor := capture_cursor self; width := width self;
     height := height self; wl_shm_stride := wl_shm_stride self;
     wl_shm_format := wl_shm_format self; have_wl_shm := have_wl_shm self;
     have_linux_dmabuf := v; dmabuf_format := dmabuf_format self |}.

Definition set_dmabuf_format (v : Z) (self : ext_screencopy) : ext_screencopy :=
  {| parent := parent self; wl_output := wl_output self;
     session := session self; cursor := cursor self;
     render_cursors := render_cursors self; pool := pool self;
     buffer := buffer self; have_buffer_info := have_buffer_info self;
     should_start := should_start self;
     shall_be_immediate := shall_be_immediate self;
     capture_cursor := capture_cursor self; width := width self;
     height := height self; wl_shm_stride := wl_shm_stride self;
     wl_shm_format := wl_shm_format self; have_wl_shm := have_wl_shm self;
     have_linux_dmabuf := have_linux_dmabuf self; dmabuf_format := v |}.


(** [enum ext_screencopy_session_v1_failure_reason]: the handler tells
    [INVALID_BUFFER] from every other value on the wire. *)
Inductive failure_reason :=
| FAILURE_REASON_INVALID_BUFFER
| FAILURE_REASON_OTHER (code : Z).

Definition capture_domain (self : ext_screencopy) : wv_buffer_domain :=
  if capture_cursor self then WV_BUFFER_DOMAIN_CURSOR
  else WV_BUFFER_DOMAIN_OUTPUT.

Definition ext_screencopy_init_session (self : ext_screencopy)
    : M (Z * ext_screencopy) :=
  when_some (session self) (fun s => emit (c_session_destroy s)) ;;;
  let* g := get_globals in
  let* e := get_env in
  let* source_manager := deref (ext_image_source_manager g) in
  let* source := new_object (source_ok e) in
  emit (c_create_output_source source_manager (wl_output self) source) ;;;
  match source with
  | None => ret (-1, self)
  | Some source =>
      let options :=
        if render_cursors self then [OPTIONS_RENDER_CURSORS] else [] in
      let listen (self : ext_screencopy) : M (Z * ext_screencopy) :=
        match session self with
        | None => ret (-1, self)
        | Some s =>
            emit (c_session_add_listener s) ;;;
            (if capture_cursor self
             then let* c := deref (cursor self) in
                  emit (c_cursor_add_listener c)
             else ret tt) ;;;
            ret (0, self)
        end in
      let* manager := deref (ext_screencopy_manager g) in
      if capture_cursor self then
        let* c := new_object (cursor_ok e) in
        emit (c_manager_capture_cursor manager source options c) ;;;
        let self := set_cursor c self in
        emit (c_source_destroy source) ;;;
        match c with
        | None => ret (-1, self)
        | Some c =>
            let* s := new_object (session_ok e) in
            emit (c_cursor_get_screencopy_session c s) ;;;
            listen (set_session s self)
        end
      else
        let* s := new_object (session_ok e) in
        emit (c_manager_capture manager source options s) ;;;
        let self := set_session s self in
        emit (c_source_destroy source) ;;;
        listen self
  end.

Definition ext_screencopy_schedule_capture (self : ext_screencopy)
    (immediate : bool) : M ext_screencopy :=
  let* b := wv_buffer_pool_acquire (pool self) in
  let self := set_buffer (Some b) self in
  write_buffer (set_domain (capture_domain self)) b ;;;
  let* s := deref (session self) in
  emit (c_session_attach_buffer s b) ;;;
  let* x := read_buffer b in
  for_each (buffer_damage x)
    (fun r => let '(x, y, width, height) := damage_hint r in
              emit (c_session_damage_buffer s x y width height)) ;;;
  let flags := if negb immediate then [OPTIONS_ON_DAMAGE] else [] in
  emit (c_session_commit s flags) ;;;
  emit (c_log (LogCommitted immediate (buffer self))) ;;;
  ret self.

Definition session_handle_format_shm (self : ext_screencopy) (format : Z)
    : M ext_screencopy :=
  let self := set_have_wl_shm true self in
  let self := set_wl_shm_format format self in
  ret self.

Definition session_handle_format_drm (self : ext_screencopy) (format : Z)
    : M ext_screencopy :=
  let* e := get_env in
  if ENABLE_SCREENCOPY_DMABUF e then
    let self := set_have_linux_dmabuf true self in
    let self := set_dmabuf_format format self in
    ret self
  else ret self.

Definition session_handle_dimensions (self : ext_screencopy)
    (width height : Z) : M ext_screencopy :=
  let self := set_width width self in
  let self := set_height height self in
  let self := set_wl_shm_stride (u32 (width * 4)) self in
  ret self.

Definition session_handle_constraints_done (self : ext_screencopy)
    : M ext_screencopy :=
  let* e := get_env in
  let width := width self in
  let height := height self in
  let '(format, stride, type) :=
    if ENABLE_SCREENCOPY_DMABUF e && (have_linux_dmabuf self
                                      && enable_linux_dmabuf (parent self))
    then (dmabuf_format self, 0, WV_BUFFER_DMABUF)
    else (wl_shm_format self, wl_shm_stride self, WV_BUFFER_SHM) in
  wv_buffer_pool_resize (pool self) type width height stride format ;;;
  let* self :=
    if should_start self then
      let* self := ext_screencopy_schedule_capture self
                     (shall_be_immediate self) in
      let self := set_should_start false self in
      let self := set_shall_be_immediate false self in
      ret self
    else ret self in
  let self := set_have_buffer_info true self in
  emit (c_log LogInitDone) ;;;
  ret self.

Definition session_handle_transform (self : ext_screencopy) (transform : Z)
    : M ext_screencopy :=
  assert (bool_decide (buffer self <> None)) "self->buffer" ;;;
  let* b := deref (buffer self) in
  emit (c_fb_set_transform b transform) ;;;
  ret self.

Definition session_handle_ready_with
    (on_done : option (on_done_fn ext_screencopy)) (self : ext_screencopy)
    : M ext_screencopy :=
  emit (c_log LogReady) ;;;
  assert (bool_decide (buffer self <> None)) "self->buffer" ;;;
  let* b := deref (buffer self) in
  let domain := capture_domain self in
  let* x := read_buffer b in
  wv_buffer_registry_damage_all b (frame_damage x) domain ;;;
  pixman_region_clear_buffer_damage b ;;;
  let buffer := b in
  let self := set_buffer None self in
  let* on_done := deref on_done in
  on_done SCREENCOPY_DONE (Some buffer) (userdata (parent self)) self.

(** [session_handle_ready] with the callback of the owner installed. *)
Definition session_handle_ready (self : ext_screencopy) : M ext_screencopy :=
  session_handle_ready_with (Some on_done_recorded) self.

Definition session_handle_failed_with
    (on_done : option (on_done_fn ext_screencopy)) (self : ext_screencopy)
    (reason : failure_reason) : M ext_screencopy :=
  emit (c_log LogFailed) ;;;
  assert (bool_decide (buffer self <> None)) "self->buffer" ;;;
  let* b := deref (buffer self) in
  wv_buffer_pool_release (pool self) b ;;;
  let self := set_buffer None self in
  let* self :=
    match reason with
    | FAILURE_REASON_INVALID_BUFFER =>
        let* '(_, self) := ext_screencopy_init_session self in ret self
    | FAILURE_REASON_OTHER _ => ret self
    end in
  let* on_done := deref on_done in
  on_done SCREENCOPY_FAILED None (userdata (parent self)) self.

(** [session_handle_failed] with the callback of the owner installed. *)
Definition session_handle_failed (self : ext_screencopy)
    (reason : failure_reason) : M ext_screencopy :=
  session_handle_failed_with (Some on_done_recorded) self reason.

Definition session_handle_damage (self : ext_screencopy) (x y width height : Z)
    : M ext_screencopy :=
  emit (c_buffer_damage_rect (buffer self) x y width height) ;;;
  ret self.

Definition session_handle_presentation_time (self : ext_screencopy)
    (sec_hi sec_lo nsec : Z) : M ext_screencopy :=
  ret self.

Definition cursor_handle_enter (self : ext_screencopy) : M ext_screencopy :=
  (if cursor_enter (parent self)
   then emit (c_cursor_enter (userdata (parent self)))
   else ret tt) ;;;
  ret self.

Definition cursor_handle_leave (self : ext_screencopy) : M ext_screencopy :=
  (if cursor_leave (parent self)
   then emit (c_cursor_leave (userdata (parent self)))
   else ret tt) ;;;
  ret self.

Definition cursor_handle_position (self : ext_screencopy) (x y : Z)
    : M ext_screencopy :=
  ret self.

Definition cursor_handle_hotspot (self : ext_screencopy) (x y : Z)
    : M ext_screencopy :=
  (if cursor_hotspot (parent self)
   then emit (c_cursor_hotspot x y (userdata (parent self)))
   else ret tt) ;;;
  ret self.

Definition ext_screencopy_start (self : ext_screencopy) (immediate : bool)
    : M (Z * ext_screencopy) :=
  let* self :=
    if negb (have_buffer_info self) then
      let self := set_should_start true self in
      let self := set_shall_be_immediate immediate self in
      ret self
    else ext_screencopy_schedule_capture self immediate in
  ret (0, self).

Definition ext_screencopy_stop (self : ext_screencopy) : M ext_screencopy :=
  ret self.

(** The object [calloc] returns, with the assignments that [create] and
    [create_cursor] make before they open the session. *)
Definition new_self (o : output) (render_cursor capture : bool)
    (p : option obj) : ext_screencopy :=
  {| parent := set_rate_limit 30 zero_parent; wl_output := o;
     session := None; cursor := None; render_cursors := render_cursor;
     pool := p; buffer := None; have_buffer_info := false;
     should_start := false; shall_be_immediate := false;
     capture_cursor := capture; width := 0; height := 0;
     wl_shm_stride := 0; wl_shm_format := 0; have_wl_shm := false;
     have_linux_dmabuf := false; dmabuf_format := 0 |}.

Definition ext_screencopy_create (o : output) (render_cursor : bool)
    : M (option ext_screencopy) :=
  let* e := get_env in
  if negb (calloc_ok e) then ret None else
  let* p := wv_buffer_pool_create in
  let self := new_self o render_cursor false p in
  match p with
  | None => emit c_free ;;; ret None
  | Some _ =>
      let* '(r, self) := ext_screencopy_init_session self in
      if r <? 0
      then wv_buffer_pool_destroy (pool self) ;;; emit c_free ;;; ret None
      else ret (Some self)
  end.

Definition ext_screencopy_create_cursor (o : output)
    : M (option ext_screencopy) :=
  let* e := get_env in
  if negb (calloc_ok e) then ret None else
  let* p := wv_buffer_pool_create in
  let self := new_self o false true p in
  match p with
  | None => emit c_free ;;; ret None
  | Some _ =>
      let* '(r, self) := ext_screencopy_init_session self in
      if r <? 0
      then wv_buffer_pool_destroy (pool self) ;;; emit c_free ;;; ret None
      else ret (Some self)
  end.

Definition ext_screencopy_destroy (self : ext_screencopy) : M unit :=
  when_some (session self) (fun s => emit (c_session_destroy s)) ;;;
  when_some (buffer self) (fun b => wv_buffer_pool_release (pool self) b) ;;;
  emit c_free.

Definition ext_screencopy_impl : screencopy_impl ext_screencopy :=
  {| create := ext_screencopy_create;
     create_cursor := Some ext_screencopy_create_cursor;
     destroy := ext_screencopy_destroy;
     start := ext_screencopy_start;
     stop := ext_screencopy_stop |}.

(** The events of [session_listener], in the order of its initialiser. *)
Inductive session_event :=
| ev_format_shm (format : Z)
| ev_format_drm (format : Z)
| ev_dimensions (width height : Z)
| ev_constraints_done
| ev_damage (x y width height : Z)
| ev_presentation_time (sec_hi sec_lo nsec : Z)
| ev_transform (t : Z)
| ev_ready
| ev_failed (reason : failure_reason).

Definition session_listener (self : ext_screencopy) (ev : session_event)
    : M ext_screencopy :=
  match ev with
  | ev_format_shm format => session_handle_format_shm self format
  | ev_format_drm format => session_handle_format_drm self format
  | ev_dimensions width height => session_handle_dimensions self width height
  | ev_constraints_done => session_handle_constraints_done self
  | ev_damage x y width height => session_handle_damage self x y width height
  | ev_presentation_time sec_hi sec_lo nsec =>
      session_handle_presentation_time self sec_hi sec_lo nsec
  | ev_transform t => session_handle_transform self t
  | ev_ready => session_handle_ready self
  | ev_failed reason => session_handle_failed self reason
  end.

(** The events of [cursor_listener]. *)
Inductive cursor_event :=
| ev_enter
| ev_leave
| ev_position (x y : Z)
| ev_hotspot (x y : Z).

Definition cursor_listener (self : ext_screencopy) (ev : cursor_event)
    : M ext_screencopy :=
  match ev with
  | ev_enter => cursor_handle_enter self
  | ev_leave => cursor_handle_leave self
  | ev_position x y => cursor_handle_position self x y
  | ev_hotspot x y => cursor_handle_hotspot self x y
  end.

(** What can happen to a session between its creation and its
    destruction: a call of the owner, or an event of one of the two
    listeners. *)
Inductive input :=
| call_start (immediate : bool)
| call_stop
| on_session (ev : session_event)
| on_cursor (ev : cursor_event).

Definition step (self : ext_screencopy) (i : input) : M ext_screencopy :=
  match i with
  | call_start immediate =>
      let* '(_, self) := ext_screencopy_start self immediate in ret self
  | call_stop => ext_screencopy_stop self
  | on_session ev => session_listener self ev
  | on_cursor ev => cursor_listener self ev
  end.

Fixpoint run (self : ext_screencopy) (l : list input) : M ext_screencopy :=
  match l with
  | [] => ret self
  | i :: l' => let* self := step self i in run self l'
  end.

End Session.

(** ** The backend that captures through frame objects

    Third translation unit of the source file (its lines 489 to 943). *)
Module Frame.

Record ext_screencopy := {
  parent : screencopy_parent;
  wl_output : output;
  session : option obj;
  frame : option obj;
  cursor : option obj;
  render_cursors : bool;
  pool : option obj;
  buffer : option buf;
  have_buffer_info : bool;
  should_start : bool;
  shall_be_immediate : bool;
  capture_cursor : bool;
  width : Z;
  height : Z;
  wl_shm_stride : Z;
  wl_shm_format : Z;
  have_wl_shm : bool;
  have_linux_dmabuf : bool;
  dmabuf_format : Z
}.

Definition set_session (v : option obj) (self : ext_screencopy) : ext_screencopy :=
  {| parent := parent self; wl_output := wl_output self; session := v;
     frame := frame self; cursor := cursor self;
     render_cursors := render_cursors self; pool := pool self;
     buffer := buffer self; have_buffer_info := have_buffer_info self;
     should_start := should_start self;
     shall_be_immediate := shall_be_immediate self;
     capture_cursor := capture_cursor self; width := width self;
     height := height self; wl_shm_stride := wl_shm_stride self;
     wl_shm_format := wl_shm_format self; have_wl_shm := have_wl_shm self;
     have_linux_dmabuf := have_linux_dmabuf self;
     dmabuf_format := dmabuf_format self |}.

Definition set_frame (v : option obj) (self : ext_screencopy) : ext_screencopy :=
  {| parent := parent self; wl_output := wl_output self;
     session := session self; frame := v; cursor := cursor self;
     render_cursors := render_cursors self; pool := pool self;
     buffer := buffer self; have_buffer_info := have_buffer_info self;
     should_start := should_start self;
     shall_be_immediate := shall_be_immediate self;
     capture_cursor := capture_cursor self; width := width self;
     height := height self; wl_shm_stride := wl_shm_stride self;
     wl_shm_format := wl_shm_format self; have_wl_shm := have_wl_shm self;
     have_linux_dmabuf := have_linux_dmabuf self;
     dmabuf_format := dmabuf_format self |}.

Definition set_cursor (v : option obj) (self : ext_screencopy) : ext_screencopy :=
  {| parent := parent self; wl_output := wl_output self;
     session := session self; frame := frame self; cursor := v;
     render_cursors := render_cursors self; pool := pool self;
     buffer := buffer self; have_buffer_info := have_buffer_info self;
     should_start := should_start self;
     shall_be_immediate := shall_be_immediate self;
     capture_cursor := capture_cursor self; width := width self;
     height := height self; wl_shm_stride := wl_shm_stride self;
     wl_shm_format := wl_shm_format self; have_wl_shm := have_wl_shm self;
     have_linux_dmabuf := have_linux_dmabuf self;
     dmabuf_format := dmabuf_format self |}.

Definition set_buffer (v : option buf) (self : ext_screencopy) : ext_screencopy :=
  {| parent := parent self; wl_output := wl_output self;
     session := session self; frame := frame self; cursor := cursor self;
     render_cursors := render_cursors self; pool := pool self; buffer := v;
     have_buffer_info := have_buffer_info self;
     should_start := should_start self;
     shall_be_immediate := shall_be_immediate self;
     capture_cursor := capture_cursor self; width := width self;
     height := height self; wl_shm_stride := wl_shm_stride self;
     wl_shm_format := wl_shm_format self; have_wl_shm := have_wl_shm self;
     have_linux_dmabuf := have_linux_dmabuf self;
     dmabuf_format := dmabuf_format self |}.

Definition set_have_buffer_info (v : bool) (self : ext_screencopy) : ext_screencopy :=
  {| parent := parent self; wl_output := wl_output self;
     session := session self; frame := frame self; cursor := cursor self;
     render_cursors := render_cursors self; pool := pool self;
     buffer := buffer self; have_buffer_info := v;
     should_start := should_start self;
     shall_be_immediate := shall_be_immediate self;
     capture_cursor := capture_cursor self; width := width self;
     height := height self; wl_shm_stride := wl_shm_stride self;
     wl_shm_format := wl_shm_format self; have_wl_shm := have_wl_shm self;
     have_linux_dmabuf := have_linux_dmabuf self;
     dmabuf_format := dmabuf_format self |}.

Definition set_should_start (v : bool) (self : ext_screencopy) : ext_screencopy :=
  {| parent := parent self; wl_output := wl_output self;
     session := session self; frame := frame self; cursor := cursor self;
     render_cursors := render_cursors self; pool := pool self;
     buffer := buffer self; have_buffer_info := have_buffer_info self;
     should_start := v; shall_be_immediate := shall_be_immediate self;
     capture_cursor := capture_cursor self; width := width self;
     height := height self; wl_shm_stride := wl_shm_stride self;
     wl_shm_format := wl_shm_format self; have_wl_shm := have_wl_shm self;
     have_linux_dmabuf := have_linux_dmabuf self;
     dmabuf_format := dmabuf_format self |}.

Definition set_shall_be_immediate (v : bool) (self : ext_screencopy) : ext_screencopy :=
  {| parent := parent self; wl_output := wl_output self;
     session := session self; frame := frame self; cursor := cursor self;
     render_cursors := render_cursors self; pool := pool self;
     buffer := buffer self; have_buffer_info := have_buffer_info self;
     should_start := should_start self; shall_be_immediate := v;
     capture_cursor := capture_cursor self; width := width self;
     height := height self; wl_shm_stride := wl_shm_stride self;
     wl_shm_format := wl_shm_format self; have_wl_shm := have_wl_shm self;
     have_linux_dmabuf := have_linux_dmabuf self;
     dmabuf_format := dmabuf_format self |}.

Definition set_width (v : Z) (self : ext_screencopy) : ext_screencopy :=
  {| parent := parent self; wl_output := wl_output self;
     session := session self; frame := frame self; cursor := cursor self;
     render_cursors := render_cursors self; pool := pool self;
     buffer := buffer self; have_buffer_info := have_buffer_info self;
     should_start := should_start self;
     shall_be_immediate := shall_be_immediate self;
     capture_cursor := capture_cursor self; width := v;
     height := height self; wl_shm_stride := wl_shm_stride self;
     wl_shm_format := wl_shm_format self; have_wl_shm := have_wl_shm self;
     have_linux_dmabuf := have_linux_dmabuf self;
     dmabuf_format := dmabuf_format self |}.

Definition set_height (v : Z) (self : ext_screencopy) : ext_screencopy :=
  {| parent := parent self; wl_output := wl_output self;
     session := session self; frame := frame self; cursor := cursor self;
     render_cursors := render_cursors self; pool := pool self;
     buffer := buffer self; have_buffer_info := have_buffer_info self;
     should_start := should_start self;
     shall_be_immediate := shall_be_immediate self;
     capture_cursor := capture_cursor self; width := width self;
     height := v; wl_shm_stride := wl_shm_stride self;
     wl_shm_format := wl_shm_format self; have_wl_shm := have_wl_shm self;
     have_linux_dmabuf := have_linux_dmabuf self;
     dmabuf_format := dmabuf_format self |}.

Definition set_wl_shm_stride (v : Z) (self : ext_screencopy) : ext_screencopy :=
  {| parent := parent self; wl_output := wl_output self;
     session := session self; frame := frame self; cursor := cursor self;
     render_cursors := render_cursors self; pool := pool self;
     buffer := buffer self; have_buffer_info := have_buffer_info self;
     should_start := should_start self;
     shall_be_immediate := shall_be_immediate self;
     capture_cursor := capture_cursor self; width := width self;
     height := height self; wl_shm_stride := v;
     wl_shm_format := wl_shm_format self; have_wl_shm := have_wl_shm self;
     have_linux_dmabuf := have_linux_dmabuf self;
     dmabuf_format := dmabuf_format self |}.

Definition set_wl_shm_format (v : Z) (self : ext_screencopy) : ext_screencopy :=
  {| parent := parent self; wl_output := wl_output self;
     session := session self; frame := frame self; cursor := cursor self;
     render_cursors := render_cursors self; pool := pool self;
     buffer := buffer self; have_buffer_info := have_buffer_info self;
     should_start := should_start self;
     shall_be_immediate := shall_be_immediate self;
     capture_cursor := capture_cursor self; width := width self;
     height := height self; wl_shm_stride := wl_shm_stride self;
     wl_shm_format := v; have_wl_shm := have_wl_shm self;
     have_linux_dmabuf := have_linux_dmabuf self;
     dmabuf_format := dmabuf_format self |}.

Definition set_have_wl_shm (v : bool) (self : ext_screencopy) : ext_screencopy :=
  {| parent := parent self; wl_output := wl_output self;
     session := session self; frame := frame self; cursor := cursor self;
     render_cursors := render_cursors self; pool := pool self;
     buffer := buffer self; have_buffer_info := have_buffer_info self;
     should_start := should_start self;
     shall_be_immediate := shall_be_immediate self;
     capture_cursor := capture_cursor self; width := width self;
     height := height self; wl_shm_stride := wl_shm_stride self;
     wl_shm_format := wl_shm_format self; have_wl_shm := v;
     have_linux_dmabuf := have_linux_dmabuf self;
     dmabuf_format := dmabuf_format self |}.

Definition set_have_linux_dmabuf (v : bool) (self : ext_screencopy) : ext_screencopy :=
  {| parent := parent self; wl_output := wl_output self;
     session := session self; frame := frame self; cursor := cursor self;
     render_cursors := render_cursors self; pool := pool self;
     buffer := buffer self; have_buffer_info := have_buffer_info self;
     should_start := should_start self;
     shall_be_immediate := shall_be_immediate self;
     capture_cursor := capture_cursor self; width := width self;
     height := height self; wl_shm_stride := wl_shm_stride self;
     wl_shm_format := wl_shm_format self; have_wl_shm := have_wl_shm self;
     have_linux_dmabuf := v; dmabuf_format := dmabuf_format self |}.

Definition set_dmabuf_format (v : Z) (self : ext_screencopy) : ext_screencopy :=
  {| parent := parent self; wl_output := wl_output self;
     session := session self; frame := frame self; cursor := cursor self;
     render_cursors := render_cursors self; pool := pool self;
     buffer := buffer self; have_buffer_info := have_buffer_info self;
     should_start := should_start self;
     shall_be_immediate := shall_be_immediate self;
     capture_cursor := capture_cursor self; width := width self;
     height := height self; wl_shm_stride := wl_shm_stride self;
     wl_shm_format := wl_shm_format self; have_wl_shm := have_wl_shm self;
     have_linux_dmabuf := have_linux_dmabuf self; dmabuf_format := v |}.


(** [enum ext_screencopy_frame_v1_failure_reason]: the handler tells
    [BUFFER_CONSTRAINTS] from every other value on the wire. *)
Inductive failure_reason :=
| FAILURE_REASON_BUFFER_CONSTRAINTS
| FAILURE_REASON_OTHER (code : Z).

Definition capture_domain (self : ext_screencopy) : wv_buffer_domain :=
  if capture_cursor self then WV_BUFFER_DOMAIN_CURSOR
  else WV_BUFFER_DOMAIN_OUTPUT.

Definition ext_screencopy_init_session (self : ext_screencopy)
    : M (Z * ext_screencopy) :=
  when_some (frame self) (fun f => emit (c_frame_destroy f)) ;;;
  let self := set_frame None self in
  when_some (session self) (fun s => emit (c_session_destroy s)) ;;;
  let self := set_session None self in
  let* g := get_globals in
  let* e := get_env in
  let* source_manager := deref (ext_output_image_source_manager g) in
  let* source := new_object (source_ok e) in
  emit (c_create_output_source source_manager (wl_output self) source) ;;;
  match source with
  | None => ret (-1, self)
  | Some source =>
      let options :=
        if render_cursors self then [OPTIONS_PAINT_CURSORS] else [] in
      let* manager := deref (ext_screencopy_manager g) in
      let* s := new_object (session_ok e) in
      emit (c_manager_create_session manager source options s) ;;;
      let self := set_session s self in
      emit (c_source_destroy source) ;;;
      match session self with
      | None => ret (-1, self)
      | Some s =>
          emit (c_session_add_listener s) ;;;
          ret (0, self)
      end
  end.

Definition ext_screencopy_schedule_capture (self : ext_screencopy)
    (immediate : bool) : M ext_screencopy :=
  assert (bool_decide (frame self = None)) "!self->frame" ;;;
  let* b := wv_buffer_pool_acquire (pool self) in
  let self := set_buffer (Some b) self in
  write_buffer (set_domain (capture_domain self)) b ;;;
  let* e := get_env in
  let* s := deref (session self) in
  let* f := new_object (frame_ok e) in
  emit (c_session_create_frame s f) ;;;
  let self := set_frame f self in
  assert (bool_decide (frame self <> None)) "self->frame" ;;;
  let* f := deref (frame self) in
  emit (c_frame_attach_buffer f b) ;;;
  emit (c_frame_add_listener f) ;;;
  let* x := read_buffer b in
  for_each (buffer_damage x)
    (fun r => let '(x, y, width, height) := damage_hint r in
              emit (c_frame_damage_buffer f x y width height)) ;;;
  emit (c_frame_capture f) ;;;
  emit (c_log (LogCommitted immediate (buffer self))) ;;;
  ret self.

Definition session_handle_format_shm (self : ext_screencopy) (format : Z)
    : M ext_screencopy :=
  let self := set_have_wl_shm true self in
  let self := set_wl_shm_format format self in
  ret self.

Definition session_handle_format_drm (self : ext_screencopy) (format : Z)
    : M ext_screencopy :=
  let* e := get_env in
  if ENABLE_SCREENCOPY_DMABUF e then
    let self := set_have_linux_dmabuf true self in
    let self := set_dmabuf_format format self in
    ret self
  else ret self.

Definition session_handle_dmabuf_device (self : ext_screencopy)
    : M ext_screencopy :=
  ret self.

Definition session_handle_dimensions (self : ext_screencopy)
    (width height : Z) : M ext_screencopy :=
  let self := set_width width self in
  let self := set_height height self in
  let self := set_wl_shm_stride (u32 (width * 4)) self in
  ret self.

Definition session_handle_constraints_done (self : ext_screencopy)
    : M ext_screencopy :=
  let* e := get_env in
  let width := width self in
  let height := height self in
  let '(format, stride, type) :=
    if ENABLE_SCREENCOPY_DMABUF e && (have_linux_dmabuf self
                                      && enable_linux_dmabuf (parent self))
    then (dmabuf_format self, 0, WV_BUFFER_DMABUF)
    else (wl_shm_format self, wl_shm_stride self, WV_BUFFER_SHM) in
  wv_buffer_pool_resize (pool self) type width height stride format ;;;
  let* self :=
    if should_start self then
      let* self := ext_screencopy_schedule_capture self
                     (shall_be_immediate self) in
      let self := set_should_start false self in
      let self := set_shall_be_immediate false self in
      ret self
    else ret self in
  let self := set_have_buffer_info true self in
  emit (c_log LogInitDone) ;;;
  ret self.

Definition session_handle_stopped (self : ext_screencopy) : M ext_screencopy :=
  ret self.

Definition frame_handle_transform (self : ext_screencopy) (frame : obj)
    (transform : Z) : M ext_screencopy :=
  assert (bool_decide (buffer self <> None)) "self->buffer" ;;;
  let* b := deref (buffer self) in
  emit (c_fb_set_transform b transform) ;;;
  ret self.

Definition frame_handle_ready_with
    (on_done : option (on_done_fn ext_screencopy)) (self : ext_screencopy)
    (frame : obj) : M ext_screencopy :=
  assert (bool_decide (Some frame = Frame.frame self)) "frame == self->frame" ;;;
  let* f := deref (Frame.frame self) in
  emit (c_frame_destroy f) ;;;
  let self := set_frame None self in
  emit (c_log LogReady) ;;;
  assert (bool_decide (buffer self <> None)) "self->buffer" ;;;
  let* b := deref (buffer self) in
  let domain := capture_domain self in
  let* x := read_buffer b in
  wv_buffer_registry_damage_all b (frame_damage x) domain ;;;
  pixman_region_clear_buffer_damage b ;;;
  let buffer := b in
  let self := set_buffer None self in
  let* on_done := deref on_done in
  on_done SCREENCOPY_DONE (Some buffer) (userdata (parent self)) self.

(** [frame_handle_ready] with the callback of the owner installed. *)
Definition frame_handle_ready (self : ext_screencopy) (frame : obj)
    : M ext_screencopy :=
  frame_handle_ready_with (Some on_done_recorded) self frame.

Definition frame_handle_failed_with
    (on_done : option (on_done_fn ext_screencopy)) (self : ext_screencopy)
    (frame : obj) (reason : failure_reason) : M ext_screencopy :=
  assert (bool_decide (Some frame = Frame.frame self)) "frame == self->frame" ;;;
  let* f := deref (Frame.frame self) in
  emit (c_frame_destroy f) ;;;
  let self := set_frame None self in
  emit (c_log LogFailed) ;;;
  assert (bool_decide (buffer self <> None)) "self->buffer" ;;;
  let* b := deref (buffer self) in
  wv_buffer_pool_release (pool self) b ;;;
  let self := set_buffer None self in
  let* self :=
    match reason with
    | FAILURE_REASON_BUFFER_CONSTRAINTS =>
        let* '(_, self) := ext_screencopy_init_session self in ret self
    | FAILURE_REASON_OTHER _ => ret self
    end in
  let* on_done := deref on_done in
  on_done SCREENCOPY_FAILED None (userdata (parent self)) self.

(** [frame_handle_failed] with the callback of the owner installed. *)
Definition frame_handle_failed (self : ext_screencopy) (frame : obj)
    (reason : failure_reason) : M ext_screencopy :=
  frame_handle_failed_with (Some on_done_recorded) self frame reason.

Definition frame_handle_damage (self : ext_screencopy) (frame : obj)
    (x y width height : Z) : M ext_screencopy :=
  emit (c_buffer_damage_rect (buffer self) x y width height) ;;;
  ret self.

Definition frame_handle_presentation_time (self : ext_screencopy)
    (frame : obj) (sec_hi sec_lo nsec : Z) : M ext_screencopy :=
  ret self.

Definition cursor_handle_enter (self : ext_screencopy) : M ext_screencopy :=
  (if cursor_enter (parent self)
   then emit (c_cursor_enter (userdata (parent self)))
   else ret tt) ;;;
  ret self.

Definition cursor_handle_leave (self : ext_screencopy) : M ext_screencopy :=
  (if cursor_leave (parent self)
   then emit (c_cursor_leave (userdata (parent self)))
   else ret tt) ;;;
  ret self.

Definition cursor_handle_position (self : ext_screencopy) (x y : Z)
    : M ext_screencopy :=
  ret self.

Definition cursor_handle_hotspot (self : ext_screencopy) (x y : Z)
    : M ext_screencopy :=
  (if cursor_hotspot (parent self)
   then emit (c_cursor_hotspot x y (userdata (parent self)))
   else ret tt) ;;;
  ret self.

Definition ext_screencopy_start (self : ext_screencopy) (immediate : bool)
    : M (Z * ext_screencopy) :=
  let* self :=
    if negb (have_buffer_info self) then
      let self := set_should_start true self in
      let self := set_shall_be_immediate immediate self in
      ret self
    else ext_screencopy_schedule_capture self immediate in
  ret (0, self).

Definition ext_screencopy_stop (self : ext_screencopy) : M ext_screencopy :=
  ret self.

(** The object [calloc] returns, with the assignments that [create] and
    [create_cursor] make before they open the session. *)
Definition new_self (o : output) (render_cursor capture : bool)
    (p : option obj) : ext_screencopy :=
  {| parent := set_rate_limit 30 zero_parent; wl_output := o;
     session := None; frame := None; cursor := None;
     render_cursors := render_cursor; pool := p; buffer := None;
     have_buffer_info := false; should_start := false;
     shall_be_immediate := false; capture_cursor := capture; width := 0;
     height := 0; wl_shm_stride := 0; wl_shm_format := 0;
     have_wl_shm := false; have_linux_dmabuf := false; dmabuf_format := 0 |}.

Definition ext_screencopy_create (o : output) (render_cursor : bool)
    : M (option ext_screencopy) :=
  let* e := get_env in
  if negb (calloc_ok e) then ret None else
  let* p := wv_buffer_pool_create in
  let self := new_self o render_cursor false p in
  match p with
  | None => emit c_free ;;; ret None
  | Some _ =>
      let* '(r, self) := ext_screencopy_init_session self in
      if r <? 0
      then wv_buffer_pool_destroy (pool self) ;;; emit c_free ;;; ret None
      else ret (Some self)
  end.

Definition ext_screencopy_create_cursor (o : output)
    : M (option ext_screencopy) :=
  let* e := get_env in
  if negb (calloc_ok e) then ret None else
  let* p := wv_buffer_pool_create in
  let self := new_self o false true p in
  match p with
  | None => emit c_free ;;; ret None
  | Some _ =>
      let* '(r, self) := ext_screencopy_init_session self in
      if r <? 0
      then wv_buffer_pool_destroy (pool self) ;;; emit c_free ;;; ret None
      else ret (Some self)
  end.

Definition ext_screencopy_destroy (self : ext_screencopy) : M unit :=
  when_some (frame self) (fun f => emit (c_frame_destroy f)) ;;;
  when_some (session self) (fun s => emit (c_session_destroy s)) ;;;
  when_some (buffer self) (fun b => wv_buffer_pool_release (pool self) b) ;;;
  emit c_free.

Definition ext_screencopy_impl : screencopy_impl ext_screencopy :=
  {| create := ext_screencopy_create;
     create_cursor := Some ext_screencopy_create_cursor;
     destroy := ext_screencopy_destroy;
     start := ext_screencopy_start;
     stop := ext_screencopy_stop |}.

(** The events of [session_listener], in the order of its initialiser. *)
Inductive session_event :=
| ev_shm_format (format : Z)
| ev_dmabuf_format (format : Z)
| ev_dmabuf_device
| ev_buffer_size (width height : Z)
| ev_done
| ev_stopped.

Definition session_listener (self : ext_screencopy) (ev : session_event)
    : M ext_screencopy :=
  match ev with
  | ev_shm_format format => session_handle_format_shm self format
  | ev_dmabuf_format format => session_handle_format_drm self format
  | ev_dmabuf_device => session_handle_dmabuf_device self
  | ev_buffer_size width height => session_handle_dimensions self width height
  | ev_done => session_handle_constraints_done self
  | ev_stopped => session_handle_stopped self
  end.

(** The events of [frame_listener]. *)
Inductive frame_event :=
| ev_damage (x y width height : Z)
| ev_presentation_time (sec_hi sec_lo nsec : Z)
| ev_transform (t : Z)
| ev_ready
| ev_failed (reason : failure_reason).

Definition frame_listener (self : ext_screencopy) (frame : obj)
    (ev : frame_event) : M ext_screencopy :=
  match ev with
  | ev_damage x y width height => frame_handle_damage self frame x y width height
  | ev_presentation_time sec_hi sec_lo nsec =>
      frame_handle_presentation_time self frame sec_hi sec_lo nsec
  | ev_transform t => frame_handle_transform self frame t
  | ev_ready => frame_handle_ready self frame
  | ev_failed reason => frame_handle_failed self frame reason
  end.

(** What can happen to a session between its creation and its
    destruction: a call of the owner, or an event of one of the two
    listeners. *)
Inductive input :=
| call_start (immediate : bool)
| call_stop
| on_session (ev : session_event)
| on_frame (frame : obj) (ev : frame_event).

Definition step (self : ext_screencopy) (i : input) : M ext_screencopy :=
  match i with
  | call_start immediate =>
      let* '(_, self) := ext_screencopy_start self immediate in ret self
  | call_stop => ext_screencopy_stop self
  | on_session ev => session_listener self ev
  | on_frame frame ev => frame_listener self frame ev
  end.

Fixpoint run (self : ext_screencopy) (l : list input) : M ext_screencopy :=
  match l with
  | [] => ret self
  | i :: l' => let* self := step self i in run self l'
  end.

End Frame.

(** ** The capture dispatcher

    First translation unit of the source file (its lines 17 to 58).  It
    chooses between [ext_screencopy_impl] and [wlr_screencopy_impl]; the
    latter (wlr-screencopy.c) is not under [src/] and is taken as a
    parameter, as is the backend linked under the name
    [ext_screencopy_impl]. *)
Section Dispatcher.
Context {ext_t wlr_t : Type}.
Variable ext_screencopy_impl : screencopy_impl ext_t.
Variable wlr_screencopy_impl : screencopy_impl wlr_t.

(** [struct screencopy*]: the session object of one backend, which
    carries the [impl] table it was created from. *)
Inductive screencopy :=
| ext_handle (self : ext_t)
| wlr_handle (self : wlr_t).

Definition screencopy_create (o : output) (render_cursor : bool)
    : M (option screencopy) :=
  let* g := get_globals in
  if bool_decide (ext_screencopy_manager g <> None)
     && bool_decide (ext_image_source_manager g <> None)
  then let* r := create ext_screencopy_impl o render_cursor in
       ret (ext_handle <$> r)
  else if bool_decide (screencopy_manager g <> None)
  then let* r := create wlr_screencopy_impl o render_cursor in
       ret (wlr_handle <$> r)
  else ret None.

Definition screencopy_destroy (self : option screencopy) : M unit :=
  match self with
  | Some (ext_handle e) => destroy ext_screencopy_impl e
  | Some (wlr_handle x) => destroy wlr_screencopy_impl x
  | None => ret tt
  end.

Definition screencopy_start (self : screencopy) (immediate : bool)
    : M (Z * screencopy) :=
  match self with
  | ext_handle e =>
      let* '(r, e) := start ext_screencopy_impl e immediate in
      ret (r, ext_handle e)
  | wlr_handle x =>
      let* '(r, x) := start wlr_screencopy_impl x immediate in
      ret (r, wlr_handle x)
  end.

Definition screencopy_stop (self : screencopy) : M screencopy :=
  match self with
  | ext_handle e => let* e := stop ext_screencopy_impl e in ret (ext_handle e)
  | wlr_handle x => let* x := stop wlr_screencopy_impl x in ret (wlr_handle x)
  end.
End Dispatcher.

(** [screencopy_create_cursor] takes the table to use from its caller. *)
Definition screencopy_create_cursor {T} (impl : screencopy_impl T)
    (o : output) : M (option T) :=
  match create_cursor impl with
  | Some f => f o
  | None => ret None
  end.

(** ** Concrete inputs

    A compositor that advertises every manager and grants every object, a
    world in which nothing has happened yet, and sessions of both dialects
    as they stand with the format negotiated (1920 by 1080, shared memory)
    and, for the [capturing] ones, one capture outstanding on buffer 0. *)
Definition granting : environment :=
  {| ENABLE_SCREENCOPY_DMABUF := false; calloc_ok := true;
     pool_create_ok := true; source_ok := true; session_ok := true;
     cursor_ok := true; frame_ok := true |}.

Definition all_managers : managers :=
  {| screencopy_manager := Some 1%nat;
     ext_image_source_manager := Some 2%nat;
     ext_output_image_source_manager := Some 3%nat;
     ext_screencopy_manager := Some 4%nat |}.

Definition no_manager : managers :=
  {| screencopy_manager := None; ext_image_source_manager := None;
     ext_output_image_source_manager := None;
     ext_screencopy_manager := None |}.

Definition world0 : world :=
  {| trace := []; bufs := ∅; registry := []; pool_queue := [];
     pool_cfg := {| cfg_type := WV_BUFFER_UNSPEC; cfg_width := 0;
                    cfg_height := 0; cfg_stride := 0; cfg_format := 0 |};
     next_buf := 0%nat; next_obj := 10%nat; globals := all_managers;
     env := granting |}.

Definition world_capturing : world :=
  {| trace := [];
     bufs := {[ 0%nat := {| domain := WV_BUFFER_DOMAIN_OUTPUT;
                            buffer_damage := [{| x1 := 0; y1 := 0;
                                                 x2 := 64; y2 := 32 |}];
                            frame_damage := [{| x1 := 8; y1 := 8;
                                                x2 := 16; y2 := 16 |}] |} ]};
     registry := []; pool_queue := [];
     pool_cfg := {| cfg_type := WV_BUFFER_SHM; cfg_width := 1920;
                    cfg_height := 1080; cfg_stride := 7680;
                    cfg_format := 0 |};
     next_buf := 1%nat; next_obj := 14%nat; globals := all_managers;
     env := granting |}.

Definition frame_idle : Frame.ext_screencopy :=
  {| Frame.parent := set_rate_limit 30 zero_parent; Frame.wl_output := 7%nat;
     Frame.session := Some 12%nat; Frame.frame := None;
     Frame.cursor := None; Frame.render_cursors := true;
     Frame.pool := Some 10%nat; Frame.buffer := None;
     Frame.have_buffer_info := true; Frame.should_start := false;
     Frame.shall_be_immediate := false; Frame.capture_cursor := false;
     Frame.width := 1920; Frame.height := 1080;
     Frame.wl_shm_stride := 7680; Frame.wl_shm_format := 0;
     Frame.have_wl_shm := true; Frame.have_linux_dmabuf := false;
     Frame.dmabuf_format := 0 |}.

Definition frame_capturing : Frame.ext_screencopy :=
  Frame.set_frame (Some 13%nat) (Frame.set_buffer (Some 0%nat) frame_idle).

Definition session_idle : Session.ext_screencopy :=
  {| Session.parent := set_rate_limit 30 zero_parent;
     Session.wl_output := 7%nat; Session.session := Some 12%nat;
     Session.cursor := None; Session.render_cursors := true;
     Session.pool := Some 10%nat; Session.buffer := None;
     Session.have_buffer_info := true; Session.should_start := false;
     Session.shall_be_immediate := false; Session.capture_cursor := false;
     Session.width := 1920; Session.height := 1080;
     Session.wl_shm_stride := 7680; Session.wl_shm_format := 0;
     Session.have_wl_shm := true; Session.have_linux_dmabuf := false;
     Session.dmabuf_format := 0 |}.

Definition session_capturing : Session.ext_screencopy :=
  Session.set_buffer (Some 0%nat) session_idle.

(** A frame-dialect session as [ext_screencopy_create] leaves it, before
    any negotiation event, and the world it leaves. *)
Definition frame_created : Frame.ext_screencopy :=
  Frame.set_session (Some 12%nat) (Frame.new_self 7%nat true false (Some 10%nat)).

Definition world_created : world :=
  {| trace := [c_pool_create (Some 10%nat);
               c_create_output_source 3%nat 7%nat (Some 11%nat);
               c_manager_create_session 4%nat 11%nat [OPTIONS_PAINT_CURSORS]
                 (Some 12%nat);
               c_source_destroy 11%nat;
               c_session_add_listener 12%nat];
     bufs := ∅; registry := []; pool_queue := [];
     pool_cfg := {| cfg_type := WV_BUFFER_UNSPEC; cfg_width := 0;
                    cfg_height := 0; cfg_stride := 0; cfg_format := 0 |};
     next_buf := 0%nat; next_obj := 13%nat; globals := all_managers;
     env := granting |}.

(** Worlds in which the compositor advertises only the wlr manager, and no
    capture protocol at all. *)
Definition world_wlr_only : world :=
  {| trace := []; bufs := ∅; registry := []; pool_queue := [];
     pool_cfg := {| cfg_type := WV_BUFFER_UNSPEC; cfg_width := 0;
                    cfg_height := 0; cfg_stride := 0; cfg_format := 0 |};
     next_buf := 0%nat; next_obj := 10%nat;
     globals := {| screencopy_manager := Some 1%nat;
                   ext_image_source_manager := None;
                   ext_output_image_source_manager := None;
                   ext_screencopy_manager := None |};
     env := granting |}.

Definition world_no_protocol : world :=
  {| trace := []; bufs := ∅; registry := []; pool_queue := [];
     pool_cfg := {| cfg_type := WV_BUFFER_UNSPEC; cfg_width := 0;
                    cfg_height := 0; cfg_stride := 0; cfg_format := 0 |};
     next_buf := 0%nat; next_obj := 10%nat; globals := no_manager;
     env := granting |}.

(** * Vocabulary of the statements *)

(** The calls of a trace that satisfy [p], in order. *)
Fixpoint select (p : call -> bool) (t : list call) : list call :=
  match t with
  | [] => []
  | c :: t' => if p c then c :: select p t' else select p t'
  end.

(** A buffer leaves the pool. *)
Definition is_acquisition (c : call) : bool :=
  match c with
  | c_pool_acquire _ _ => true
  | _ => false
  end.

(** A buffer leaves the session: back to the pool, or to the caller
    through the completion callback. *)
Definition is_disposal (c : call) : bool :=
  match c with
  | c_pool_release _ _ => true
  | c_on_done _ (Some _) _ => true
  | _ => false
  end.

(** A capture is submitted to the compositor. *)
Definition is_commit (c : call) : bool :=
  match c with
  | c_frame_capture _ => true
  | c_session_commit _ _ => true
  | _ => false
  end.

(** A protocol object of the session is destroyed. *)
Definition is_protocol_release (c : call) : bool :=
  match c with
  | c_frame_destroy _ => true
  | c_session_destroy _ => true
  | _ => false
  end.

(** A buffer goes back to the pool. *)
Definition is_pool_release (c : call) : bool :=
  match c with
  | c_pool_release _ _ => true
  | _ => false
  end.

(** The calls of a kind among the calls of a trace, in order. *)
Definition acquisitions : list call -> list call := select is_acquisition.
Definition disposals : list call -> list call := select is_disposal.
Definition commits : list call -> list call := select is_commit.

(** Position of the first call of a kind. *)
Fixpoint first_index (p : call -> bool) (t : list call) : option nat :=
  match t with
  | [] => None
  | c :: t' => if p c then Some 0%nat else S <$> first_index p t'
  end.

(** Position of the last call of a kind. *)
Definition last_index (p : call -> bool) (t : list call) : option nat :=
  (fun i => (length t - 1 - i)%nat) <$> first_index p (rev t).

(** Every call of kind [p] comes before every call of kind [q], and there
    is one of each. *)
Definition all_before (p q : call -> bool) (t : list call) : bool :=
  match last_index p t, first_index q t with
  | Some i, Some j => (i <? j)%nat
  | _, _ => false
  end.

(** The damage hints of a capture, as calls on a frame or on the
    session. *)
Definition frame_hint (f : obj) (r : pixman_box16) : call :=
  let '(x, y, width, height) := damage_hint r in
  c_frame_damage_buffer f x y width height.

(** The same hint sent on the session object. *)
Definition session_hint (s : obj) (r : pixman_box16) : call :=
  let '(x, y, width, height) := damage_hint r in
  c_session_damage_buffer s x y width height.

(** How a capture that is outstanding can end. *)
Inductive ending :=
| by_ready
| by_failed (reason : Frame.failure_reason)
| by_destroy.

(** The ready or failed event of frame [f], or [destroy]. *)
Definition finish (self : Frame.ext_screencopy) (f : obj) (e : ending)
    : M (option Frame.ext_screencopy) :=
  match e with
  | by_ready =>
      let* self := Frame.frame_listener self f Frame.ev_ready in
      ret (Some self)
  | by_failed reason =>
      let* self := Frame.frame_listener self f (Frame.ev_failed reason) in
      ret (Some self)
  | by_destroy => Frame.ext_screencopy_destroy self ;;; ret None
  end.

(** The same endings in the session dialect, whose events carry no frame. *)
Inductive session_ending :=
| by_session_ready
| by_session_failed (reason : Session.failure_reason)
| by_session_destroy.

Definition finish_session (self : Session.ext_screencopy)
    (e : session_ending) : M (option Session.ext_screencopy) :=
  match e with
  | by_session_ready =>
      let* self := Session.session_handle_ready self in ret (Some self)
  | by_session_failed reason =>
      let* self := Session.session_handle_failed self reason in
      ret (Some self)
  | by_session_destroy => Session.ext_screencopy_destroy self ;;; ret None
  end.

(** The calls of one scheduled capture: buffer [b] from the pool, frame
    [f] created on session [s], attached, given the damage hints and
    captured. *)
Definition frame_capture_calls (pool : option obj) (s f : obj) (b : buf)
    (rects : region) (immediate : bool) : list call :=
  [c_pool_acquire pool b;
   c_session_create_frame s (Some f);
   c_frame_attach_buffer f b;
   c_frame_add_listener f]
  ++ map (frame_hint f) rects
  ++ [c_frame_capture f; c_log (LogCommitted immediate (Some b))].

(** The calls by which [ext_screencopy_init_session] opens a session, from
    the next free object id [n]. *)
Definition frame_open_calls (o : output) (render_cursors : bool)
    (m1 m2 : obj) (n : obj) (e : environment) : list call :=
  let options := if render_cursors then [OPTIONS_PAINT_CURSORS] else [] in
  if source_ok e then
    if session_ok e then
      [c_create_output_source m1 o (Some n);
       c_manager_create_session m2 n options (Some (S n));
       c_source_destroy n;
       c_session_add_listener (S n)]
    else
      [c_create_output_source m1 o (Some n);
       c_manager_create_session m2 n options None;
       c_source_destroy n]
  else [c_create_output_source m1 o None].

(** The calls of one capture scheduled in the session dialect: buffer [b]
    from the pool, attached to session [s], with the damage hints, and
    committed. *)
Definition session_capture_calls (pool : option obj) (s : obj) (b : buf)
    (rects : region) (immediate : bool) : list call :=
  [c_pool_acquire pool b; c_session_attach_buffer s b]
  ++ map (session_hint s) rects
  ++ [c_session_commit s (if negb immediate then [OPTIONS_ON_DAMAGE] else []);
      c_log (LogCommitted immediate (Some b))].

(** The session after a deferred [start(immediate)]. *)
Definition deferred_with (immediate : bool) (self : Frame.ext_screencopy)
    : Frame.ext_screencopy :=
  Frame.set_shall_be_immediate immediate (Frame.set_should_start true self).

(** The fields that decide what [start] and the negotiation-complete event
    do are untouched by the other session events. *)
Definition same_capture_state (a b : Frame.ext_screencopy) : Prop :=
  Frame.parent b = Frame.parent a
  /\ Frame.session b = Frame.session a
  /\ Frame.frame b = Frame.frame a
  /\ Frame.pool b = Frame.pool a
  /\ Frame.buffer b = Frame.buffer a
  /\ Frame.have_buffer_info b = Frame.have_buffer_info a
  /\ Frame.should_start b = Frame.should_start a
  /\ Frame.shall_be_immediate b = Frame.shall_be_immediate a
  /\ Frame.capture_cursor b = Frame.capture_cursor a.

(** The call by which the negotiation-complete handler configures the
    pool. *)
Definition frame_resize_call (self : Frame.ext_screencopy) (e : environment)
    : call :=
  if ENABLE_SCREENCOPY_DMABUF e
     && (Frame.have_linux_dmabuf self
         && enable_linux_dmabuf (Frame.parent self))
  then c_pool_resize (Frame.pool self) WV_BUFFER_DMABUF (Frame.width self)
         (Frame.height self) 0 (Frame.dmabuf_format self)
  else c_pool_resize (Frame.pool self) WV_BUFFER_SHM (Frame.width self)
         (Frame.height self) (Frame.wl_shm_stride self)
         (Frame.wl_shm_format self).

(** The calls by which the session dialect opens a session when the
    compositor grants every object, from the next free object id [n]. *)
Definition session_open_calls (o : output) (render_cursors capture : bool)
    (m1 m2 : obj) (n : obj) : list call :=
  let options := if render_cursors then [OPTIONS_RENDER_CURSORS] else [] in
  if capture then
    [c_create_output_source m1 o (Some n);
     c_manager_capture_cursor m2 n options (Some (S n));
     c_source_destroy n;
     c_cursor_get_screencopy_session (S n) (Some (S (S n)));
     c_session_add_listener (S (S n));
     c_cursor_add_listener (S n)]
  else
    [c_create_output_source m1 o (Some n);
     c_manager_capture m2 n options (Some (S n));
     c_source_destroy n;
     c_session_add_listener (S n)].

(** The session object after a granted reopening. *)
Definition session_reopened (n : obj) (self : Session.ext_screencopy)
    : Session.ext_screencopy :=
  if Session.capture_cursor self
  then Session.set_session (Some (S (S n)))
         (Session.set_cursor (Some (S n)) self)
  else Session.set_session (Some (S n)) self.

(** Number of buffers in the slot of the session. *)
Definition in_flight (self : Frame.ext_screencopy) : nat :=
  match Frame.buffer self with
  | Some _ => 1
  | None => 0
  end.

(** The account of a session: buffers taken = buffers disposed of + the
    one in the slot, and the slot is filled exactly when a frame is
    outstanding. *)
Definition balanced (self : Frame.ext_screencopy) (w : world) : Prop :=
  length (acquisitions (trace w))
  = (length (disposals (trace w)) + in_flight self)%nat
  /\ (Frame.frame self = None <-> Frame.buffer self = None).

(** The flags of a session agree: a frame is outstanding only once the
    format is known, and no start waits once the format is known. *)
Definition settled (self : Frame.ext_screencopy) : Prop :=
  (Frame.frame self <> None -> Frame.have_buffer_info self = true)
  /\ (Frame.have_buffer_info self = true -> Frame.should_start self = false).

(** ** What one input does to a session of the frame dialect

    [frame_effect self w i self' calls]: in world [w], input [i] takes the
    session object from [self] to [self'] and makes the calls [calls], in
    that order.  One constructor for each path through the functions that
    [Frame.step] reaches and that returns. *)
Inductive frame_effect (self : Frame.ext_screencopy) (w : world)
    : Frame.input -> Frame.ext_screencopy -> list call -> Prop :=
| fe_start_deferred (immediate : bool) :
    Frame.have_buffer_info self = false ->
    frame_effect self w (Frame.call_start immediate)
      (deferred_with immediate self) []
| fe_start_capture (immediate : bool) (s f : obj) (b : buf) (rects : region) :
    Frame.have_buffer_info self = true ->
    Frame.frame self = None ->
    Frame.session self = Some s ->
    frame_effect self w (Frame.call_start immediate)
      (Frame.set_frame (Some f) (Frame.set_buffer (Some b) self))
      (frame_capture_calls (Frame.pool self) s f b rects immediate)
| fe_stop :
    frame_effect self w Frame.call_stop self []
| fe_shm_format (format : Z) :
    frame_effect self w (Frame.on_session (Frame.ev_shm_format format))
      (Frame.set_wl_shm_format format (Frame.set_have_wl_shm true self)) []
| fe_dmabuf_format (format : Z) :
    frame_effect self w (Frame.on_session (Frame.ev_dmabuf_format format))
      (if ENABLE_SCREENCOPY_DMABUF (env w)
       then Frame.set_dmabuf_format format
              (Frame.set_have_linux_dmabuf true self)
       else self) []
| fe_dmabuf_device :
    frame_effect self w (Frame.on_session Frame.ev_dmabuf_device) self []
| fe_buffer_size (width height : Z) :
    frame_effect self w (Frame.on_session (Frame.ev_buffer_size width height))
      (Frame.set_wl_shm_stride (u32 (width * 4))
         (Frame.set_height height (Frame.set_width width self))) []
| fe_stopped :
    frame_effect self w (Frame.on_session Frame.ev_stopped) self []
| fe_done_idle :
    Frame.should_start self = false ->
    frame_effect self w (Frame.on_session Frame.ev_done)
      (Frame.set_have_buffer_info true self)
      [frame_resize_call self (env w); c_log LogInitDone]
| fe_done_capture (s f : obj) (b : buf) (rects : region) :
    Frame.should_start self = true ->
    Frame.frame self = None ->
    Frame.session self = Some s ->
    frame_effect self w (Frame.on_session Frame.ev_done)
      (Frame.set_have_buffer_info true
         (Frame.set_shall_be_immediate false
            (Frame.set_should_start false
               (Frame.set_frame (Some f) (Frame.set_buffer (Some b) self)))))
      ([frame_resize_call self (env w)]
       ++ frame_capture_calls (Frame.pool self) s f b rects
            (Frame.shall_be_immediate self)
       ++ [c_log LogInitDone])
| fe_damage (f : obj) (x y width height : Z) :
    frame_effect self w (Frame.on_frame f (Frame.ev_damage x y width height))
      self [c_buffer_damage_rect (Frame.buffer self) x y width height]
| fe_presentation_time (f : obj) (sec_hi sec_lo nsec : Z) :
    frame_effect self w
      (Frame.on_frame f (Frame.ev_presentation_time sec_hi sec_lo nsec))
      self []
| fe_transform (f : obj) (t : Z) (b : buf) :
    Frame.buffer self = Some b ->
    frame_effect self w (Frame.on_frame f (Frame.ev_transform t))
      self [c_fb_set_transform b t]
| fe_ready (f : obj) (b : buf) (r : region) :
    Frame.frame self = Some f ->
    Frame.buffer self = Some b ->
    frame_effect self w (Frame.on_frame f Frame.ev_ready)
      (Frame.set_buffer None (Frame.set_frame None self))
      [c_frame_destroy f; c_log LogReady;
       c_registry_damage_all b r (Frame.capture_domain self);
       c_pixman_region_clear_buffer_damage b;
       c_on_done SCREENCOPY_DONE (Some b) (userdata (Frame.parent self))]
| fe_failed (f : obj) (b : buf) (code : Z) :
    Frame.frame self = Some f ->
    Frame.buffer self = Some b ->
    frame_effect self w
      (Frame.on_frame f (Frame.ev_failed (Frame.FAILURE_REASON_OTHER code)))
      (Frame.set_buffer None (Frame.set_frame None self))
      [c_frame_destroy f; c_log LogFailed;
       c_pool_release (Frame.pool self) b;
       c_on_done SCREENCOPY_FAILED None (userdata (Frame.parent self))]
| fe_failed_reopen (f : obj) (b : buf) (m1 m2 : obj) :
    Frame.frame self = Some f ->
    Frame.buffer self = Some b ->
    ext_output_image_source_manager (globals w) = Some m1 ->
    (source_ok (env w) = true ->
     ext_screencopy_manager (globals w) = Some m2) ->
    frame_effect self w
      (Frame.on_frame f
         (Frame.ev_failed Frame.FAILURE_REASON_BUFFER_CONSTRAINTS))
      (Frame.set_session
         (if source_ok (env w) && session_ok (env w)
          then Some (S (next_obj w)) else None)
         (Frame.set_buffer None (Frame.set_frame None self)))
      ([c_frame_destroy f; c_log LogFailed;
        c_pool_release (Frame.pool self) b]
       ++ option_list (c_session_destroy <$> Frame.session self)
       ++ frame_open_calls (Frame.wl_output self) (Frame.render_cursors self)
            m1 m2 (next_obj w) (env w)
       ++ [c_on_done SCREENCOPY_FAILED None (userdata (Frame.parent self))]).

(** The fields of a session of the frame dialect that are set at creation
    and never written afterwards. *)
Definition frame_fixed (a b : Frame.ext_screencopy) : Prop :=
  Frame.parent b = Frame.parent a
  /\ Frame.wl_output b = Frame.wl_output a
  /\ Frame.cursor b = Frame.cursor a
  /\ Frame.render_cursors b = Frame.render_cursors a
  /\ Frame.pool b = Frame.pool a
  /\ Frame.capture_cursor b = Frame.capture_cursor a.

(** What a call made between the creation and the destruction of a
    session of the frame dialect can be: every pool call is on the pool of
    the session, the pool is resized for DMABUF only when the build option
    and the parent both allow it, the completion callback gets the parent's
    userdata, a new source is for the output of the session.  The pool is
    neither created nor destroyed, nothing is freed, and no cursor session
    is opened and no cursor callback made. *)
Definition frame_may_call (self : Frame.ext_screencopy) (e : environment)
    (c : call) : Prop :=
  match c with
  | c_pool_acquire p _ | c_pool_release p _ => p = Frame.pool self
  | c_pool_resize p type _ _ _ _ =>
      p = Frame.pool self
      /\ (type = WV_BUFFER_DMABUF ->
          ENABLE_SCREENCOPY_DMABUF e = true
          /\ enable_linux_dmabuf (Frame.parent self) = true)
      /\ type <> WV_BUFFER_UNSPEC
  | c_on_done _ _ u => u = userdata (Frame.parent self)
  | c_registry_damage_all _ _ d => d = Frame.capture_domain self
  | c_create_output_source _ o _ => o = Frame.wl_output self
  | c_manager_create_session _ _ options _ =>
      options = if Frame.render_cursors self
                then [OPTIONS_PAINT_CURSORS] else []
  | c_source_destroy _ | c_session_add_listener _ | c_session_destroy _
  | c_session_create_frame _ _ | c_frame_attach_buffer _ _
  | c_frame_add_listener _ | c_frame_damage_buffer _ _ _ _ _
  | c_frame_capture _ | c_frame_destroy _
  | c_buffer_damage_rect _ _ _ _ _ | c_fb_set_transform _ _
  | c_pixman_region_clear_buffer_damage _ | c_log _ => True
  | c_pool_create _ | c_pool_destroy _ | c_free
  | c_manager_capture _ _ _ _ | c_manager_capture_cursor _ _ _ _
  | c_cursor_get_screencopy_session _ _ | c_cursor_add_listener _
  | c_session_attach_buffer _ _ | c_session_damage_buffer _ _ _ _ _
  | c_session_commit _ _
  | c_cursor_enter _ | c_cursor_leave _ | c_cursor_hotspot _ _ _ => False
  end.

(** Protocol objects by kind: created (the compositor granted the object)
    and destroyed. *)
Definition is_frame_created (c : call) : bool :=
  match c with
  | c_session_create_frame _ (Some _) => true
  | _ => false
  end.

Definition is_frame_destroyed (c : call) : bool :=
  match c with
  | c_frame_destroy _ => true
  | _ => false
  end.

Definition is_session_created (c : call) : bool :=
  match c with
  | c_manager_create_session _ _ _ (Some _) => true
  | c_manager_capture _ _ _ (Some _) => true
  | c_cursor_get_screencopy_session _ (Some _) => true
  | _ => false
  end.

Definition is_session_destroyed (c : call) : bool :=
  match c with
  | c_session_destroy _ => true
  | _ => false
  end.

Definition is_source_created (c : call) : bool :=
  match c with
  | c_create_output_source _ _ (Some _) => true
  | _ => false
  end.

Definition is_source_destroyed (c : call) : bool :=
  match c with
  | c_source_destroy _ => true
  | _ => false
  end.

(** The pool is created or destroyed, the session object freed. *)
Definition is_lifecycle (c : call) : bool :=
  match c with
  | c_pool_create _ | c_pool_destroy _ | c_free => true
  | _ => false
  end.

(** Number of objects a pointer field holds. *)
Definition held {A} (p : option A) : nat :=
  match p with
  | Some _ => 1
  | None => 0
  end.

(** The account of the protocol objects of a session of the frame dialect:
    every frame and every session created has been destroyed, except the
    one the session object points to; every image source created has been
    destroyed. *)
Definition frame_objects_balanced (self : Frame.ext_screencopy)
    (t : list call) : Prop :=
  length (select is_frame_created t)
  = (length (select is_frame_destroyed t) + held (Frame.frame self))%nat
  /\ length (select is_session_created t)
     = (length (select is_session_destroyed t)
        + held (Frame.session self))%nat
  /\ length (select is_source_created t)
     = length (select is_source_destroyed t).

(** The pool is created (the allocation succeeded), destroyed. *)
Definition is_pool_created (c : call) : bool :=
  match c with
  | c_pool_create (Some _) => true
  | _ => false
  end.

Definition is_pool_destroyed (c : call) : bool :=
  match c with
  | c_pool_destroy _ => true
  | _ => false
  end.

(** Everything the compositor and the allocator must grant for a session
    of the frame dialect to be created. *)
Definition frame_grants (e : environment) : bool :=
  calloc_ok e && pool_create_ok e && source_ok e && session_ok e.

(** A call sequence that leaves nothing behind: every pool, image source
    and session created in it is destroyed in it, and no frame is
    created. *)
Definition leaves_nothing (calls : list call) : Prop :=
  length (select is_pool_created calls)
  = length (select is_pool_destroyed calls)
  /\ length (select is_source_created calls)
     = length (select is_source_destroyed calls)
  /\ select is_session_created calls = []
  /\ select is_frame_created calls = [].

(** The session object with the cursor flag set, as [create_cursor] sets
    it. *)
Definition as_cursor_capture (self : Frame.ext_screencopy)
    : Frame.ext_screencopy :=
  {| Frame.parent := Frame.parent self;
     Frame.wl_output := Frame.wl_output self;
     Frame.session := Frame.session self; Frame.frame := Frame.frame self;
     Frame.cursor := Frame.cursor self;
     Frame.render_cursors := Frame.render_cursors self;
     Frame.pool := Frame.pool self; Frame.buffer := Frame.buffer self;
     Frame.have_buffer_info := Frame.have_buffer_info self;
     Frame.should_start := Frame.should_start self;
     Frame.shall_be_immediate := Frame.shall_be_immediate self;
     Frame.capture_cursor := true; Frame.width := Frame.width self;
     Frame.height := Frame.height self;
     Frame.wl_shm_stride := Frame.wl_shm_stride self;
     Frame.wl_shm_format := Frame.wl_shm_format self;
     Frame.have_wl_shm := Frame.have_wl_shm self;
     Frame.have_linux_dmabuf := Frame.have_linux_dmabuf self;
     Frame.dmabuf_format := Frame.dmabuf_format self |}.

(** A run of the frame dialect used as a concrete input: a start before
    the format is known, the negotiation, the deferred capture made ready,
    a second capture started at once and failed with the invalidating
    reason, and a third capture left outstanding. *)
Definition frame_session_run : list Frame.input :=
  [Frame.call_start false;
   Frame.on_session (Frame.ev_shm_format 0);
   Frame.on_session (Frame.ev_buffer_size 1920 1080);
   Frame.on_session Frame.ev_done;
   Frame.on_frame 13%nat (Frame.ev_damage 0 0 16 16);
   Frame.on_frame 13%nat Frame.ev_ready;
   Frame.call_start true;
   Frame.call_stop;
   Frame.on_frame 14%nat
     (Frame.ev_failed Frame.FAILURE_REASON_BUFFER_CONSTRAINTS);
   Frame.on_session (Frame.ev_buffer_size 1280 720);
   Frame.on_session Frame.ev_done;
   Frame.call_start false].

(** ** What a negotiation announces

    The last announcement of a kind in a list of session events, or [d]
    when the list holds none. *)
Fixpoint last_announced {A} (pick : Frame.session_event -> option A)
    (evs : list Frame.session_event) (d : A) : A :=
  match evs with
  | [] => d
  | ev :: evs' => last_announced pick evs' (default d (pick ev))
  end.

Definition buffer_size_of (ev : Frame.session_event) : option (Z * Z) :=
  match ev with
  | Frame.ev_buffer_size width height => Some (width, height)
  | _ => None
  end.

Definition shm_format_of (ev : Frame.session_event) : option Z :=
  match ev with
  | Frame.ev_shm_format format => Some format
  | _ => None
  end.

Definition dmabuf_format_of (ev : Frame.session_event) : option Z :=
  match ev with
  | Frame.ev_dmabuf_format format => Some format
  | _ => None
  end.

Definition is_dmabuf_format (ev : Frame.session_event) : bool :=
  match ev with
  | Frame.ev_dmabuf_format _ => true
  | _ => false
  end.

Definition is_buffer_size (ev : Frame.session_event) : bool :=
  match ev with
  | Frame.ev_buffer_size _ _ => true
  | _ => false
  end.

(** The stride a dimensions announcement sets: four bytes for each pixel
    of a row, in 32 bits. *)
Definition stride_of (ev : Frame.session_event) : option Z :=
  match ev with
  | Frame.ev_buffer_size width _ => Some (u32 (width * 4))
  | _ => None
  end.

(** The pool configuration that a negotiation asks for: the session as it
    stood, then the announcements [evs], then negotiation complete. *)
Definition negotiated (self : Frame.ext_screencopy) (e : environment)
    (evs : list Frame.session_event) : pool_config :=
  let '(width, height) :=
    last_announced buffer_size_of evs (Frame.width self, Frame.height self) in
  if ENABLE_SCREENCOPY_DMABUF e
     && ((Frame.have_linux_dmabuf self || existsb is_dmabuf_format evs)
         && enable_linux_dmabuf (Frame.parent self))
  then {| cfg_type := WV_BUFFER_DMABUF; cfg_width := width;
          cfg_height := height; cfg_stride := 0;
          cfg_format := last_announced dmabuf_format_of evs
                          (Frame.dmabuf_format self) |}
  else {| cfg_type := WV_BUFFER_SHM; cfg_width := width;
          cfg_height := height;
          cfg_stride := last_announced stride_of evs
                          (Frame.wl_shm_stride self);
          cfg_format := last_announced shm_format_of evs
                          (Frame.wl_shm_format self) |}.

(** The resize call that asks for configuration [c]. *)
Definition resize_call (pool : option obj) (c : pool_config) : call :=
  c_pool_resize pool (cfg_type c) (cfg_width c) (cfg_height c) (cfg_stride c)
    (cfg_format c).

(** A damage hint sent on a frame. *)
Definition is_frame_hint (c : call) : bool :=
  match c with
  | c_frame_damage_buffer _ _ _ _ _ => true
  | _ => false
  end.

(** The buffer [b] as the store holds it. *)
Definition stored (w : world) (b : buf) : wv_buffer :=
  default {| domain := WV_BUFFER_DOMAIN_UNSPEC; buffer_damage := [];
             frame_damage := [] |} (bufs w !! b).

(** A box of 16-bit coordinates that is not inverted. *)
Definition box_ok (r : pixman_box16) : Prop :=
  - 2 ^ 15 <= x1 r /\ x1 r <= x2 r /\ x2 r < 2 ^ 15
  /\ - 2 ^ 15 <= y1 r /\ y1 r <= y2 r /\ y2 r < 2 ^ 15.

(** The owner asks to stop. *)
Definition is_frame_stop (i : Frame.input) : bool :=
  match i with
  | Frame.call_stop => true
  | _ => false
  end.

Definition is_session_stop (i : Session.input) : bool :=
  match i with
  | Session.call_stop => true
  | _ => false
  end.

(** The world of [world_capturing] once buffer 0, with its damage, is back
    in the pool. *)
Definition world_recycled : world := set_pool_queue [0%nat] world_capturing.

(** [frame_idle] with buffer 0 in the slot and frame 14 outstanding. *)
Definition frame_capturing_next : Frame.ext_screencopy :=
  Frame.set_frame (Some 14%nat) (Frame.set_buffer (Some 0%nat) frame_idle).

(** ** What one input does to a session of the session dialect *)

(** The calls by which [ext_screencopy_init_session] of the session
    dialect opens a session, whatever the compositor grants, from the next
    free object id [n]. *)
Definition session_open_calls_in (o : output) (render_cursors capture : bool)
    (m1 m2 : obj) (n : obj) (e : environment) : list call :=
  let options := if render_cursors then [OPTIONS_RENDER_CURSORS] else [] in
  if source_ok e then
    if capture then
      if cursor_ok e then
        if session_ok e then
          [c_create_output_source m1 o (Some n);
           c_manager_capture_cursor m2 n options (Some (S n));
           c_source_destroy n;
           c_cursor_get_screencopy_session (S n) (Some (S (S n)));
           c_session_add_listener (S (S n));
           c_cursor_add_listener (S n)]
        else
          [c_create_output_source m1 o (Some n);
           c_manager_capture_cursor m2 n options (Some (S n));
           c_source_destroy n;
           c_cursor_get_screencopy_session (S n) None]
      else
        [c_create_output_source m1 o (Some n);
         c_manager_capture_cursor m2 n options None;
         c_source_destroy n]
    else
      if session_ok e then
        [c_create_output_source m1 o (Some n);
         c_manager_capture m2 n options (Some (S n));
         c_source_destroy n;
         c_session_add_listener (S n)]
      else
        [c_create_output_source m1 o (Some n);
         c_manager_capture m2 n options None;
         c_source_destroy n]
  else [c_create_output_source m1 o None].

(** The session object after [ext_screencopy_init_session] of the session
    dialect.  When the image source is refused the [session] field is left
    as it was; when the cursor session is refused only [cursor] is
    written. *)
Definition session_opened (n : obj) (e : environment)
    (self : Session.ext_screencopy) : Session.ext_screencopy :=
  if source_ok e then
    if Session.capture_cursor self then
      if cursor_ok e then
        Session.set_session
          (if session_ok e then Some (S (S n)) else None)
          (Session.set_cursor (Some (S n)) self)
      else Session.set_cursor None self
    else Session.set_session (if session_ok e then Some (S n) else None) self
  else self.

(** Everything the compositor must grant for a session to be opened. *)
Definition session_grants (capture : bool) (e : environment) : bool :=
  source_ok e && (if capture then cursor_ok e else true) && session_ok e.

(** The session after a deferred [start(immediate)]. *)
Definition session_deferred_with (immediate : bool)
    (self : Session.ext_screencopy) : Session.ext_screencopy :=
  Session.set_shall_be_immediate immediate (Session.set_should_start true self).

(** The call by which the negotiation-complete handler of the session
    dialect configures the pool. *)
Definition session_resize_call (self : Session.ext_screencopy)
    (e : environment) : call :=
  if ENABLE_SCREENCOPY_DMABUF e
     && (Session.have_linux_dmabuf self
         && enable_linux_dmabuf (Session.parent self))
  then c_pool_resize (Session.pool self) WV_BUFFER_DMABUF
         (Session.width self) (Session.height self) 0
         (Session.dmabuf_format self)
  else c_pool_resize (Session.pool self) WV_BUFFER_SHM (Session.width self)
         (Session.height self) (Session.wl_shm_stride self)
         (Session.wl_shm_format self).

(** The upcall of a cursor event: made only when the parent has the
    callback. *)
Definition cursor_upcall (registered : bool) (c : call) : list call :=
  if registered then [c] else [].

(** [session_effect self w i self' calls]: in world [w], input [i] takes
    the session object from [self] to [self'] and makes the calls [calls].
    One constructor for each path through the functions that
    [Session.step] reaches and that returns. *)
Inductive session_effect (self : Session.ext_screencopy) (w : world)
    : Session.input -> Session.ext_screencopy -> list call -> Prop :=
| se_start_deferred (immediate : bool) :
    Session.have_buffer_info self = false ->
    session_effect self w (Session.call_start immediate)
      (session_deferred_with immediate self) []
| se_start_capture (immediate : bool) (s : obj) (b : buf) (rects : region) :
    Session.have_buffer_info self = true ->
    Session.session self = Some s ->
    session_effect self w (Session.call_start immediate)
      (Session.set_buffer (Some b) self)
      (session_capture_calls (Session.pool self) s b rects immediate)
| se_stop :
    session_effect self w Session.call_stop self []
| se_format_shm (format : Z) :
    session_effect self w (Session.on_session (Session.ev_format_shm format))
      (Session.set_wl_shm_format format (Session.set_have_wl_shm true self))
      []
| se_format_drm (format : Z) :
    session_effect self w (Session.on_session (Session.ev_format_drm format))
      (if ENABLE_SCREENCOPY_DMABUF (env w)
       then Session.set_dmabuf_format format
              (Session.set_have_linux_dmabuf true self)
       else self) []
| se_dimensions (width height : Z) :
    session_effect self w
      (Session.on_session (Session.ev_dimensions width height))
      (Session.set_wl_shm_stride (u32 (width * 4))
         (Session.set_height height (Session.set_width width self))) []
| se_done_idle :
    Session.should_start self = false ->
    session_effect self w (Session.on_session Session.ev_constraints_done)
      (Session.set_have_buffer_info true self)
      [session_resize_call self (env w); c_log LogInitDone]
| se_done_capture (s : obj) (b : buf) (rects : region) :
    Session.should_start self = true ->
    Session.session self = Some s ->
    session_effect self w (Session.on_session Session.ev_constraints_done)
      (Session.set_have_buffer_info true
         (Session.set_shall_be_immediate false
            (Session.set_should_start false
               (Session.set_buffer (Some b) self))))
      ([session_resize_call self (env w)]
       ++ session_capture_calls (Session.pool self) s b rects
            (Session.shall_be_immediate self)
       ++ [c_log LogInitDone])
| se_damage (x y width height : Z) :
    session_effect self w
      (Session.on_session (Session.ev_damage x y width height))
      self [c_buffer_damage_rect (Session.buffer self) x y width height]
| se_presentation_time (sec_hi sec_lo nsec : Z) :
    session_effect self w
      (Session.on_session (Session.ev_presentation_time sec_hi sec_lo nsec))
      self []
| se_transform (t : Z) (b : buf) :
    Session.buffer self = Some b ->
    session_effect self w (Session.on_session (Session.ev_transform t))
      self [c_fb_set_transform b t]
| se_ready (b : buf) (r : region) :
    Session.buffer self = Some b ->
    session_effect self w (Session.on_session Session.ev_ready)
      (Session.set_buffer None self)
      [c_log LogReady;
       c_registry_damage_all b r (Session.capture_domain self);
       c_pixman_region_clear_buffer_damage b;
       c_on_done SCREENCOPY_DONE (Some b) (userdata (Session.parent self))]
| se_failed (b : buf) (code : Z) :
    Session.buffer self = Some b ->
    session_effect self w
      (Session.on_session
         (Session.ev_failed (Session.FAILURE_REASON_OTHER code)))
      (Session.set_buffer None self)
      [c_log LogFailed; c_pool_release (Session.pool self) b;
       c_on_done SCREENCOPY_FAILED None (userdata (Session.parent self))]
| se_failed_reopen (b : buf) (m1 m2 : obj) :
    Session.buffer self = Some b ->
    ext_image_source_manager (globals w) = Some m1 ->
    (source_ok (env w) = true ->
     ext_screencopy_manager (globals w) = Some m2) ->
    session_effect self w
      (Session.on_session
         (Session.ev_failed Session.FAILURE_REASON_INVALID_BUFFER))
      (session_opened (next_obj w) (env w) (Session.set_buffer None self))
      ([c_log LogFailed; c_pool_release (Session.pool self) b]
       ++ option_list (c_session_destroy <$> Session.session self)
       ++ session_open_calls_in (Session.wl_output self)
            (Session.render_cursors self) (Session.capture_cursor self)
            m1 m2 (next_obj w) (env w)
       ++ [c_on_done SCREENCOPY_FAILED None
             (userdata (Session.parent self))])
| se_cursor_enter :
    session_effect self w (Session.on_cursor Session.ev_enter) self
      (cursor_upcall (cursor_enter (Session.parent self))
         (c_cursor_enter (userdata (Session.parent self))))
| se_cursor_leave :
    session_effect self w (Session.on_cursor Session.ev_leave) self
      (cursor_upcall (cursor_leave (Session.parent self))
         (c_cursor_leave (userdata (Session.parent self))))
| se_cursor_position (x y : Z) :
    session_effect self w (Session.on_cursor (Session.ev_position x y))
      self []
| se_cursor_hotspot (x y : Z) :
    session_effect self w (Session.on_cursor (Session.ev_hotspot x y)) self
      (cursor_upcall (cursor_hotspot (Session.parent self))
         (c_cursor_hotspot x y (userdata (Session.parent self)))).

(** The input schedules a capture while the slot of the session still
    holds a buffer. *)
Definition overwrites (self : Session.ext_screencopy) (i : Session.input)
    : bool :=
  match Session.buffer self with
  | None => false
  | Some _ =>
      match i with
      | Session.call_start _ => Session.have_buffer_info self
      | Session.on_session Session.ev_constraints_done =>
          Session.should_start self
      | _ => false
      end
  end.

(** How many inputs of a run schedule a capture over a full slot. *)
Fixpoint overwritten (self : Session.ext_screencopy) (l : list Session.input)
    (w : world) : nat :=
  match l with
  | [] => 0
  | i :: l' =>
      ((if overwrites self i then 1 else 0)
       + match Session.step self i w with
         | Ok (self', w') => overwritten self' l' w'
         | Fault _ => 0
         end)%nat
  end.

(** [create(output, render_cursor)] or, for [capture], [create_cursor(output)]
    of the session dialect. *)
Definition session_create_as (o : output) (render_cursor capture : bool)
    : M (option Session.ext_screencopy) :=
  if capture then Session.ext_screencopy_create_cursor o
  else Session.ext_screencopy_create o render_cursor.

(** A run of the session dialect used as a concrete input: the
    negotiation, a capture, a second start while the first capture is
    outstanding, then ready. *)
Definition session_session_run : list Session.input :=
  [Session.on_session (Session.ev_format_shm 0);
   Session.on_session (Session.ev_dimensions 1920 1080);
   Session.on_session Session.ev_constraints_done;
   Session.call_start false;
   Session.on_cursor (Session.ev_position 3 4);
   Session.call_start true;
   Session.on_session Session.ev_ready].

(** The world of [world_capturing] with a compositor that refuses a new
    image source. *)
Definition world_refusing : world :=
  {| trace := []; bufs := bufs world_capturing; registry := [];
     pool_queue := [];
     pool_cfg := pool_cfg world_capturing; next_buf := 1%nat;
     next_obj := 14%nat; globals := all_managers;
     env := {| ENABLE_SCREENCOPY_DMABUF := false; calloc_ok := true;
               pool_create_ok := true; source_ok := false;
               session_ok := true; cursor_ok := true; frame_ok := true |} |}.

(** The fields of a session of the session dialect that are set at
    creation and never written afterwards. *)
Definition session_fixed (a b : Session.ext_screencopy) : Prop :=
  Session.parent b = Session.parent a
  /\ Session.wl_output b = Session.wl_output a
  /\ Session.render_cursors b = Session.render_cursors a
  /\ Session.pool b = Session.pool a
  /\ Session.capture_cursor b = Session.capture_cursor a.

(** What a call made between the creation and the destruction of a
    session of the session dialect can be.  Every pool call is on the pool
    of the session; a cursor callback is made only when the parent has it,
    and gets the parent's userdata, as the completion callback does; a
    cursor session is asked for only by a session made by
    [create_cursor], and a plain capture only by one made by [create].  The
    pool is neither created nor destroyed and nothing is freed. *)
Definition session_may_call (self : Session.ext_screencopy) (e : environment)
    (c : call) : Prop :=
  match c with
  | c_pool_acquire p _ | c_pool_release p _ => p = Session.pool self
  | c_pool_resize p type _ _ _ _ =>
      p = Session.pool self
      /\ (type = WV_BUFFER_DMABUF ->
          ENABLE_SCREENCOPY_DMABUF e = true
          /\ enable_linux_dmabuf (Session.parent self) = true)
      /\ type <> WV_BUFFER_UNSPEC
  | c_on_done _ _ u => u = userdata (Session.parent self)
  | c_cursor_enter u =>
      cursor_enter (Session.parent self) = true
      /\ u = userdata (Session.parent self)
  | c_cursor_leave u =>
      cursor_leave (Session.parent self) = true
      /\ u = userdata (Session.parent self)
  | c_cursor_hotspot _ _ u =>
      cursor_hotspot (Session.parent self) = true
      /\ u = userdata (Session.parent self)
  | c_registry_damage_all _ _ d => d = Session.capture_domain self
  | c_create_output_source _ o _ => o = Session.wl_output self
  | c_manager_capture _ _ options _ =>
      Session.capture_cursor self = false
      /\ options = (if Session.render_cursors self
                    then [OPTIONS_RENDER_CURSORS] else [])
  | c_manager_capture_cursor _ _ options _ =>
      Session.capture_cursor self = true
      /\ options = (if Session.render_cursors self
                    then [OPTIONS_RENDER_CURSORS] else [])
  | c_cursor_get_screencopy_session _ _ | c_cursor_add_listener _ =>
      Session.capture_cursor self = true
  | c_source_destroy _ | c_session_add_listener _ | c_session_destroy _
  | c_session_attach_buffer _ _ | c_session_damage_buffer _ _ _ _ _
  | c_session_commit _ _
  | c_buffer_damage_rect _ _ _ _ _ | c_fb_set_transform _ _
  | c_pixman_region_clear_buffer_damage _ | c_log _ => True
  | c_pool_create _ | c_pool_destroy _ | c_free
  | c_manager_create_session _ _ _ _ | c_session_create_frame _ _
  | c_frame_attach_buffer _ _ | c_frame_add_listener _
  | c_frame_damage_buffer _ _ _ _ _ | c_frame_capture _
  | c_frame_destroy _ => False
  end.

(** A damage hint sent on the session. *)
Definition is_session_hint (c : call) : bool :=
  match c with
  | c_session_damage_buffer _ _ _ _ _ => true
  | _ => false
  end.

(** A line of the log. *)
Definition is_log (c : call) : bool :=
  match c with
  | c_log _ => true
  | _ => false
  end.

(** The calls of a trace other than the lines of the log. *)
Definition requests (t : list call) : list call :=
  select (fun c => negb (is_log c)) t.

(** The session object with another rate limit in its parent. *)
Definition with_rate_limit (v : Z) (self : Frame.ext_screencopy)
    : Frame.ext_screencopy :=
  {| Frame.parent := set_rate_limit v (Frame.parent self);
     Frame.wl_output := Frame.wl_output self;
     Frame.session := Frame.session self; Frame.frame := Frame.frame self;
     Frame.cursor := Frame.cursor self;
     Frame.render_cursors := Frame.render_cursors self;
     Frame.pool := Frame.pool self; Frame.buffer := Frame.buffer self;
     Frame.have_buffer_info := Frame.have_buffer_info self;
     Frame.should_start := Frame.should_start self;
     Frame.shall_be_immediate := Frame.shall_be_immediate self;
     Frame.capture_cursor := Frame.capture_cursor self;
     Frame.width := Frame.width self; Frame.height := Frame.height self;
     Frame.wl_shm_stride := Frame.wl_shm_stride self;
     Frame.wl_shm_format := Frame.wl_shm_format self;
     Frame.have_wl_shm := Frame.have_wl_shm self;
     Frame.have_linux_dmabuf := Frame.have_linux_dmabuf self;
     Frame.dmabuf_format := Frame.dmabuf_format self |}.

(** The result of a handler with [f] applied to the session object it
    returns. *)
Definition on_result {A B} (f : A -> B) (r : outcome (A * world))
    : outcome (B * world) :=
  match r with
  | Ok (a, w) => Ok (f a, w)
  | Fault e => Fault e
  end.

(** A session-dialect session as [ext_screencopy_create] leaves it, before
    any negotiation event. *)
Definition session_created : Session.ext_screencopy :=
  Session.set_session (Some 12%nat)
    (Session.new_self 7%nat true false (Some 10%nat)).






(** A world in which the compositor advertises the two managers that the
    frame dialect uses, the capture manager and the output image source
    manager, and neither [ext_image_source_manager] nor the wlr manager; it
    grants every object. *)
Definition world_frame_managers : world :=
  {| trace := []; bufs := ∅; registry := []; pool_queue := [];
     pool_cfg := {| cfg_type := WV_BUFFER_UNSPEC; cfg_width := 0;
                    cfg_height := 0; cfg_stride := 0; cfg_format := 0 |};
     next_buf := 0%nat; next_obj := 10%nat;
     globals := {| screencopy_manager := None;
                   ext_image_source_manager := None;
                   ext_output_image_source_manager := Some 3%nat;
                   ext_screencopy_manager := Some 4%nat |};
     env := granting |}.

(** The test of [screencopy_create] for the table [ext_screencopy_impl]. *)
Definition ext_advertised (g : managers) : bool :=
  bool_decide (ext_screencopy_manager g <> None)
  && bool_decide (ext_image_source_manager g <> None).

(** Everything the allocator and the compositor must grant for [create] of
    the session dialect to return a session. *)
Definition session_create_grants (e : environment) : bool :=
  calloc_ok e && pool_create_ok e && session_grants false e.

(** * Properties *)

(** ** Lemmas on the monad and on traces *)

Lemma select_app (p : call -> bool) (t1 t2 : list call) :
  select p (t1 ++ t2) = select p t1 ++ select p t2.
Proof.
  induction t1 as [|c t1 IH]; simpl; [reflexivity|].
  destruct (p c); simpl; rewrite IH; reflexivity.
Qed.

Lemma select_none (p : call -> bool) (t : list call) :
  Forall (fun c => p c = false) t -> select p t = [].
Proof.
  induction 1 as [|c t Hc _ IH]; simpl; [reflexivity|].
  rewrite Hc. exact IH.
Qed.

Lemma select_frame_hints (p : call -> bool) (f : obj) (rects : region) :
  p (c_frame_damage_buffer 0%nat 0 0 0 0) = false ->
  (forall f x y w h, p (c_frame_damage_buffer f x y w h)
                     = p (c_frame_damage_buffer 0%nat 0 0 0 0)) ->
  select p (map (frame_hint f) rects) = [].
Proof.
  intros H0 Hall. apply select_none, Forall_map, Forall_forall.
  intros r _. unfold frame_hint, damage_hint. rewrite Hall. exact H0.
Qed.

Lemma select_session_hints (p : call -> bool) (s : obj) (rects : region) :
  p (c_session_damage_buffer 0%nat 0 0 0 0) = false ->
  (forall s x y w h, p (c_session_damage_buffer s x y w h)
                     = p (c_session_damage_buffer 0%nat 0 0 0 0)) ->
  select p (map (session_hint s) rects) = [].
Proof.
  intros H0 Hall. apply select_none, Forall_map, Forall_forall.
  intros r _. unfold session_hint, damage_hint. rewrite Hall. exact H0.
Qed.

Lemma for_each_emit {A} (g : A -> call) (l : list A) (w : world) :
  for_each l (fun a => emit (g a)) w
  = Ok (tt, set_trace (trace w ++ map g l) w).
Proof.
  revert w. induction l as [|a l IH]; intros w; simpl.
  - unfold ret, set_trace. rewrite app_nil_r. destruct w; reflexivity.
  - unfold bind, emit. rewrite IH. simpl. rewrite <- app_assoc. reflexivity.
Qed.

(** Run the next statement of a handler. *)
Ltac mred := repeat (unfold bind at 1; simpl).

Ltac hints_off :=
  repeat first
    [ rewrite select_frame_hints by (reflexivity || (intros; reflexivity))
    | rewrite select_session_hints by (reflexivity || (intros; reflexivity)) ].

(** ** The frame dialect, handler by handler *)

Lemma frame_capture_calls_read (pool : option obj) (s f : obj) (b : buf)
    (rects : region) (immediate : bool) :
  acquisitions (frame_capture_calls pool s f b rects immediate)
  = [c_pool_acquire pool b]
  /\ disposals (frame_capture_calls pool s f b rects immediate) = []
  /\ commits (frame_capture_calls pool s f b rects immediate)
     = [c_frame_capture f].
Proof.
  unfold acquisitions, disposals, commits, frame_capture_calls. simpl.
  rewrite !select_app. hints_off. simpl. repeat split; reflexivity.
Qed.

Lemma frame_capture_calls_logged (pool : option obj) (s f : obj) (b : buf)
    (rects : region) (immediate : bool) :
  In (c_log (LogCommitted immediate (Some b)))
     (frame_capture_calls pool s f b rects immediate).
Proof.
  unfold frame_capture_calls.
  apply in_or_app. right. apply in_or_app. right. right. left. reflexivity.
Qed.

(** With no frame outstanding, a session and a compositor that grants the
    frame, a capture is scheduled: one buffer leaves the pool and one frame
    is created, attached to it and captured. *)
Lemma frame_schedule_capture_runs (self : Frame.ext_screencopy)
    (immediate : bool) (w : world) (s : obj) :
  Frame.frame self = None ->
  Frame.session self = Some s ->
  frame_ok (env w) = true ->
  exists (b : buf) (w1 : world) (rects : region),
    Frame.ext_screencopy_schedule_capture self immediate w
    = Ok (Frame.set_frame (Some (next_obj w))
            (Frame.set_buffer (Some b) self), w1)
    /\ trace w1
       = trace w
         ++ frame_capture_calls (Frame.pool self) s (next_obj w) b rects
              immediate
    /\ env w1 = env w /\ globals w1 = globals w /\ pool_cfg w1 = pool_cfg w.
Proof.
  intros Hf Hs Hok.
  unfold Frame.ext_screencopy_schedule_capture, frame_capture_calls.
  rewrite Hf. mred. rewrite Hs.
  unfold wv_buffer_pool_acquire.
  destruct (pool_queue w) as [|b q] eqn:Hq; simpl; rewrite Hok; simpl;
    rewrite for_each_emit; simpl;
    (eexists _, _, _; split; [reflexivity|]; simpl;
     rewrite <- !app_assoc; simpl; repeat split; reflexivity).
Qed.

(** With a frame outstanding the first statement of the function stops the
    program. *)
Lemma frame_schedule_capture_busy (self : Frame.ext_screencopy)
    (immediate : bool) (w : world) (f : obj) :
  Frame.frame self = Some f ->
  Frame.ext_screencopy_schedule_capture self immediate w
  = Fault (assertion_failed "!self->frame").
Proof.
  intros Hf. unfold Frame.ext_screencopy_schedule_capture.
  rewrite Hf. reflexivity.
Qed.

Lemma frame_open_calls_read (o : output) (render_cursors : bool)
    (m1 m2 : obj) (n : obj) (e : environment) :
  acquisitions (frame_open_calls o render_cursors m1 m2 n e) = []
  /\ disposals (frame_open_calls o render_cursors m1 m2 n e) = []
  /\ commits (frame_open_calls o render_cursors m1 m2 n e) = [].
Proof.
  unfold frame_open_calls.
  destruct (source_ok e), (session_ok e); repeat split; reflexivity.
Qed.

Lemma frame_init_session_runs (self : Frame.ext_screencopy) (w : world)
    (m1 m2 : obj) :
  ext_output_image_source_manager (globals w) = Some m1 ->
  ext_screencopy_manager (globals w) = Some m2 ->
  exists (w' : world),
    Frame.ext_screencopy_init_session self w
    = Ok ((if source_ok (env w) && session_ok (env w) then 0 else -1,
           Frame.set_session
             (if source_ok (env w) && session_ok (env w)
              then Some (S (next_obj w)) else None)
             (Frame.set_frame None self)), w')
    /\ trace w'
       = trace w
         ++ option_list (c_frame_destroy <$> Frame.frame self)
         ++ option_list (c_session_destroy <$> Frame.session self)
         ++ frame_open_calls (Frame.wl_output self)
              (Frame.render_cursors self) m1 m2 (next_obj w) (env w)
    /\ env w' = env w /\ globals w' = globals w /\ pool_cfg w' = pool_cfg w
    /\ bufs w' = bufs w /\ pool_queue w' = pool_queue w
    /\ next_obj w'
       = if source_ok (env w)
         then if session_ok (env w) then S (S (next_obj w))
              else S (next_obj w)
         else next_obj w.
Proof.
  intros H1 H2.
  unfold Frame.ext_screencopy_init_session, frame_open_calls.
  destruct self as [? ? [s|] [f|] ? ? ? ? ? ? ? ? ? ? ? ? ? ? ?]; simpl;
    mred; rewrite H1; simpl;
    destruct (source_ok (env w)); simpl;
    rewrite ?H2; simpl;
    destruct (session_ok (env w)); simpl;
    (eexists; split; [reflexivity|]; simpl;
     rewrite <- ?app_assoc; simpl; repeat split; reflexivity).
Qed.

Lemma last_snoc_app {A} (l1 l2 : list A) (z : A) :
  last (l1 ++ l2 ++ [z]) = Some z.
Proof. rewrite app_assoc. apply last_snoc. Qed.

(** In the frame dialect [start] with the format known and a frame
    outstanding, and the deferred capture of a negotiation-complete event
    with a frame outstanding, both stop at the assertion. *)
Lemma frame_start_while_outstanding_asserts (self : Frame.ext_screencopy)
    (immediate : bool) (w : world) (f : obj) :
  Frame.have_buffer_info self = true ->
  Frame.frame self = Some f ->
  Frame.ext_screencopy_start self immediate w
  = Fault (assertion_failed "!self->frame").
Proof.
  intros Hinfo Hf. unfold Frame.ext_screencopy_start. rewrite Hinfo. simpl.
  unfold bind. rewrite (frame_schedule_capture_busy _ _ _ f Hf). reflexivity.
Qed.

Lemma frame_deferred_capture_while_outstanding_asserts
    (self : Frame.ext_screencopy) (w : world) (f : obj) :
  Frame.should_start self = true ->
  Frame.frame self = Some f ->
  Frame.session_handle_constraints_done self w
  = Fault (assertion_failed "!self->frame").
Proof.
  intros Hstart Hf. unfold Frame.session_handle_constraints_done.
  rewrite Hstart. mred.
  destruct (ENABLE_SCREENCOPY_DMABUF (env w)
            && (Frame.have_linux_dmabuf self
                && enable_linux_dmabuf (Frame.parent self)));
    mred; unfold wv_buffer_pool_resize; simpl;
    rewrite (frame_schedule_capture_busy _ _ _ f Hf); reflexivity.
Qed.

(** ** The session dialect, handler by handler *)

Lemma session_capture_calls_read (pool : option obj) (s : obj) (b : buf)
    (rects : region) (immediate : bool) :
  acquisitions (session_capture_calls pool s b rects immediate)
  = [c_pool_acquire pool b]
  /\ disposals (session_capture_calls pool s b rects immediate) = []
  /\ commits (session_capture_calls pool s b rects immediate)
     = [c_session_commit s
          (if negb immediate then [OPTIONS_ON_DAMAGE] else [])].
Proof.
  unfold acquisitions, disposals, commits, session_capture_calls. simpl.
  rewrite !select_app. hints_off. simpl. repeat split; reflexivity.
Qed.

(** The session dialect schedules a capture whatever the slot holds. *)
Lemma session_schedule_capture_runs (self : Session.ext_screencopy)
    (immediate : bool) (w : world) (s : obj) :
  Session.session self = Some s ->
  exists (b : buf) (w1 : world) (rects : region),
    Session.ext_screencopy_schedule_capture self immediate w
    = Ok (Session.set_buffer (Some b) self, w1)
    /\ trace w1
       = trace w
         ++ session_capture_calls (Session.pool self) s b rects immediate
    /\ env w1 = env w /\ globals w1 = globals w /\ pool_cfg w1 = pool_cfg w.
Proof.
  intros Hs.
  unfold Session.ext_screencopy_schedule_capture, session_capture_calls.
  mred. rewrite Hs.
  unfold wv_buffer_pool_acquire.
  destruct (pool_queue w) as [|b q] eqn:Hq; simpl;
    rewrite for_each_emit; simpl;
    (eexists _, _, _; split; [reflexivity|]; simpl;
     rewrite <- !app_assoc; simpl; repeat split; reflexivity).
Qed.

(** X1.  In the session dialect the recorded flag decides how the deferred
    capture is committed: a start deferred with [immediate] is committed at
    negotiation complete with the on-damage option exactly when [immediate] is
    false. *)
Lemma session_deferred_start_commits_with_recorded_flag
    (self : Session.ext_screencopy) (immediate : bool) (w : world) (s : obj) :
  Session.have_buffer_info self = false ->
  Session.session self = Some s ->
  exists (self1 self2 : Session.ext_screencopy) (w2 : world) (b : buf)
         (calls : list call),
    Session.ext_screencopy_start self immediate w = Ok ((0, self1), w)
    /\ Session.session_handle_constraints_done self1 w = Ok (self2, w2)
    /\ trace w2 = trace w ++ calls
    /\ acquisitions calls = [c_pool_acquire (Session.pool self) b]
    /\ commits calls
       = [c_session_commit s
            (if negb immediate then [OPTIONS_ON_DAMAGE] else [])]
    /\ Session.should_start self2 = false
    /\ Session.shall_be_immediate self2 = false.
Proof.
  intros Hinfo Hs.
  exists (Session.set_shall_be_immediate immediate
            (Session.set_should_start true self)).
  unfold Session.ext_screencopy_start. rewrite Hinfo. simpl.
  unfold Session.session_handle_constraints_done. simpl. mred.
  destruct (ENABLE_SCREENCOPY_DMABUF (env w)
            && (Session.have_linux_dmabuf self
                && enable_linux_dmabuf (Session.parent self)));
    mred; unfold wv_buffer_pool_resize; simpl;
    match goal with
    | |- context [Session.ext_screencopy_schedule_capture ?a ?i ?b] =>
        destruct (session_schedule_capture_runs a i b s Hs)
          as (b1 & w1 & rects & Hrun & Htr & _); rewrite Hrun
    end;
    simpl in Htr; simpl;
    destruct (session_capture_calls_read (Session.pool self) s b1 rects
                immediate) as (Ha & _ & Hc);
    (eexists _, _, b1,
       ([_] ++ session_capture_calls (Session.pool self) s b1 rects immediate
        ++ [c_log LogInitDone]);
     split; [reflexivity|]; split; [reflexivity|];
     split; [cbn [trace set_trace]; rewrite Htr, <- !app_assoc; reflexivity|];
     unfold acquisitions, commits in *;
     rewrite !select_app, Ha, Hc; repeat split; reflexivity).
Qed.

(** ** Deferred start and negotiation in the frame dialect *)

Lemma deferred_with_again (i j : bool) (self : Frame.ext_screencopy) :
  deferred_with i (deferred_with j self) = deferred_with i self.
Proof. destruct self; reflexivity. Qed.

Lemma frame_start_defers (self : Frame.ext_screencopy) (immediate : bool)
    (w : world) :
  Frame.have_buffer_info self = false ->
  Frame.ext_screencopy_start self immediate w
  = Ok ((0, deferred_with immediate self), w).
Proof.
  intros Hinfo. unfold Frame.ext_screencopy_start. rewrite Hinfo.
  reflexivity.
Qed.

Lemma frame_starts_coalesce (earlier : list bool) (latest : bool)
    (self : Frame.ext_screencopy) (w : world) :
  Frame.have_buffer_info self = false ->
  Frame.run self (map Frame.call_start (earlier ++ [latest])) w
  = Ok (deferred_with latest self, w).
Proof.
  revert self. induction earlier as [|i earlier IH]; intros self Hinfo.
  - simpl. unfold bind. rewrite (frame_start_defers _ _ _ Hinfo).
    reflexivity.
  - simpl. unfold bind at 1. unfold bind at 1.
    rewrite (frame_start_defers _ _ _ Hinfo). simpl.
    rewrite IH by (destruct self; exact Hinfo).
    rewrite deferred_with_again. reflexivity.
Qed.

Lemma same_capture_state_refl (a : Frame.ext_screencopy) :
  same_capture_state a a.
Proof. repeat split. Qed.

Lemma same_capture_state_trans (a b c : Frame.ext_screencopy) :
  same_capture_state a b -> same_capture_state b c ->
  same_capture_state a c.
Proof.
  unfold same_capture_state. intros H1 H2.
  decompose [and] H1. decompose [and] H2.
  repeat split; congruence.
Qed.

Lemma frame_negotiation_event (self : Frame.ext_screencopy)
    (ev : Frame.session_event) (w : world) :
  ev <> Frame.ev_done ->
  exists self',
    Frame.session_listener self ev w = Ok (self', w)
    /\ same_capture_state self self'.
Proof.
  intros Hev. destruct ev; try congruence; simpl.
  - eexists. split; [reflexivity|]. repeat split.
  - unfold Frame.session_handle_format_drm, bind, get_env.
    destruct (ENABLE_SCREENCOPY_DMABUF (env w));
      (eexists; split; [reflexivity|]; repeat split).
  - eexists. split; [reflexivity|]. repeat split.
  - eexists. split; [reflexivity|]. repeat split.
  - eexists. split; [reflexivity|]. repeat split.
Qed.

Lemma frame_negotiation_events (evs : list Frame.session_event)
    (self : Frame.ext_screencopy) (w : world) :
  Forall (fun ev => ev <> Frame.ev_done) evs ->
  exists self',
    Frame.run self (map Frame.on_session evs) w = Ok (self', w)
    /\ same_capture_state self self'.
Proof.
  intros Hevs. revert self.
  induction Hevs as [|ev evs Hev _ IH]; intros self; simpl.
  - exists self. split; [reflexivity|]. apply same_capture_state_refl.
  - destruct (frame_negotiation_event self ev w Hev) as (self1 & H1 & S1).
    destruct (IH self1) as (self2 & H2 & S2).
    exists self2. unfold bind. rewrite H1, H2. split; [reflexivity|].
    eapply same_capture_state_trans; eassumption.
Qed.

Lemma frame_resize_call_read (self : Frame.ext_screencopy) (e : environment) :
  is_acquisition (frame_resize_call self e) = false
  /\ is_disposal (frame_resize_call self e) = false
  /\ is_commit (frame_resize_call self e) = false.
Proof.
  unfold frame_resize_call.
  destruct (ENABLE_SCREENCOPY_DMABUF e
            && (Frame.have_linux_dmabuf self
                && enable_linux_dmabuf (Frame.parent self)));
    repeat split; reflexivity.
Qed.

(** Negotiation complete with a start deferred: the pool is configured,
    one capture is scheduled with the recorded flag, and both deferred-start
    flags are cleared. *)
Lemma frame_constraints_done_deferred (self : Frame.ext_screencopy)
    (w : world) (s : obj) :
  Frame.should_start self = true ->
  Frame.frame self = None ->
  Frame.session self = Some s ->
  frame_ok (env w) = true ->
  exists (b : buf) (w1 : world) (rects : region),
    Frame.session_handle_constraints_done self w
    = Ok (Frame.set_have_buffer_info true
            (Frame.set_shall_be_immediate false
               (Frame.set_should_start false
                  (Frame.set_frame (Some (next_obj w))
                     (Frame.set_buffer (Some b) self)))), w1)
    /\ trace w1
       = trace w
         ++ [frame_resize_call self (env w)]
         ++ frame_capture_calls (Frame.pool self) s (next_obj w) b rects
              (Frame.shall_be_immediate self)
         ++ [c_log LogInitDone].
Proof.
  intros Hstart Hf Hs Hok.
  unfold Frame.session_handle_constraints_done, frame_resize_call.
  rewrite Hstart. mred.
  destruct (ENABLE_SCREENCOPY_DMABUF (env w)
            && (Frame.have_linux_dmabuf self
                && enable_linux_dmabuf (Frame.parent self)));
    mred; unfold wv_buffer_pool_resize; simpl;
    match goal with
    | |- context [Frame.ext_screencopy_schedule_capture ?a ?i ?b] =>
        destruct (frame_schedule_capture_runs a i b s Hf Hs Hok)
          as (b1 & w1 & rects & Hrun & Htr & _); rewrite Hrun
    end;
    simpl in Htr; simpl;
    (exists b1; eexists; exists rects; split; [reflexivity|];
     cbn [trace set_trace]; rewrite Htr; unfold frame_capture_calls;
     rewrite <- !app_assoc; reflexivity).
Qed.

(** Negotiation complete with no start deferred: the pool is configured
    and nothing else happens. *)
Lemma frame_constraints_done_idle (self : Frame.ext_screencopy) (w : world) :
  Frame.should_start self = false ->
  exists (w1 : world),
    Frame.session_handle_constraints_done self w
    = Ok (Frame.set_have_buffer_info true self, w1)
    /\ trace w1 = trace w ++ [frame_resize_call self (env w); c_log LogInitDone].
Proof.
  intros Hstart.
  unfold Frame.session_handle_constraints_done, frame_resize_call.
  rewrite Hstart. mred.
  destruct (ENABLE_SCREENCOPY_DMABUF (env w)
            && (Frame.have_linux_dmabuf self
                && enable_linux_dmabuf (Frame.parent self)));
    mred; unfold wv_buffer_pool_resize; simpl;
    (eexists; split; [reflexivity|]; simpl;
     rewrite <- !app_assoc; reflexivity).
Qed.

Lemma session_init_session_granted (self : Session.ext_screencopy)
    (w : world) (m1 m2 : obj) :
  ext_image_source_manager (globals w) = Some m1 ->
  ext_screencopy_manager (globals w) = Some m2 ->
  source_ok (env w) = true ->
  session_ok (env w) = true ->
  cursor_ok (env w) = true ->
  exists (w' : world),
    Session.ext_screencopy_init_session self w
    = Ok ((0, session_reopened (next_obj w) self), w')
    /\ trace w'
       = trace w
         ++ option_list (c_session_destroy <$> Session.session self)
         ++ session_open_calls (Session.wl_output self)
              (Session.render_cursors self) (Session.capture_cursor self)
              m1 m2 (next_obj w)
    /\ env w' = env w /\ globals w' = globals w /\ pool_cfg w' = pool_cfg w
    /\ bufs w' = bufs w /\ pool_queue w' = pool_queue w.
Proof.
  intros H1 H2 Hsrc Hses Hcur.
  unfold Session.ext_screencopy_init_session, session_open_calls,
    session_reopened.
  destruct self as [? ? [s|] ? ? ? ? ? ? ? [|] ? ? ? ? ? ? ?]; simpl;
    mred; rewrite H1; simpl; rewrite Hsrc; simpl; rewrite H2; simpl;
    rewrite ?Hcur; simpl; rewrite Hses; simpl;
    (eexists; split; [reflexivity|]; simpl;
     rewrite <- ?app_assoc; simpl; repeat split; reflexivity).
Qed.

Lemma session_open_calls_read (o : output) (render_cursors capture : bool)
    (m1 m2 : obj) (n : obj) :
  acquisitions (session_open_calls o render_cursors capture m1 m2 n) = []
  /\ disposals (session_open_calls o render_cursors capture m1 m2 n) = [].
Proof.
  unfold session_open_calls. destruct capture; split; reflexivity.
Qed.

(** X2.  The session dialect disposes of the buffer of a capture exactly once
    too, whichever way the capture ends, as long as no second capture is
    started meanwhile. *)
Lemma session_dialect_buffer_disposed_exactly_once
    (self : Session.ext_screencopy) (immediate : bool) (w : world)
    (s m0 m2 : obj) (e : session_ending) :
  Session.session self = Some s ->
  ext_image_source_manager (globals w) = Some m0 ->
  ext_screencopy_manager (globals w) = Some m2 ->
  source_ok (env w) = true ->
  session_ok (env w) = true ->
  cursor_ok (env w) = true ->
  exists (b : buf) (self1 : Session.ext_screencopy) (w1 : world)
         (begun : list call) (after : option Session.ext_screencopy)
         (w2 : world) (ended : list call),
    Session.ext_screencopy_schedule_capture self immediate w = Ok (self1, w1)
    /\ trace w1 = trace w ++ begun
    /\ acquisitions begun = [c_pool_acquire (Session.pool self) b]
    /\ disposals begun = []
    /\ Session.buffer self1 = Some b
    /\ finish_session self1 e w1 = Ok (after, w2)
    /\ trace w2 = trace w1 ++ ended
    /\ acquisitions ended = []
    /\ disposals ended
       = [match e with
          | by_session_ready =>
              c_on_done SCREENCOPY_DONE (Some b)
                (userdata (Session.parent self))
          | by_session_failed _ | by_session_destroy =>
              c_pool_release (Session.pool self) b
          end]
    /\ (forall self2, after = Some self2 -> Session.buffer self2 = None).
Proof.
  intros Hs Hm0 Hm2 Hsrc Hses Hcur.
  destruct (session_schedule_capture_runs self immediate w s Hs)
    as (b & w1 & rects & Hrun & Htr & He & Hg & _).
  destruct (session_capture_calls_read (Session.pool self) s b rects
              immediate) as (Hacq & Hdis & _).
  exists b, (Session.set_buffer (Some b) self), w1,
    (session_capture_calls (Session.pool self) s b rects immediate).
  destruct e as [|reason|].
  - unfold finish_session, Session.session_handle_ready,
    Session.session_handle_ready_with. mred.
    eexists _, _, _.
    do 5 (split; [first [eassumption | reflexivity]|]).
    split; [reflexivity|]. simpl.
    split; [rewrite <- !app_assoc; simpl; reflexivity|].
    do 2 (split; [reflexivity|]).
    intros self2 [= <-]. reflexivity.
  - unfold finish_session, Session.session_handle_failed,
    Session.session_handle_failed_with. mred.
    unfold wv_buffer_pool_release. simpl.
    destruct reason as [|code].
    + match goal with
      | |- context [Session.ext_screencopy_init_session ?a ?b] =>
          destruct (session_init_session_granted a b m0 m2)
            as (w3 & Hinit & Htr3 & _);
            [simpl; congruence ..|]; rewrite Hinit
      end.
      simpl in Htr3. rewrite Hs in Htr3. simpl in Htr3.
      assert (Hp : forall n x,
                 Session.parent (session_reopened n x) = Session.parent x
                 /\ Session.buffer (session_reopened n x)
                    = Session.buffer x).
      { intros n x. unfold session_reopened.
        destruct (Session.capture_cursor x); split; reflexivity. }
      simpl. rewrite (proj1 (Hp _ _)). simpl.
      eexists _, _,
        ([c_log LogFailed; c_pool_release (Session.pool self) b;
          c_session_destroy s]
         ++ session_open_calls (Session.wl_output self)
              (Session.render_cursors self) (Session.capture_cursor self)
              m0 m2 (next_obj w1)
         ++ [c_on_done SCREENCOPY_FAILED None
               (userdata (Session.parent self))]).
      do 5 (split; [first [eassumption | reflexivity]|]).
      split; [reflexivity|].
      split; [cbn [trace set_trace]; rewrite Htr3, <- !app_assoc;
              reflexivity|].
      destruct (session_open_calls_read (Session.wl_output self)
                  (Session.render_cursors self) (Session.capture_cursor self)
                  m0 m2 (next_obj w1)) as (Ha & Hd).
      unfold acquisitions, disposals in *.
      rewrite !select_app, Ha, Hd.
      do 2 (split; [reflexivity|]).
      intros self2 [= <-]. rewrite (proj2 (Hp _ _)). reflexivity.
    + simpl. eexists _, _, _.
      do 5 (split; [first [eassumption | reflexivity]|]).
      split; [reflexivity|]. simpl.
      split; [rewrite <- !app_assoc; simpl; reflexivity|].
      do 2 (split; [reflexivity|]).
      intros self2 [= <-]. reflexivity.
  - unfold finish_session, Session.ext_screencopy_destroy. simpl.
    rewrite Hs. mred. unfold wv_buffer_pool_release. simpl.
    eexists _, _, _.
    do 5 (split; [first [eassumption | reflexivity]|]).
    split; [reflexivity|]. simpl.
    split; [rewrite <- !app_assoc; simpl; reflexivity|].
    do 2 (split; [reflexivity|]).
    intros self2 [=].
Qed.

(** ** The frame dialect over whole runs *)

Lemma frame_schedule_capture_inv (self self' : Frame.ext_screencopy)
    (immediate : bool) (w w' : world) :
  Frame.ext_screencopy_schedule_capture self immediate w = Ok (self', w') ->
  Frame.frame self = None
  /\ exists (s f : obj) (b : buf) (rects : region),
       self' = Frame.set_frame (Some f) (Frame.set_buffer (Some b) self)
       /\ trace w'
          = trace w
            ++ frame_capture_calls (Frame.pool self) s f b rects immediate.
Proof.
  intros Hrun.
  destruct (Frame.frame self) as [f|] eqn:Hf.
  { rewrite (frame_schedule_capture_busy _ _ _ f Hf) in Hrun.
    discriminate. }
  split; [reflexivity|].
  destruct (Frame.session self) as [s|] eqn:Hs;
    [destruct (frame_ok (env w)) eqn:Hok|].
  - destruct (frame_schedule_capture_runs self immediate w s Hf Hs Hok)
      as (b & w1 & rects & Hrun' & Htr & _).
    rewrite Hrun' in Hrun. injection Hrun as <- <-.
    exists s, (next_obj w), b, rects. split; [reflexivity | exact Htr].
  - exfalso. revert Hrun.
    unfold Frame.ext_screencopy_schedule_capture. rewrite Hf. mred.
    rewrite Hs. unfold wv_buffer_pool_acquire.
    destruct (pool_queue w); simpl; rewrite Hok; simpl; discriminate.
  - exfalso. revert Hrun.
    unfold Frame.ext_screencopy_schedule_capture. rewrite Hf. mred.
    rewrite Hs. unfold wv_buffer_pool_acquire.
    destruct (pool_queue w); simpl; discriminate.
Qed.

Lemma frame_init_session_inv (self self' : Frame.ext_screencopy) (r : Z)
    (w w' : world) :
  Frame.ext_screencopy_init_session self w = Ok ((r, self'), w') ->
  Frame.buffer self' = Frame.buffer self
  /\ Frame.frame self' = None
  /\ acquisitions (trace w') = acquisitions (trace w)
  /\ disposals (trace w') = disposals (trace w).
Proof.
  intros Hrun.
  destruct (ext_output_image_source_manager (globals w)) as [m1|] eqn:H1;
    [destruct (ext_screencopy_manager (globals w)) as [m2|] eqn:H2|].
  - destruct (frame_init_session_runs self w m1 m2 H1 H2)
      as (w1 & Hrun' & Htr & _).
    rewrite Hrun' in Hrun. injection Hrun as _ <- <-.
    split; [reflexivity|]. split; [reflexivity|].
    destruct (frame_open_calls_read (Frame.wl_output self)
                (Frame.render_cursors self) m1 m2 (next_obj w) (env w))
      as (Ha & Hd & _).
    unfold acquisitions, disposals in *. rewrite Htr, !select_app, Ha, Hd.
    destruct (Frame.frame self), (Frame.session self); simpl;
      rewrite !app_nil_r; split; reflexivity.
  - revert Hrun. unfold Frame.ext_screencopy_init_session.
    destruct self as [? ? [s|] [f|] ? ? ? ? ? ? ? ? ? ? ? ? ? ? ?]; simpl;
      mred; rewrite H1; simpl;
      (destruct (source_ok (env w)); simpl;
       [rewrite H2; simpl; discriminate|]);
      intros [= _ <- <-]; simpl; unfold acquisitions, disposals;
      rewrite ?select_app; simpl; rewrite ?app_nil_r;
      repeat split; reflexivity.
  - revert Hrun. unfold Frame.ext_screencopy_init_session.
    destruct self as [? ? [s|] [f|] ? ? ? ? ? ? ? ? ? ? ? ? ? ? ?]; simpl;
      mred; rewrite H1; simpl; discriminate.
Qed.

Lemma balanced_same (self self' : Frame.ext_screencopy) (w : world) :
  same_capture_state self self' -> balanced self w -> balanced self' w.
Proof.
  unfold same_capture_state, balanced, in_flight.
  intros S [Hc Hi]. decompose [and] S.
  repeat match goal with H : _ self' = _ self |- _ => rewrite H end.
  split; assumption.
Qed.

Lemma balanced_after (self self' : Frame.ext_screencopy) (w w' : world)
    (calls : list call) :
  balanced self w ->
  trace w' = trace w ++ calls ->
  (length (acquisitions calls) + in_flight self
   = length (disposals calls) + in_flight self')%nat ->
  (Frame.frame self' = None <-> Frame.buffer self' = None) ->
  balanced self' w'.
Proof.
  intros [Hc _] Htr Hn Hi. split; [|exact Hi].
  unfold acquisitions, disposals in *.
  rewrite Htr, !select_app, !length_app. lia.
Qed.

Lemma balanced_idle (self : Frame.ext_screencopy) (w : world) :
  balanced self w -> Frame.frame self = None -> in_flight self = 0%nat.
Proof.
  intros [_ Hi] Hf. unfold in_flight. rewrite (proj1 Hi Hf). reflexivity.
Qed.

(** Every call of the owner and every event keeps the account. *)
Lemma frame_step_balanced (self self' : Frame.ext_screencopy) (i : Frame.input)
    (w w' : world) :
  balanced self w ->
  Frame.step self i w = Ok (self', w') ->
  balanced self' w'.
Proof.
  intros Hbal Hstep. destruct i as [immediate| |ev|f ev]; simpl in Hstep.
  - (* start *)
    unfold Frame.ext_screencopy_start in Hstep.
    destruct (Frame.have_buffer_info self) eqn:Hinfo; simpl in Hstep.
    + unfold bind in Hstep.
      destruct (Frame.ext_screencopy_schedule_capture self immediate w)
        as [[self1 w1]|] eqn:Hrun; [|discriminate].
      simpl in Hstep. injection Hstep as <- <-.
      destruct (frame_schedule_capture_inv _ _ _ _ _ Hrun)
        as (Hf & s & f & b & rects & -> & Htr).
      destruct (frame_capture_calls_read (Frame.pool self) s f b rects
                  immediate) as (Ha & Hd & _).
      apply (balanced_after self _ w w1 _ Hbal Htr).
      * rewrite Ha, Hd, (balanced_idle _ _ Hbal Hf). reflexivity.
      * split; discriminate.
    + injection Hstep as <- <-.
      apply (balanced_after self _ w w [] Hbal).
      * symmetry. apply app_nil_r.
      * reflexivity.
      * exact (proj2 Hbal).
  - (* stop *)
    injection Hstep as <- <-. exact Hbal.
  - (* session events *)
    assert (Hcases : ev = Frame.ev_done \/ ev <> Frame.ev_done)
      by (destruct ev; (left; reflexivity) || (right; discriminate)).
    destruct Hcases as [->|Hev].
    + simpl in Hstep.
      destruct (Frame.should_start self) eqn:Hstart.
      * destruct (Frame.frame self) as [f|] eqn:Hf.
        { rewrite (frame_deferred_capture_while_outstanding_asserts
                     self w f Hstart Hf) in Hstep. discriminate. }
        revert Hstep. unfold Frame.session_handle_constraints_done.
        rewrite Hstart. mred.
        destruct (ENABLE_SCREENCOPY_DMABUF (env w)
                  && (Frame.have_linux_dmabuf self
                      && enable_linux_dmabuf (Frame.parent self)));
          mred; unfold wv_buffer_pool_resize; simpl;
          match goal with
          | |- context [Frame.ext_screencopy_schedule_capture ?a ?i ?b] =>
              destruct (Frame.ext_screencopy_schedule_capture a i b)
                as [[self1 w1]|] eqn:Hrun; [|discriminate]
          end;
          simpl; intros [= <- <-];
          destruct (frame_schedule_capture_inv _ _ _ _ _ Hrun)
            as (_ & s & f & b & rects & -> & Htr);
          simpl in Htr;
          destruct (frame_capture_calls_read (Frame.pool self) s f b rects
                      (Frame.shall_be_immediate self)) as (Ha & Hd & _);
          match type of Htr with
          | _ = (_ ++ [?c]) ++ ?l =>
              apply (balanced_after self _ w _ ([c] ++ l ++ [c_log LogInitDone])
                       Hbal)
          end;
          [ cbn [trace set_trace]; rewrite Htr, <- !app_assoc; reflexivity
          | unfold acquisitions, disposals in *;
            rewrite !select_app, Ha, Hd, (balanced_idle _ _ Hbal Hf);
            reflexivity
          | split; discriminate
          | cbn [trace set_trace]; rewrite Htr, <- !app_assoc; reflexivity
          | unfold acquisitions, disposals in *;
            rewrite !select_app, Ha, Hd, (balanced_idle _ _ Hbal Hf);
            reflexivity
          | split; discriminate ].
      * destruct (frame_constraints_done_idle self w Hstart)
          as (w1 & Hrun & Htr).
        rewrite Hrun in Hstep. injection Hstep as <- <-.
        destruct (frame_resize_call_read self (env w)) as (Ra & Rd & _).
        apply (balanced_after self _ w w1 _ Hbal Htr).
        -- unfold acquisitions, disposals. cbn [select].
           rewrite Ra, Rd. reflexivity.
        -- exact (proj2 Hbal).
    + destruct (frame_negotiation_event self ev w Hev) as (self1 & Hrun & S).
      rewrite Hrun in Hstep. injection Hstep as <- <-.
      exact (balanced_same _ _ _ S Hbal).
  - (* frame events *)
    destruct ev as [x y width height|sec_hi sec_lo nsec|t| |reason];
      simpl in Hstep.
    + injection Hstep as <- <-.
      apply (balanced_after self self w _
               [c_buffer_damage_rect (Frame.buffer self) x y width height]
               Hbal); [reflexivity | reflexivity | exact (proj2 Hbal)].
    + injection Hstep as <- <-. exact Hbal.
    + revert Hstep. unfold Frame.frame_handle_transform.
      destruct (Frame.buffer self) as [b|] eqn:Hb; [|discriminate].
      mred. intros [= <- <-].
      apply (balanced_after self self w _ [c_fb_set_transform b t] Hbal);
        [reflexivity | reflexivity | exact (proj2 Hbal)].
    + revert Hstep. unfold Frame.frame_handle_ready,
      Frame.frame_handle_ready_with.
      destruct (Frame.frame self) as [f0|] eqn:Hf; [|discriminate].
      destruct (bool_decide (Some f = Some f0)); [|discriminate].
      mred.
      destruct (Frame.buffer self) as [b|] eqn:Hb; [|discriminate].
      simpl. intros [= <- <-].
      match goal with
      | |- balanced _ (set_trace (?t ++ [?c5]) _) =>
          match t with
          | (((_ ++ [?c1]) ++ [?c2]) ++ [?c3]) ++ [?c4] =>
              apply (balanced_after self _ w _ [c1; c2; c3; c4; c5] Hbal)
          end
      end.
      * cbn [trace set_trace]. rewrite <- !app_assoc. reflexivity.
      * unfold in_flight. rewrite Hb. reflexivity.
      * split; reflexivity.
    + revert Hstep. unfold Frame.frame_handle_failed,
      Frame.frame_handle_failed_with.
      destruct (Frame.frame self) as [f0|] eqn:Hf; [|discriminate].
      destruct (bool_decide (Some f = Some f0)); [|discriminate].
      mred.
      destruct (Frame.buffer self) as [b|] eqn:Hb; [|discriminate].
      simpl. unfold wv_buffer_pool_release. simpl.
      destruct reason as [|code].
      * match goal with
        | |- context [Frame.ext_screencopy_init_session ?a ?b] =>
            destruct (Frame.ext_screencopy_init_session a b)
              as [[[r self1] w1]|] eqn:Hinit; [|discriminate]
        end.
        simpl. intros [= <- <-].
        destruct (frame_init_session_inv _ _ _ _ _ Hinit)
          as (Hb1 & Hf1 & Ha1 & Hd1).
        destruct Hbal as [Hc Hi]. split.
        -- unfold acquisitions, disposals, in_flight in *.
           cbn [trace set_trace] in *.
           rewrite !select_app, !length_app, Ha1, Hd1, Hb1.
           rewrite !select_app, !length_app. simpl.
           rewrite Hb in Hc. simpl in Hc. lia.
        -- rewrite Hf1, Hb1. split; reflexivity.
      * simpl. intros [= <- <-].
        match goal with
        | |- balanced _ (set_trace (?t ++ [?c4]) _) =>
            match t with
            | ((_ ++ [?c1]) ++ [?c2]) ++ [?c3] =>
                apply (balanced_after self _ w _ [c1; c2; c3; c4] Hbal)
            end
        end.
        -- cbn [trace set_trace]. rewrite <- !app_assoc. reflexivity.
        -- unfold in_flight. rewrite Hb. reflexivity.
        -- split; reflexivity.
Qed.

Lemma frame_init_session_shape (self self' : Frame.ext_screencopy) (r : Z)
    (w w' : world) :
  Frame.ext_screencopy_init_session self w = Ok ((r, self'), w') ->
  exists s', self' = Frame.set_session s' (Frame.set_frame None self).
Proof.
  unfold Frame.ext_screencopy_init_session.
  destruct self as [? ? [s|] [f|] ? ? ? ? ? ? ? ? ? ? ? ? ? ? ?]; simpl;
    mred;
    (destruct (ext_output_image_source_manager (globals w)); simpl;
     [|discriminate];
     destruct (source_ok (env w)); simpl;
     [ destruct (ext_screencopy_manager (globals w)); simpl;
       [|discriminate];
       destruct (session_ok (env w)); simpl |];
     unfold ret; intros [= _ <- _]; eexists; reflexivity).
Qed.

Lemma frame_step_settled (self self' : Frame.ext_screencopy) (i : Frame.input)
    (w w' : world) :
  settled self ->
  Frame.step self i w = Ok (self', w') ->
  settled self'.
Proof.
  intros [H1 H2] Hstep. destruct i as [immediate| |ev|f ev]; simpl in Hstep.
  - unfold Frame.ext_screencopy_start in Hstep.
    destruct (Frame.have_buffer_info self) eqn:Hinfo; simpl in Hstep.
    + unfold bind in Hstep.
      destruct (Frame.ext_screencopy_schedule_capture self immediate w)
        as [[self1 w1]|] eqn:Hrun; [|discriminate].
      simpl in Hstep. injection Hstep as <- <-.
      destruct (frame_schedule_capture_inv _ _ _ _ _ Hrun)
        as (_ & s & f & b & rects & -> & _).
      split; simpl; intros _; [exact Hinfo | exact (H2 eq_refl)].
    + injection Hstep as <- <-. split; simpl.
      * intros Hf. specialize (H1 Hf). congruence.
      * intros Hi. congruence.
  - injection Hstep as <- <-. split; assumption.
  - assert (Hcases : ev = Frame.ev_done \/ ev <> Frame.ev_done)
      by (destruct ev; (left; reflexivity) || (right; discriminate)).
    destruct Hcases as [->|Hev].
    + simpl in Hstep.
      destruct (Frame.should_start self) eqn:Hstart.
      * revert Hstep. unfold Frame.session_handle_constraints_done.
        rewrite Hstart. mred.
        destruct (ENABLE_SCREENCOPY_DMABUF (env w)
                  && (Frame.have_linux_dmabuf self
                      && enable_linux_dmabuf (Frame.parent self)));
          mred; unfold wv_buffer_pool_resize; simpl;
          match goal with
          | |- context [Frame.ext_screencopy_schedule_capture ?a ?i ?b] =>
              destruct (Frame.ext_screencopy_schedule_capture a i b)
                as [[self1 w1]|] eqn:Hrun; [|discriminate]
          end;
          simpl; intros [= <- <-]; split; reflexivity.
      * destruct (frame_constraints_done_idle self w Hstart)
          as (w1 & Hrun & _).
        rewrite Hrun in Hstep. injection Hstep as <- <-.
        split; simpl; intros _; [reflexivity | exact Hstart].
    + destruct (frame_negotiation_event self ev w Hev) as (self1 & Hrun & S).
      rewrite Hrun in Hstep. injection Hstep as <- <-.
      unfold same_capture_state in S.
      destruct S as (_ & _ & Sf & _ & _ & Si & Sst & _).
      unfold settled. rewrite Sf, Si, Sst. split; assumption.
  - destruct ev as [x y width height|sec_hi sec_lo nsec|t| |reason];
      simpl in Hstep.
    + injection Hstep as <- <-. split; assumption.
    + injection Hstep as <- <-. split; assumption.
    + revert Hstep. unfold Frame.frame_handle_transform.
      destruct (Frame.buffer self) as [b|] eqn:Hb; [|discriminate].
      mred. intros [= <- <-]. split; assumption.
    + revert Hstep. unfold Frame.frame_handle_ready,
      Frame.frame_handle_ready_with.
      destruct (Frame.frame self) as [f0|] eqn:Hf; [|discriminate].
      destruct (bool_decide (Some f = Some f0)); [|discriminate].
      mred.
      destruct (Frame.buffer self) as [b|] eqn:Hb; [|discriminate].
      simpl. intros [= <- <-]. split; simpl; [congruence | exact H2].
    + revert Hstep. unfold Frame.frame_handle_failed,
      Frame.frame_handle_failed_with.
      destruct (Frame.frame self) as [f0|] eqn:Hf; [|discriminate].
      destruct (bool_decide (Some f = Some f0)); [|discriminate].
      mred.
      destruct (Frame.buffer self) as [b|] eqn:Hb; [|discriminate].
      simpl. unfold wv_buffer_pool_release. simpl.
      destruct reason as [|code].
      * match goal with
        | |- context [Frame.ext_screencopy_init_session ?a ?b] =>
            destruct (Frame.ext_screencopy_init_session a b)
              as [[[r self1] w1]|] eqn:Hinit; [|discriminate]
        end.
        simpl. intros [= <- <-].
        destruct (frame_init_session_shape _ _ _ _ _ Hinit) as (s' & ->).
        split; simpl; [congruence | exact H2].
      * simpl. intros [= <- <-]. split; simpl; [congruence | exact H2].
Qed.

Lemma frame_run_settled (l : list Frame.input)
    (self self' : Frame.ext_screencopy) (w w' : world) :
  settled self ->
  Frame.run self l w = Ok (self', w') ->
  settled self'.
Proof.
  revert self w. induction l as [|i l IH]; intros self w Hs Hrun.
  - injection Hrun as <- <-. exact Hs.
  - simpl in Hrun. unfold bind in Hrun.
    destruct (Frame.step self i w) as [[self1 w1]|] eqn:Hstep;
      [|discriminate].
    exact (IH _ _ (frame_step_settled _ _ _ _ _ Hs Hstep) Hrun).
Qed.

Lemma frame_create_settled (o : output) (render_cursor : bool)
    (self : Frame.ext_screencopy) (w w' : world) :
  Frame.ext_screencopy_create o render_cursor w = Ok (Some self, w') ->
  settled self.
Proof.
  unfold Frame.ext_screencopy_create. mred.
  destruct (calloc_ok (env w)); simpl; [|discriminate].
  unfold wv_buffer_pool_create. mred.
  destruct (pool_create_ok (env w)); simpl; [|discriminate].
  match goal with
  | |- context [Frame.ext_screencopy_init_session ?a ?b] =>
      destruct (Frame.ext_screencopy_init_session a b)
        as [[[r self1] w1]|] eqn:Hinit; [|discriminate]
  end.
  destruct (frame_init_session_shape _ _ _ _ _ Hinit) as (s' & ->).
  simpl. destruct (r <? 0); simpl; [discriminate|].
  intros [= <- <-]. split; simpl; [congruence | discriminate].
Qed.

Lemma frame_run_balanced (l : list Frame.input)
    (self self' : Frame.ext_screencopy) (w w' : world) :
  balanced self w ->
  Frame.run self l w = Ok (self', w') ->
  balanced self' w'.
Proof.
  revert self w. induction l as [|i l IH]; intros self w Hbal Hrun.
  - injection Hrun as <- <-. exact Hbal.
  - simpl in Hrun. unfold bind in Hrun.
    destruct (Frame.step self i w) as [[self1 w1]|] eqn:Hstep;
      [|discriminate].
    exact (IH _ _ (frame_step_balanced _ _ _ _ _ Hbal Hstep) Hrun).
Qed.

(** A session is created balanced: no buffer has moved and the slot is
    empty. *)
Lemma frame_create_balanced (o : output) (render_cursor : bool)
    (self : Frame.ext_screencopy) (w w' : world) :
  acquisitions (trace w) = [] ->
  disposals (trace w) = [] ->
  Frame.ext_screencopy_create o render_cursor w = Ok (Some self, w') ->
  balanced self w'.
Proof.
  intros Ha Hd. unfold Frame.ext_screencopy_create. mred.
  destruct (calloc_ok (env w)); simpl; [|discriminate].
  unfold wv_buffer_pool_create. mred.
  destruct (pool_create_ok (env w)); simpl; [|discriminate].
  match goal with
  | |- context [Frame.ext_screencopy_init_session ?a ?b] =>
      destruct (Frame.ext_screencopy_init_session a b)
        as [[[r self1] w1]|] eqn:Hinit; [|discriminate]
  end.
  destruct (frame_init_session_inv _ _ _ _ _ Hinit)
    as (Hb1 & Hf1 & Ha1 & Hd1).
  simpl. destruct (r <? 0); simpl; [discriminate|].
  intros [= <- <-]. split.
  - unfold in_flight. rewrite Ha1, Hd1, Hb1.
    unfold acquisitions, disposals in *. cbn [trace set_trace set_next_obj].
    rewrite !select_app, Ha, Hd. reflexivity.
  - rewrite Hf1, Hb1. split; reflexivity.
Qed.

(** X3.  Over any run of a session of the frame dialect, from its creation,
    that the process survives: at most one buffer is in flight, it is in
    flight exactly while a frame is outstanding, and every other buffer taken
    from the pool has been released or delivered exactly once; a frame is
    outstanding only with the format known, and then no start is waiting.
    Destroying the session leaves no buffer unaccounted for. *)
Theorem frame_dialect_buffers_balanced (o : output) (render_cursor : bool)
    (l : list Frame.input) (self0 self : Frame.ext_screencopy)
    (w0 w1 w2 w3 : world) :
  trace w0 = [] ->
  Frame.ext_screencopy_create o render_cursor w0 = Ok (Some self0, w1) ->
  Frame.run self0 l w1 = Ok (self, w2) ->
  Frame.ext_screencopy_destroy self w2 = Ok (tt, w3) ->
  (Frame.frame self = None <-> Frame.buffer self = None)
  /\ length (acquisitions (trace w2))
     = (length (disposals (trace w2)) + in_flight self)%nat
  /\ (in_flight self <= 1)%nat
  /\ settled self
  /\ length (acquisitions (trace w3)) = length (disposals (trace w3)).
Proof.
  intros Ht Hcreate Hrun Hdestroy.
  assert (Hset : settled self).
  { eapply frame_run_settled; [|exact Hrun].
    eapply frame_create_settled. exact Hcreate. }
  assert (Hbal : balanced self w2).
  { eapply frame_run_balanced; [|exact Hrun].
    eapply frame_create_balanced; [| |exact Hcreate]; rewrite Ht; reflexivity. }
  destruct Hbal as [Hc Hi].
  split; [exact Hi|]. split; [exact Hc|].
  split; [unfold in_flight; destruct (Frame.buffer self); lia|].
  split; [exact Hset|]. clear Hset.
  revert Hdestroy. unfold Frame.ext_screencopy_destroy, in_flight in *.
  destruct (Frame.frame self), (Frame.session self), (Frame.buffer self);
    mred; unfold wv_buffer_pool_release; simpl; intros [= <-];
    unfold acquisitions, disposals in *; cbn [trace set_trace];
    rewrite !select_app, !length_app; simpl; lia.
Qed.

(** ** The claims of the specification *)

(** Close the last conjuncts of the account of one capture. *)
Ltac close_account :=
  split; [reflexivity|];
  split; [reflexivity|];
  split; [intros ? ?; first [discriminate | reflexivity]|];
  intros ? ?;
  first [ discriminate
        | match goal with
          | H : Some _ = Some _ |- _ => injection H as <-
          end; split; reflexivity ].

(** C1.  For every capture attempt of the frame dialect the buffer taken
    from the pool is disposed of exactly once.  From any session with no
    capture outstanding, scheduling a capture takes one buffer [b] from the
    pool; whichever way the capture then ends, the calls of the ending hold
    exactly one disposal of a buffer, and it is of [b]: on ready [b] goes to
    the completion callback with result done and is not released; on failed,
    with the invalidating reason or any other, [b] is released to the pool
    and the callback, called last, receives no buffer; on destroy [b] is
    released to the pool.  The slot of the session is empty afterwards. *)
Theorem C1_buffer_disposed_exactly_once (self : Frame.ext_screencopy)
    (immediate : bool) (w : world) (s m1 m2 : obj) (e : ending) :
  Frame.frame self = None ->
  Frame.session self = Some s ->
  frame_ok (env w) = true ->
  ext_output_image_source_manager (globals w) = Some m1 ->
  ext_screencopy_manager (globals w) = Some m2 ->
  exists (b : buf) (f : obj) (self1 : Frame.ext_screencopy) (w1 : world)
         (begun : list call) (after : option Frame.ext_screencopy)
         (w2 : world) (ended : list call),
    Frame.ext_screencopy_schedule_capture self immediate w = Ok (self1, w1)
    /\ trace w1 = trace w ++ begun
    /\ acquisitions begun = [c_pool_acquire (Frame.pool self) b]
    /\ disposals begun = []
    /\ Frame.buffer self1 = Some b
    /\ Frame.frame self1 = Some f
    /\ finish self1 f e w1 = Ok (after, w2)
    /\ trace w2 = trace w1 ++ ended
    /\ acquisitions ended = []
    /\ disposals ended
       = [match e with
          | by_ready =>
              c_on_done SCREENCOPY_DONE (Some b)
                (userdata (Frame.parent self))
          | by_failed _ | by_destroy => c_pool_release (Frame.pool self) b
          end]
    /\ (forall reason, e = by_failed reason ->
        last ended
        = Some (c_on_done SCREENCOPY_FAILED None
                  (userdata (Frame.parent self))))
    /\ (forall self2, after = Some self2 ->
        Frame.buffer self2 = None /\ Frame.frame self2 = None).
Proof.
  intros Hf Hs Hok Hm1 Hm2.
  destruct (frame_schedule_capture_runs self immediate w s Hf Hs Hok)
    as (b & w1 & rects & Hrun & Htr & He & Hg & Hc).
  exists b, (next_obj w),
    (Frame.set_frame (Some (next_obj w)) (Frame.set_buffer (Some b) self)),
    w1, (frame_capture_calls (Frame.pool self) s (next_obj w) b rects
           immediate).
  destruct (frame_capture_calls_read (Frame.pool self) s (next_obj w) b
              rects immediate) as (Hacq & Hdis & _).
  destruct e as [|reason|].
  - (* ready *)
    unfold finish, Frame.frame_listener, Frame.frame_handle_ready,
      Frame.frame_handle_ready_with. simpl.
    rewrite bool_decide_true by reflexivity. mred.
    eexists _, _, _.
    do 6 (split; [first [eassumption | reflexivity]|]).
    split; [reflexivity|]. simpl.
    split; [rewrite <- !app_assoc; simpl; reflexivity|].
    close_account.
  - (* failed *)
    unfold finish, Frame.frame_listener, Frame.frame_handle_failed,
      Frame.frame_handle_failed_with. simpl.
    rewrite bool_decide_true by reflexivity. mred.
    unfold wv_buffer_pool_release. simpl.
    destruct reason as [|code].
    + match goal with
      | |- context [Frame.ext_screencopy_init_session ?a ?b] =>
          destruct (frame_init_session_runs a b m1 m2)
            as (w3 & Hinit & Htr3 & _);
            [simpl; congruence | simpl; congruence |]; rewrite Hinit
      end.
      simpl in Htr3. rewrite Hs, He in Htr3. simpl in Htr3.
      simpl.
      exists (Some (Frame.set_session
                (if source_ok (env w1) && session_ok (env w1)
                 then Some (S (next_obj w1)) else None)
                (Frame.set_frame None
                   (Frame.set_buffer None
                      (Frame.set_frame None
                         (Frame.set_frame (Some (next_obj w))
                            (Frame.set_buffer (Some b) self))))))).
      eexists.
      exists ([c_frame_destroy (next_obj w); c_log LogFailed;
               c_pool_release (Frame.pool self) b; c_session_destroy s]
              ++ frame_open_calls (Frame.wl_output self)
                   (Frame.render_cursors self) m1 m2 (next_obj w1) (env w)
              ++ [c_on_done SCREENCOPY_FAILED None
                    (userdata (Frame.parent self))]).
      do 6 (split; [first [eassumption | reflexivity]|]).
      split; [reflexivity|].
      split; [simpl; rewrite Htr3, <- !app_assoc; reflexivity|].
      destruct (frame_open_calls_read (Frame.wl_output self)
                  (Frame.render_cursors self) m1 m2 (next_obj w1) (env w))
        as (Ha & Hd & _).
      unfold acquisitions, disposals in *.
      rewrite !select_app, Ha, Hd, last_snoc_app.
      close_account.
    + simpl. eexists _, _, _.
      do 6 (split; [first [eassumption | reflexivity]|]).
      split; [reflexivity|]. simpl.
      split; [rewrite <- !app_assoc; simpl; reflexivity|].
      close_account.
  - (* destroy *)
    unfold finish, Frame.ext_screencopy_destroy. simpl. rewrite Hs. mred.
    unfold wv_buffer_pool_release. simpl.
    eexists _, _, _.
    do 6 (split; [first [eassumption | reflexivity]|]).
    split; [reflexivity|]. simpl.
    split; [rewrite <- !app_assoc; simpl; reflexivity|].
    close_account.
Qed.

(** C1 at a concrete session: a capture scheduled on [frame_idle] and ended
    by the invalidating failure. *)
Lemma C1_buffer_disposed_exactly_once_witness :
  exists (b : buf) (f : obj) (self1 : Frame.ext_screencopy) (w1 : world)
         (after : option Frame.ext_screencopy) (w2 : world)
         (ended : list call),
    Frame.ext_screencopy_schedule_capture frame_idle true world0
    = Ok (self1, w1)
    /\ finish self1 f (by_failed Frame.FAILURE_REASON_BUFFER_CONSTRAINTS) w1
       = Ok (after, w2)
    /\ disposals ended = [c_pool_release (Some 10%nat) b].
Proof.
  destruct (C1_buffer_disposed_exactly_once frame_idle true world0 12%nat
              3%nat 4%nat (by_failed Frame.FAILURE_REASON_BUFFER_CONSTRAINTS)
              eq_refl eq_refl eq_refl eq_refl eq_refl)
    as (b & f & self1 & w1 & begun & after & w2 & ended & H1 & _ & _ & _ & _
        & _ & H2 & _ & _ & H3 & _).
  exists b, f, self1, w1, after, w2, ended. auto.
Defined.

(** C2.  Evaluation of the session dialect where the claim fails: with the
    format known and a capture outstanding (buffer [b0] in the slot),
    [start] is not stopped by any assertion.  It returns 0, takes a second
    buffer from the pool, overwrites the slot with it and commits a second
    capture on the same session; [b0] is neither released nor delivered. *)
Theorem C2_session_dialect_accepts_second_start
    (self : Session.ext_screencopy) (immediate : bool) (w : world)
    (s : obj) (b0 : buf) :
  Session.have_buffer_info self = true ->
  Session.buffer self = Some b0 ->
  Session.session self = Some s ->
  exists (b1 : buf) (w1 : world) (calls : list call),
    Session.ext_screencopy_start self immediate w
    = Ok ((0, Session.set_buffer (Some b1) self), w1)
    /\ trace w1 = trace w ++ calls
    /\ acquisitions calls = [c_pool_acquire (Session.pool self) b1]
    /\ disposals calls = []
    /\ commits calls
       = [c_session_commit s
            (if negb immediate then [OPTIONS_ON_DAMAGE] else [])].
Proof.
  intros Hinfo _ Hs.
  destruct (session_schedule_capture_runs self immediate w s Hs)
    as (b1 & w1 & rects & Hrun & Htr & _).
  exists b1, w1, (session_capture_calls (Session.pool self) s b1 rects
                    immediate).
  split.
  - unfold Session.ext_screencopy_start. rewrite Hinfo. simpl.
    unfold bind. rewrite Hrun. reflexivity.
  - split; [exact Htr|]. apply session_capture_calls_read.
Qed.

(** C2 at a concrete session of the session dialect with buffer 0 in
    flight. *)
Lemma C2_session_dialect_accepts_second_start_witness :
  exists (b1 : buf) (w1 : world),
    Session.ext_screencopy_start session_capturing false world_capturing
    = Ok ((0, Session.set_buffer (Some b1) session_capturing), w1).
Proof.
  destruct (C2_session_dialect_accepts_second_start session_capturing false
              world_capturing 12%nat 0%nat eq_refl eq_refl eq_refl)
    as (b1 & w1 & calls & H & _).
  exists b1, w1. exact H.
Defined.

(** C3.  Frame dialect.  [start(immediate)] before the format is known
    makes no call at all (the world is returned as it was, so no buffer is
    taken from the pool) and returns 0; it only records the request and the
    flag.  Whatever format and dimension events follow, the next
    negotiation-complete event schedules exactly one capture: one buffer is
    taken, one frame is captured, and the flag passed to the scheduling is
    the recorded [immediate].  Both deferred-start flags are then clear, and
    a further negotiation-complete event takes no buffer and captures
    nothing. *)
Theorem C3_deferred_start_runs_once_at_negotiation_complete
    (self : Frame.ext_screencopy) (immediate : bool) (w : world)
    (negotiation : list Frame.session_event) (s : obj) :
  Frame.have_buffer_info self = false ->
  Frame.frame self = None ->
  Frame.session self = Some s ->
  frame_ok (env w) = true ->
  Forall (fun ev => ev <> Frame.ev_done) negotiation ->
  exists (self1 self2 self3 : Frame.ext_screencopy) (w3 : world)
         (b : buf) (calls : list call),
    Frame.ext_screencopy_start self immediate w = Ok ((0, self1), w)
    /\ Frame.buffer self1 = Frame.buffer self
    /\ Frame.should_start self1 = true
    /\ Frame.shall_be_immediate self1 = immediate
    /\ Frame.run self1 (map Frame.on_session negotiation) w = Ok (self2, w)
    /\ Frame.session_listener self2 Frame.ev_done w = Ok (self3, w3)
    /\ trace w3 = trace w ++ calls
    /\ acquisitions calls = [c_pool_acquire (Frame.pool self) b]
    /\ commits calls = [c_frame_capture (next_obj w)]
    /\ In (c_log (LogCommitted immediate (Some b))) calls
    /\ Frame.buffer self3 = Some b
    /\ Frame.have_buffer_info self3 = true
    /\ Frame.should_start self3 = false
    /\ Frame.shall_be_immediate self3 = false
    /\ forall (w4 : world),
       exists (self5 : Frame.ext_screencopy) (w5 : world)
              (calls' : list call),
         Frame.session_listener self3 Frame.ev_done w4 = Ok (self5, w5)
         /\ trace w5 = trace w4 ++ calls'
         /\ acquisitions calls' = []
         /\ commits calls' = [].
Proof.
  intros Hinfo Hf Hs Hok Hneg.
  destruct (frame_negotiation_events negotiation (deferred_with immediate self)
              w Hneg) as (self2 & Hrun2 & S2).
  unfold same_capture_state in S2. simpl in S2.
  destruct S2 as (Sp & Ss & Sf & Spool & Sb & Si & Sst & Sim & Sc).
  destruct (frame_constraints_done_deferred self2 w s) as
    (b & w3 & rects & Hdone & Htr); try congruence.
  exists (deferred_with immediate self), self2. eexists _, w3, b, _.
  split; [apply frame_start_defers; exact Hinfo|].
  do 3 (split; [reflexivity|]).
  split; [exact Hrun2|].
  split; [exact Hdone|].
  split; [exact Htr|].
  destruct (frame_capture_calls_read (Frame.pool self2) s (next_obj w) b rects
              (Frame.shall_be_immediate self2)) as (Ha & Hd & Hc).
  destruct (frame_resize_call_read self2 (env w)) as (Ra & Rd & Rc).
  rewrite Spool, Sim in *.
  split.
  { unfold acquisitions in *. rewrite !select_app, Ha. cbn [select].
    rewrite Ra. reflexivity. }
  split.
  { unfold commits in *. rewrite !select_app, Hc. cbn [select].
    rewrite Rc. reflexivity. }
  split.
  { apply in_or_app. right. apply in_or_app. left.
    apply frame_capture_calls_logged. }
  do 4 (split; [reflexivity|]).
  intros w4.
  match goal with
  | |- context [Frame.session_listener ?a _ _] =>
      destruct (frame_constraints_done_idle a w4 eq_refl) as (w5 & H5 & Htr5);
      destruct (frame_resize_call_read a (env w4)) as (Ra5 & _ & Rc5)
  end.
  eexists _, w5, _. split; [exact H5|]. split; [exact Htr5|].
  unfold acquisitions, commits. cbn [select]. rewrite Ra5, Rc5.
  split; reflexivity.
Qed.

(** C3 at a concrete session: [start(true)] right after creation, then a
    format and a dimensions event, then negotiation complete. *)
Lemma C3_deferred_start_runs_once_at_negotiation_complete_witness :
  exists (self1 self2 self3 : Frame.ext_screencopy) (w3 : world) (b : buf),
    Frame.ext_screencopy_start frame_created true world_created
    = Ok ((0, self1), world_created)
    /\ Frame.run self1
         (map Frame.on_session
            [Frame.ev_shm_format 0; Frame.ev_buffer_size 1920 1080])
         world_created
       = Ok (self2, world_created)
    /\ Frame.session_listener self2 Frame.ev_done world_created
       = Ok (self3, w3)
    /\ Frame.buffer self3 = Some b.
Proof.
  destruct (C3_deferred_start_runs_once_at_negotiation_complete frame_created
              true world_created
              [Frame.ev_shm_format 0; Frame.ev_buffer_size 1920 1080] 12%nat
              eq_refl eq_refl eq_refl eq_refl)
    as (self1 & self2 & self3 & w3 & b & calls & H1 & _ & _ & _ & H2 & H3
        & _ & _ & _ & _ & H4 & _).
  { repeat constructor; discriminate. }
  exists self1, self2, self3, w3, b. auto.
Defined.

(** C4.  Both dialects, with a capture outstanding and a compositor that
    grants the image source and the session.  On the invalidating reason
    the handler releases the buffer, destroys the session, opens a new one
    (new source, new session, listener), and only then calls the completion
    callback with result failed and no buffer: the callback is the last
    call.  On any other reason the calls are the release and the callback
    alone, and the session object changes in nothing but the cleared slot
    (and frame), so the negotiated format stays as it was; the pool keeps
    its configuration. *)
Theorem C4_reinit_only_on_invalidating_failure
    (fself : Frame.ext_screencopy) (sself : Session.ext_screencopy)
    (w : world) (f s m0 m1 m2 : obj) (b : buf) (code : Z) :
  Frame.frame fself = Some f ->
  Frame.buffer fself = Some b ->
  Frame.session fself = Some s ->
  Session.buffer sself = Some b ->
  Session.session sself = Some s ->
  ext_image_source_manager (globals w) = Some m0 ->
  ext_output_image_source_manager (globals w) = Some m1 ->
  ext_screencopy_manager (globals w) = Some m2 ->
  source_ok (env w) = true ->
  session_ok (env w) = true ->
  cursor_ok (env w) = true ->
  (exists (self' : Frame.ext_screencopy) (w' : world),
     Frame.frame_handle_failed fself f
       Frame.FAILURE_REASON_BUFFER_CONSTRAINTS w = Ok (self', w')
     /\ trace w'
        = trace w
          ++ [c_frame_destroy f; c_log LogFailed;
              c_pool_release (Frame.pool fself) b;
              c_session_destroy s;
              c_create_output_source m1 (Frame.wl_output fself)
                (Some (next_obj w));
              c_manager_create_session m2 (next_obj w)
                (if Frame.render_cursors fself
                 then [OPTIONS_PAINT_CURSORS] else [])
                (Some (S (next_obj w)));
              c_source_destroy (next_obj w);
              c_session_add_listener (S (next_obj w));
              c_on_done SCREENCOPY_FAILED None
                (userdata (Frame.parent fself))]
     /\ Frame.session self' = Some (S (next_obj w))
     /\ Frame.frame self' = None
     /\ Frame.buffer self' = None)
  /\ (exists (w' : world),
        Frame.frame_handle_failed fself f (Frame.FAILURE_REASON_OTHER code) w
        = Ok (Frame.set_buffer None (Frame.set_frame None fself), w')
        /\ trace w'
           = trace w
             ++ [c_frame_destroy f; c_log LogFailed;
                 c_pool_release (Frame.pool fself) b;
                 c_on_done SCREENCOPY_FAILED None
                   (userdata (Frame.parent fself))]
        /\ pool_cfg w' = pool_cfg w)
  /\ (exists (w' : world),
        Session.session_handle_failed sself
          Session.FAILURE_REASON_INVALID_BUFFER w
        = Ok (session_reopened (next_obj w) (Session.set_buffer None sself),
              w')
        /\ trace w'
           = trace w
             ++ [c_log LogFailed; c_pool_release (Session.pool sself) b;
                 c_session_destroy s]
             ++ session_open_calls (Session.wl_output sself)
                  (Session.render_cursors sself)
                  (Session.capture_cursor sself) m0 m2 (next_obj w)
             ++ [c_on_done SCREENCOPY_FAILED None
                   (userdata (Session.parent sself))])
  /\ (exists (w' : world),
        Session.session_handle_failed sself
          (Session.FAILURE_REASON_OTHER code) w
        = Ok (Session.set_buffer None sself, w')
        /\ trace w'
           = trace w
             ++ [c_log LogFailed; c_pool_release (Session.pool sself) b;
                 c_on_done SCREENCOPY_FAILED None
                   (userdata (Session.parent sself))]
        /\ pool_cfg w' = pool_cfg w).
Proof.
  intros Hf Hb Hs Hsb Hss Hm0 Hm1 Hm2 Hsrc Hses Hcur.
  split; [|split; [|split]].
  - unfold Frame.frame_handle_failed, Frame.frame_handle_failed_with.
    rewrite Hf.
    rewrite bool_decide_true by reflexivity. mred. rewrite Hb. simpl.
    unfold wv_buffer_pool_release. simpl.
    match goal with
    | |- context [Frame.ext_screencopy_init_session ?a ?b] =>
        destruct (frame_init_session_runs a b m1 m2)
          as (w3 & Hinit & Htr3 & _);
          [simpl; congruence | simpl; congruence |]; rewrite Hinit
    end.
    simpl in Htr3. unfold frame_open_calls in Htr3.
    rewrite Hs, Hsrc, Hses in Htr3. simpl in Htr3.
    simpl. rewrite Hsrc, Hses. simpl.
    eexists _, _. split; [reflexivity|]. simpl. rewrite Htr3.
    rewrite <- !app_assoc. simpl. repeat split; reflexivity.
  - unfold Frame.frame_handle_failed, Frame.frame_handle_failed_with.
    rewrite Hf.
    rewrite bool_decide_true by reflexivity. mred. rewrite Hb. simpl.
    unfold wv_buffer_pool_release. simpl.
    eexists. split; [reflexivity|]. simpl.
    rewrite <- !app_assoc. simpl. repeat split; reflexivity.
  - unfold Session.session_handle_failed, Session.session_handle_failed_with.
    mred. rewrite Hsb. simpl.
    unfold wv_buffer_pool_release. simpl.
    match goal with
    | |- context [Session.ext_screencopy_init_session ?a ?b] =>
        destruct (session_init_session_granted a b m0 m2)
          as (w3 & Hinit & Htr3 & _);
          [simpl; congruence ..|]; rewrite Hinit
    end.
    simpl in Htr3. rewrite Hss in Htr3. simpl in Htr3.
    simpl. eexists. split.
    + unfold session_reopened. simpl.
      destruct (Session.capture_cursor sself); reflexivity.
    + cbn [trace set_trace]. rewrite Htr3.
      rewrite <- !app_assoc. reflexivity.
  - unfold Session.session_handle_failed, Session.session_handle_failed_with.
    mred. rewrite Hsb. simpl.
    unfold wv_buffer_pool_release. simpl.
    eexists. split; [reflexivity|]. simpl.
    rewrite <- !app_assoc. simpl. repeat split; reflexivity.
Qed.

(** C4 at concrete sessions of both dialects with buffer 0 in flight. *)
Lemma C4_reinit_only_on_invalidating_failure_witness :
  (exists (self' : Frame.ext_screencopy) (w' : world),
     Frame.frame_handle_failed frame_capturing 13%nat
       Frame.FAILURE_REASON_BUFFER_CONSTRAINTS world_capturing
     = Ok (self', w')
     /\ Frame.session self' = Some 15%nat)
  /\ (exists (w' : world),
        Session.session_handle_failed session_capturing
          (Session.FAILURE_REASON_OTHER 0) world_capturing
        = Ok (Session.set_buffer None session_capturing, w')).
Proof.
  destruct (C4_reinit_only_on_invalidating_failure frame_capturing
              session_capturing world_capturing 13%nat 12%nat 2%nat 3%nat
              4%nat 0%nat 0 eq_refl eq_refl eq_refl eq_refl eq_refl eq_refl
              eq_refl eq_refl eq_refl eq_refl eq_refl)
    as ((self' & w' & H1 & _ & H2 & _) & _ & _ & (w'' & H3 & _)).
  split.
  - exists self', w'. split; [exact H1 | exact H2].
  - exists w''. exact H3.
Defined.

(** C5, as stated, fails.  A frame-dialect session is created, [start] is
    deferred, the dimensions arrive and negotiation completes (the deferred
    capture is scheduled), and that capture fails with the invalidating
    reason.  The very next [start] does not defer: it returns with no start
    recorded and has taken a buffer from the pool and captured a frame on
    the reopened session, although no negotiation event of that session has
    been delivered. *)
Lemma C5_counterexample :
  exists (self0 self1 self2 : Frame.ext_screencopy) (w0 w1 w2 : world),
    Frame.ext_screencopy_create 7%nat true world0 = Ok (Some self0, w0)
    /\ Frame.run self0
         [Frame.call_start true;
          Frame.on_session (Frame.ev_buffer_size 1920 1080);
          Frame.on_session Frame.ev_done;
          Frame.on_frame 13%nat
            (Frame.ev_failed Frame.FAILURE_REASON_BUFFER_CONSTRAINTS)] w0
       = Ok (self1, w1)
    /\ Frame.ext_screencopy_start self1 false w1 = Ok ((0, self2), w2)
    /\ Frame.should_start self2 = false
    /\ Frame.buffer self2 = Some 0%nat
    /\ drop (length (trace w1)) (trace w2)
       = [c_pool_acquire (Some 10%nat) 0%nat;
          c_session_create_frame 15%nat (Some 16%nat);
          c_frame_attach_buffer 16%nat 0%nat;
          c_frame_add_listener 16%nat;
          c_frame_capture 16%nat;
          c_log (LogCommitted false (Some 0%nat))].
Proof.
  eexists _, _, _, _, _, _.
  split; [vm_compute; reflexivity|].
  split; [vm_compute; reflexivity|].
  split; [vm_compute; reflexivity|].
  vm_compute. repeat split; reflexivity.
Qed.

(** C5, amended.  After an invalidating capture failure the session has
    been reopened but the format-known flag is still set, so the very next
    [start] does not defer: it records no request, and returns 0 having
    taken a buffer from the pool, created a frame on the new session,
    attached the buffer and captured, with the pool still configured as
    negotiated before the failure. *)
Theorem C5_start_after_invalidating_failure_captures_at_once
    (self : Frame.ext_screencopy) (immediate : bool) (w : world)
    (f s m1 m2 : obj) (b : buf) :
  Frame.have_buffer_info self = true ->
  Frame.frame self = Some f ->
  Frame.buffer self = Some b ->
  Frame.session self = Some s ->
  ext_output_image_source_manager (globals w) = Some m1 ->
  ext_screencopy_manager (globals w) = Some m2 ->
  source_ok (env w) = true ->
  session_ok (env w) = true ->
  frame_ok (env w) = true ->
  exists (self1 self2 : Frame.ext_screencopy) (w1 w2 : world) (b' : buf)
         (calls : list call),
    Frame.frame_handle_failed self f Frame.FAILURE_REASON_BUFFER_CONSTRAINTS w
    = Ok (self1, w1)
    /\ Frame.session self1 = Some (S (next_obj w))
    /\ Frame.have_buffer_info self1 = true
    /\ Frame.ext_screencopy_start self1 immediate w1 = Ok ((0, self2), w2)
    /\ trace w2 = trace w1 ++ calls
    /\ acquisitions calls = [c_pool_acquire (Frame.pool self) b']
    /\ commits calls = [c_frame_capture (S (S (next_obj w)))]
    /\ In (c_session_create_frame (S (next_obj w))
             (Some (S (S (next_obj w))))) calls
    /\ In (c_frame_attach_buffer (S (S (next_obj w))) b') calls
    /\ Frame.should_start self2 = Frame.should_start self
    /\ Frame.buffer self2 = Some b'
    /\ pool_cfg w2 = pool_cfg w.
Proof.
  intros Hinfo Hf Hb Hs Hm1 Hm2 Hsrc Hses Hok.
  unfold Frame.frame_handle_failed, Frame.frame_handle_failed_with. rewrite Hf.
  rewrite bool_decide_true by reflexivity. mred. rewrite Hb. simpl.
  unfold wv_buffer_pool_release. simpl.
  match goal with
  | |- context [Frame.ext_screencopy_init_session ?a ?b] =>
      destruct (frame_init_session_runs a b m1 m2)
        as (w3 & Hinit & Htr3 & He3 & Hg3 & Hc3 & _ & _ & Hn3);
        [simpl; congruence | simpl; congruence |]; rewrite Hinit
  end.
  simpl in Hinit, He3, Hg3, Hc3, Hn3 |- *.
  rewrite Hsrc, Hses in Hinit, Hn3 |- *.
  simpl in Hinit |- *.
  pose (self1 := Frame.set_session (Some (S (next_obj w)))
                   (Frame.set_frame None
                      (Frame.set_buffer None (Frame.set_frame None self)))).
  destruct (frame_schedule_capture_runs self1 immediate
              (set_trace
                 (trace w3
                  ++ [c_on_done SCREENCOPY_FAILED None
                        (userdata (Frame.parent self))]) w3)
              (S (next_obj w)))
    as (b' & w4 & rects & Hrun & Htr4 & He4 & Hg4 & Hc4);
    [reflexivity | reflexivity | simpl; congruence |].
  cbn [next_obj set_trace] in Hrun, Htr4. rewrite Hn3 in Hrun, Htr4.
  exists self1. eexists _, _, w4, b', _.
  split; [reflexivity|].
  do 2 (split; [first [reflexivity | assumption]|]).
  split.
  { unfold Frame.ext_screencopy_start. simpl. rewrite Hinfo. simpl.
    unfold bind. rewrite Hrun. reflexivity. }
  split; [exact Htr4|].
  match goal with
  | |- context [frame_capture_calls ?p ?s0 ?f0 ?b0 ?r ?i] =>
      destruct (frame_capture_calls_read p s0 f0 b0 r i) as (Ha & _ & Hcm)
  end.
  split; [exact Ha|]. split; [exact Hcm|].
  split; [unfold frame_capture_calls; simpl; auto|].
  split; [unfold frame_capture_calls; simpl; auto|].
  split; [reflexivity|]. split; [reflexivity|].
  simpl in Hc4. congruence.
Qed.

(** C5, amended, at a concrete session with frame 13 outstanding. *)
Lemma C5_start_after_invalidating_failure_captures_at_once_witness :
  exists (self1 self2 : Frame.ext_screencopy) (w1 w2 : world),
    Frame.frame_handle_failed frame_capturing 13%nat
      Frame.FAILURE_REASON_BUFFER_CONSTRAINTS world_capturing
    = Ok (self1, w1)
    /\ Frame.ext_screencopy_start self1 false w1 = Ok ((0, self2), w2)
    /\ Frame.should_start self2 = false.
Proof.
  change false with (Frame.should_start frame_capturing) at 2.
  destruct (C5_start_after_invalidating_failure_captures_at_once
              frame_capturing false world_capturing 13%nat 12%nat 3%nat 4%nat
              0%nat eq_refl eq_refl eq_refl eq_refl eq_refl eq_refl eq_refl
              eq_refl eq_refl)
    as (self1 & self2 & w1 & w2 & b' & calls & H1 & _ & _ & H2 & _ & _ & _
        & _ & _ & H3 & _).
  exists self1, self2, w1, w2. auto.
Defined.

(** C7, as stated, fails.  A frame-dialect session is created, [start] is
    deferred, the dimensions arrive and negotiation completes, so that a
    capture is outstanding on buffer 0.  [destroy] then destroys the frame,
    then the session, and releases the buffer to the pool only after both:
    the release of the buffer does not come before the release of the
    protocol objects, it comes after it. *)
Lemma C7_counterexample :
  exists (self0 self1 : Frame.ext_screencopy) (w0 w1 w2 : world),
    Frame.ext_screencopy_create 7%nat true world0 = Ok (Some self0, w0)
    /\ Frame.run self0
         [Frame.call_start true;
          Frame.on_session (Frame.ev_buffer_size 1920 1080);
          Frame.on_session Frame.ev_done] w0
       = Ok (self1, w1)
    /\ Frame.buffer self1 = Some 0%nat
    /\ Frame.ext_screencopy_destroy self1 w1 = Ok (tt, w2)
    /\ drop (length (trace w1)) (trace w2)
       = [c_frame_destroy 13%nat; c_session_destroy 12%nat;
          c_pool_release (Some 10%nat) 0%nat; c_free]
    /\ all_before is_pool_release is_protocol_release
         (drop (length (trace w1)) (trace w2)) = false
    /\ all_before is_protocol_release is_pool_release
         (drop (length (trace w1)) (trace w2)) = true.
Proof.
  eexists _, _, _, _, _.
  split; [vm_compute; reflexivity|].
  split; [vm_compute; reflexivity|].
  split; [vm_compute; reflexivity|].
  split; [vm_compute; reflexivity|].
  vm_compute. repeat split; reflexivity.
Qed.

(** C7, amended.  In both dialects [destroy] with a capture outstanding
    releases the in-flight buffer back to the pool after it has destroyed
    the protocol objects of the session (the frame, then the session, where
    they exist) and before it frees the session object. *)
Theorem C7_destroy_releases_buffer_after_protocol_objects
    (fself : Frame.ext_screencopy) (sself : Session.ext_screencopy)
    (w : world) (b : buf) :
  Frame.buffer fself = Some b ->
  Session.buffer sself = Some b ->
  (exists (w' : world),
     Frame.ext_screencopy_destroy fself w = Ok (tt, w')
     /\ trace w'
        = trace w
          ++ option_list (c_frame_destroy <$> Frame.frame fself)
          ++ option_list (c_session_destroy <$> Frame.session fself)
          ++ [c_pool_release (Frame.pool fself) b; c_free])
  /\ (exists (w' : world),
        Session.ext_screencopy_destroy sself w = Ok (tt, w')
        /\ trace w'
           = trace w
             ++ option_list (c_session_destroy <$> Session.session sself)
             ++ [c_pool_release (Session.pool sself) b; c_free]).
Proof.
  intros Hb Hsb. split.
  - unfold Frame.ext_screencopy_destroy. rewrite Hb.
    destruct (Frame.frame fself), (Frame.session fself); mred;
      unfold wv_buffer_pool_release; simpl;
      (eexists; split; [reflexivity|]; simpl;
       rewrite <- ?app_assoc; reflexivity).
  - unfold Session.ext_screencopy_destroy. rewrite Hsb.
    destruct (Session.session sself); mred;
      unfold wv_buffer_pool_release; simpl;
      (eexists; split; [reflexivity|]; simpl;
       rewrite <- ?app_assoc; reflexivity).
Qed.

(** C7, amended, at concrete sessions of both dialects with buffer 0 in
    flight. *)
Lemma C7_destroy_releases_buffer_after_protocol_objects_witness :
  exists (w' w'' : world),
    Frame.ext_screencopy_destroy frame_capturing world_capturing
    = Ok (tt, w')
    /\ Session.ext_screencopy_destroy session_capturing world_capturing
       = Ok (tt, w'').
Proof.
  destruct (C7_destroy_releases_buffer_after_protocol_objects frame_capturing
              session_capturing world_capturing 0%nat eq_refl eq_refl)
    as ((w' & H1 & _) & (w'' & H2 & _)).
  exists w', w''. auto.
Defined.

(** ** Completion of a capture *)





(** C9.  In both dialects, and through [screencopy_start], the status
    that [start] returns is 0 for either value of the flag, whether the
    call defers or schedules a capture.  [start] fails to return only where
    the process stops: in the session dialect when the format is known and
    the session pointer is null; in the frame dialect when the format is
    known and a frame is outstanding (the assertion), or the session
    pointer is null, or no frame object can be created. *)
Theorem C9_start_returns_zero (immediate : bool) (w : world) :
  (forall self : Session.ext_screencopy,
     match Session.ext_screencopy_start self immediate w with
     | Ok ((status, _), _) => status = 0
     | Fault _ =>
         Session.have_buffer_info self = true
         /\ Session.session self = None
     end)
  /\ (forall self : Frame.ext_screencopy,
        match Frame.ext_screencopy_start self immediate w with
        | Ok ((status, _), _) => status = 0
        | Fault _ =>
            Frame.have_buffer_info self = true
            /\ (Frame.frame self <> None
                \/ Frame.session self = None
                \/ frame_ok (env w) = false)
        end)
  /\ (forall (wlr_t : Type) (wlr_impl : screencopy_impl wlr_t)
             (self : Session.ext_screencopy),
        match screencopy_start Session.ext_screencopy_impl wlr_impl
                (ext_handle self) immediate w with
        | Ok ((status, _), _) => status = 0
        | Fault _ =>
            Session.have_buffer_info self = true
            /\ Session.session self = None
        end)
  /\ (forall (wlr_t : Type) (wlr_impl : screencopy_impl wlr_t)
             (self : Frame.ext_screencopy),
        match screencopy_start Frame.ext_screencopy_impl wlr_impl
                (ext_handle self) immediate w with
        | Ok ((status, _), _) => status = 0
        | Fault _ =>
            Frame.have_buffer_info self = true
            /\ (Frame.frame self <> None
                \/ Frame.session self = None
                \/ frame_ok (env w) = false)
        end).
Proof.
  assert (HS : forall self : Session.ext_screencopy,
             match Session.ext_screencopy_start self immediate w with
             | Ok ((status, _), _) => status = 0
             | Fault _ =>
                 Session.have_buffer_info self = true
                 /\ Session.session self = None
             end).
  { intros self. unfold Session.ext_screencopy_start.
    destruct (Session.have_buffer_info self) eqn:Hinfo; simpl;
      [|reflexivity].
    destruct (Session.session self) as [s|] eqn:Hs.
    - destruct (session_schedule_capture_runs self immediate w s Hs)
        as (b & w1 & rects & Hrun & _).
      unfold bind. rewrite Hrun. reflexivity.
    - unfold Session.ext_screencopy_schedule_capture. mred. rewrite Hs.
      unfold wv_buffer_pool_acquire.
      destruct (pool_queue w); simpl; split; reflexivity. }
  assert (HF : forall self : Frame.ext_screencopy,
             match Frame.ext_screencopy_start self immediate w with
             | Ok ((status, _), _) => status = 0
             | Fault _ =>
                 Frame.have_buffer_info self = true
                 /\ (Frame.frame self <> None
                     \/ Frame.session self = None
                     \/ frame_ok (env w) = false)
             end).
  { intros self. unfold Frame.ext_screencopy_start.
    destruct (Frame.have_buffer_info self) eqn:Hinfo; simpl;
      [|reflexivity].
    destruct (Frame.frame self) as [f|] eqn:Hf.
    { unfold bind. rewrite (frame_schedule_capture_busy _ _ _ f Hf).
      split; [reflexivity|]. left. discriminate. }
    destruct (Frame.session self) as [s|] eqn:Hs.
    - destruct (frame_ok (env w)) eqn:Hok.
      + destruct (frame_schedule_capture_runs self immediate w s Hf Hs Hok)
          as (b & w1 & rects & Hrun & _).
        unfold bind. rewrite Hrun. reflexivity.
      + unfold Frame.ext_screencopy_schedule_capture. rewrite Hf. mred.
        rewrite Hs. unfold wv_buffer_pool_acquire.
        destruct (pool_queue w); simpl; rewrite Hok; simpl; auto.
    - unfold Frame.ext_screencopy_schedule_capture. rewrite Hf. mred.
      rewrite Hs. unfold wv_buffer_pool_acquire.
      destruct (pool_queue w); simpl; auto. }
  split; [exact HS|]. split; [exact HF|]. split.
  - intros wlr_t wlr_impl self. specialize (HS self).
    unfold screencopy_start, bind. simpl.
    destruct (Session.ext_screencopy_start self immediate w)
      as [[[r e'] w']|]; exact HS.
  - intros wlr_t wlr_impl self. specialize (HF self).
    unfold screencopy_start, bind. simpl.
    destruct (Frame.ext_screencopy_start self immediate w)
      as [[[r e'] w']|]; exact HF.
Qed.

(** C10.  Frame dialect.  Any number of [start] calls before the format
    is known leave one deferred request whose flag is that of the latest
    call; the negotiation-complete event then schedules exactly one capture
    (one buffer taken, one frame captured), with that latest flag. *)
Theorem C10_deferred_starts_coalesce_last_flag_wins
    (self : Frame.ext_screencopy) (earlier : list bool) (latest : bool)
    (w : world) (s : obj) :
  Frame.have_buffer_info self = false ->
  Frame.frame self = None ->
  Frame.session self = Some s ->
  frame_ok (env w) = true ->
  exists (self1 self2 : Frame.ext_screencopy) (w2 : world) (b : buf)
         (calls : list call),
    Frame.run self (map Frame.call_start (earlier ++ [latest])) w
    = Ok (self1, w)
    /\ Frame.should_start self1 = true
    /\ Frame.shall_be_immediate self1 = latest
    /\ Frame.session_listener self1 Frame.ev_done w = Ok (self2, w2)
    /\ trace w2 = trace w ++ calls
    /\ acquisitions calls = [c_pool_acquire (Frame.pool self) b]
    /\ commits calls = [c_frame_capture (next_obj w)]
    /\ In (c_log (LogCommitted latest (Some b))) calls
    /\ Frame.should_start self2 = false
    /\ Frame.shall_be_immediate self2 = false.
Proof.
  intros Hinfo Hf Hs Hok.
  destruct (frame_constraints_done_deferred (deferred_with latest self) w s)
    as (b & w2 & rects & Hdone & Htr); try assumption; try reflexivity.
  exists (deferred_with latest self). eexists _, w2, b, _.
  split; [apply frame_starts_coalesce; exact Hinfo|].
  do 2 (split; [reflexivity|]).
  split; [exact Hdone|].
  split; [exact Htr|].
  destruct (frame_capture_calls_read
              (Frame.pool (deferred_with latest self)) s (next_obj w) b rects
              (Frame.shall_be_immediate (deferred_with latest self)))
    as (Ha & Hd & Hc).
  destruct (frame_resize_call_read (deferred_with latest self) (env w))
    as (Ra & Rd & Rc).
  split.
  { unfold acquisitions in *. rewrite !select_app, Ha. cbn [select].
    rewrite Ra. reflexivity. }
  split.
  { unfold commits in *. rewrite !select_app, Hc. cbn [select].
    rewrite Rc. reflexivity. }
  split.
  { apply in_or_app. right. apply in_or_app. left.
    apply frame_capture_calls_logged. }
  split; reflexivity.
Qed.

(** C10 at a concrete session: four starts before negotiation, the last
    with the flag clear. *)
Lemma C10_deferred_starts_coalesce_last_flag_wins_witness :
  exists (self1 self2 : Frame.ext_screencopy) (w2 : world) (b : buf),
    Frame.run frame_created
      (map Frame.call_start [true; false; true; false]) world_created
    = Ok (self1, world_created)
    /\ Frame.session_listener self1 Frame.ev_done world_created
       = Ok (self2, w2)
    /\ In (c_log (LogCommitted false (Some b))) (trace w2).
Proof.
  destruct (C10_deferred_starts_coalesce_last_flag_wins frame_created
              [true; false; true] false world_created 12%nat
              eq_refl eq_refl eq_refl eq_refl)
    as (self1 & self2 & w2 & b & calls & H1 & _ & _ & H2 & H3 & _ & _ & H4
        & _).
  exists self1, self2, w2, b. rewrite H3. auto using in_or_app.
Defined.

(** ** One input of the frame dialect, as a relation *)

Lemma frame_schedule_capture_effect (self self' : Frame.ext_screencopy)
    (immediate : bool) (w w' : world) :
  Frame.ext_screencopy_schedule_capture self immediate w = Ok (self', w') ->
  Frame.frame self = None
  /\ exists (s f : obj) (b : buf) (rects : region),
       Frame.session self = Some s
       /\ self' = Frame.set_frame (Some f) (Frame.set_buffer (Some b) self)
       /\ trace w'
          = trace w
            ++ frame_capture_calls (Frame.pool self) s f b rects immediate
       /\ env w' = env w /\ globals w' = globals w.
Proof.
  intros Hrun.
  destruct (Frame.frame self) as [f|] eqn:Hf.
  { rewrite (frame_schedule_capture_busy _ _ _ f Hf) in Hrun.
    discriminate. }
  split; [reflexivity|].
  destruct (Frame.session self) as [s|] eqn:Hs;
    [destruct (frame_ok (env w)) eqn:Hok|].
  - destruct (frame_schedule_capture_runs self immediate w s Hf Hs Hok)
      as (b & w1 & rects & Hrun' & Htr & He & Hg & _).
    rewrite Hrun' in Hrun. injection Hrun as <- <-.
    exists s, (next_obj w), b, rects. auto.
  - exfalso. revert Hrun.
    unfold Frame.ext_screencopy_schedule_capture. rewrite Hf. mred.
    rewrite Hs. unfold wv_buffer_pool_acquire.
    destruct (pool_queue w); simpl; rewrite Hok; simpl; discriminate.
  - exfalso. revert Hrun.
    unfold Frame.ext_screencopy_schedule_capture. rewrite Hf. mred.
    rewrite Hs. unfold wv_buffer_pool_acquire.
    destruct (pool_queue w); simpl; discriminate.
Qed.

(** Whatever the managers and the compositor's answers, a reopening that
    returns has the shape of [frame_open_calls]. *)
Lemma frame_init_session_effect (self self' : Frame.ext_screencopy) (r : Z)
    (w w' : world) :
  Frame.ext_screencopy_init_session self w = Ok ((r, self'), w') ->
  exists (m1 m2 : obj),
    ext_output_image_source_manager (globals w) = Some m1
    /\ (source_ok (env w) = true ->
        ext_screencopy_manager (globals w) = Some m2)
    /\ r = (if source_ok (env w) && session_ok (env w) then 0 else -1)
    /\ self'
       = Frame.set_session
           (if source_ok (env w) && session_ok (env w)
            then Some (S (next_obj w)) else None)
           (Frame.set_frame None self)
    /\ trace w'
       = trace w
         ++ option_list (c_frame_destroy <$> Frame.frame self)
         ++ option_list (c_session_destroy <$> Frame.session self)
         ++ frame_open_calls (Frame.wl_output self)
              (Frame.render_cursors self) m1 m2 (next_obj w) (env w)
    /\ env w' = env w /\ globals w' = globals w.
Proof.
  intros Hrun.
  destruct (ext_output_image_source_manager (globals w)) as [m1|] eqn:H1.
  - destruct (ext_screencopy_manager (globals w)) as [m2|] eqn:H2.
    + destruct (frame_init_session_runs self w m1 m2 H1 H2)
        as (w1 & Hrun' & Htr & He & Hg & _).
      rewrite Hrun' in Hrun. injection Hrun as <- <- <-.
      exists m1, m2. repeat split; auto.
    + exists m1, 0%nat. revert Hrun.
      unfold Frame.ext_screencopy_init_session, frame_open_calls.
      destruct self as [? ? [s|] [f|] ? ? ? ? ? ? ? ? ? ? ? ? ? ? ?]; simpl;
        mred; rewrite H1; simpl;
        (destruct (source_ok (env w)); simpl;
         [rewrite H2; simpl; discriminate|]);
        intros [= <- <- <-]; simpl; rewrite <- ?app_assoc;
        repeat split; auto; discriminate.
  - exfalso. revert Hrun. unfold Frame.ext_screencopy_init_session.
    destruct self as [? ? [s|] [f|] ? ? ? ? ? ? ? ? ? ? ? ? ? ? ?]; simpl;
      mred; rewrite H1; simpl; discriminate.
Qed.

Lemma frame_constraints_done_effect (self self' : Frame.ext_screencopy)
    (w w' : world) :
  Frame.session_handle_constraints_done self w = Ok (self', w') ->
  exists (calls : list call),
    frame_effect self w (Frame.on_session Frame.ev_done) self' calls
    /\ trace w' = trace w ++ calls
    /\ env w' = env w /\ globals w' = globals w.
Proof.
  intros Hstep.
  destruct (Frame.should_start self) eqn:Hstart.
  - revert Hstep. unfold Frame.session_handle_constraints_done.
    rewrite Hstart. mred.
    destruct (ENABLE_SCREENCOPY_DMABUF (env w)
              && (Frame.have_linux_dmabuf self
                  && enable_linux_dmabuf (Frame.parent self))) eqn:Hc;
      mred; unfold wv_buffer_pool_resize; simpl;
      match goal with
      | |- context [Frame.ext_screencopy_schedule_capture ?a ?i ?b] =>
          destruct (Frame.ext_screencopy_schedule_capture a i b)
            as [[self1 w1]|] eqn:Hrun; [|discriminate]
      end;
      simpl; intros [= <- <-];
      destruct (frame_schedule_capture_effect _ _ _ _ _ Hrun)
        as (Hf & s & f & b & rects & Hs & -> & Htr & He & Hg);
      simpl in Htr, He, Hg;
      (eexists; split;
       [apply (fe_done_capture self w s f b rects Hstart Hf Hs)|];
       unfold frame_resize_call; rewrite Hc;
       cbn [trace set_trace env globals];
       rewrite Htr, <- !app_assoc; auto).
  - destruct (frame_constraints_done_idle self w Hstart)
      as (w1 & Hrun & Htr).
    rewrite Hrun in Hstep. injection Hstep as <- <-.
    eexists. split; [apply fe_done_idle; exact Hstart|].
    split; [exact Htr|].
    revert Hrun. unfold Frame.session_handle_constraints_done.
    rewrite Hstart. mred.
    destruct (ENABLE_SCREENCOPY_DMABUF (env w)
              && (Frame.have_linux_dmabuf self
                  && enable_linux_dmabuf (Frame.parent self)));
      mred; unfold wv_buffer_pool_resize; simpl;
      intros [= <-]; auto.
Qed.

(** Every input that returns does what one constructor of [frame_effect]
    says, and leaves the environment and the manager globals alone. *)
Lemma frame_step_effect (self self' : Frame.ext_screencopy) (i : Frame.input)
    (w w' : world) :
  Frame.step self i w = Ok (self', w') ->
  exists (calls : list call),
    frame_effect self w i self' calls
    /\ trace w' = trace w ++ calls
    /\ env w' = env w /\ globals w' = globals w.
Proof.
  intros Hstep. destruct i as [immediate| |ev|f ev]; simpl in Hstep.
  - (* start *)
    unfold Frame.ext_screencopy_start in Hstep.
    destruct (Frame.have_buffer_info self) eqn:Hinfo; simpl in Hstep.
    + unfold bind in Hstep.
      destruct (Frame.ext_screencopy_schedule_capture self immediate w)
        as [[self1 w1]|] eqn:Hrun; [|discriminate].
      simpl in Hstep. injection Hstep as <- <-.
      destruct (frame_schedule_capture_effect _ _ _ _ _ Hrun)
        as (Hf & s & f & b & rects & Hs & -> & Htr & He & Hg).
      eexists. split; [apply (fe_start_capture _ _ _ s f b rects); auto|].
      auto.
    + injection Hstep as <- <-. exists []. rewrite app_nil_r.
      split; [apply fe_start_deferred; exact Hinfo | auto].
  - (* stop *)
    injection Hstep as <- <-. exists []. rewrite app_nil_r.
    split; [constructor | auto].
  - (* session events *)
    destruct ev as [format|format| |width height| |]; simpl in Hstep.
    + injection Hstep as <- <-. exists []. rewrite app_nil_r.
      split; [constructor | auto].
    + revert Hstep. unfold Frame.session_handle_format_drm, bind, get_env.
      intros Hstep. exists []. rewrite app_nil_r.
      assert (self' = (if ENABLE_SCREENCOPY_DMABUF (env w)
                       then Frame.set_dmabuf_format format
                              (Frame.set_have_linux_dmabuf true self)
                       else self) /\ w' = w) as [-> ->]
        by (destruct (ENABLE_SCREENCOPY_DMABUF (env w));
            injection Hstep as <- <-; split; reflexivity).
      split; [constructor | auto].
    + injection Hstep as <- <-. exists []. rewrite app_nil_r.
      split; [constructor | auto].
    + injection Hstep as <- <-. exists []. rewrite app_nil_r.
      split; [constructor | auto].
    + apply frame_constraints_done_effect. exact Hstep.
    + injection Hstep as <- <-. exists []. rewrite app_nil_r.
      split; [constructor | auto].
  - (* frame events *)
    destruct ev as [x y width height|sec_hi sec_lo nsec|t| |reason];
      simpl in Hstep.
    + injection Hstep as <- <-. eexists.
      split; [constructor | auto].
    + injection Hstep as <- <-. exists []. rewrite app_nil_r.
      split; [constructor | auto].
    + revert Hstep. unfold Frame.frame_handle_transform.
      destruct (Frame.buffer self) as [b|] eqn:Hb; [|discriminate].
      mred. intros [= <- <-]. eexists.
      split; [apply (fe_transform self w f t b Hb) | auto].
    + revert Hstep. unfold Frame.frame_handle_ready,
      Frame.frame_handle_ready_with.
      destruct (Frame.frame self) as [f0|] eqn:Hf; [|discriminate].
      destruct (bool_decide (Some f = Some f0)) eqn:Hd; [|discriminate].
      apply bool_decide_eq_true in Hd. injection Hd as ->.
      mred.
      destruct (Frame.buffer self) as [b|] eqn:Hb; [|discriminate].
      simpl. intros [= <- <-]. eexists.
      split; [eapply fe_ready; [exact Hf | exact Hb]|].
      cbn [trace set_trace set_bufs env globals].
      rewrite <- !app_assoc. simpl.
      split; [reflexivity | split; reflexivity].
    + revert Hstep. unfold Frame.frame_handle_failed,
      Frame.frame_handle_failed_with.
      destruct (Frame.frame self) as [f0|] eqn:Hf; [|discriminate].
      destruct (bool_decide (Some f = Some f0)) eqn:Hd; [|discriminate].
      apply bool_decide_eq_true in Hd. injection Hd as ->.
      mred.
      destruct (Frame.buffer self) as [b|] eqn:Hb; [|discriminate].
      simpl. unfold wv_buffer_pool_release. simpl.
      destruct reason as [|code].
      * match goal with
        | |- context [Frame.ext_screencopy_init_session ?a ?b] =>
            destruct (Frame.ext_screencopy_init_session a b)
              as [[[r self1] w1]|] eqn:Hinit; [|discriminate]
        end.
        simpl. intros [= <- <-].
        destruct (frame_init_session_effect _ _ _ _ _ Hinit)
          as (m1 & m2 & H1 & H2 & _ & -> & Htr & He & Hg).
        simpl in H1, H2, Htr, He, Hg.
        eexists. split.
        { replace (Frame.set_session _ _) with
            (Frame.set_session
               (if source_ok (env w) && session_ok (env w)
                then Some (S (next_obj w)) else None)
               (Frame.set_buffer None (Frame.set_frame None self)))
            by (destruct self; reflexivity).
          apply (fe_failed_reopen self w f0 b m1 m2 Hf Hb H1 H2). }
        cbn [trace set_trace env globals Frame.parent Frame.set_session
             Frame.set_buffer Frame.set_frame].
        rewrite Htr, <- !app_assoc. auto.
      * simpl. intros [= <- <-]. eexists.
        split; [apply (fe_failed self w f0 b code Hf Hb)|].
        cbn [trace set_trace env globals].
        rewrite <- !app_assoc. auto.
Qed.

(** An invariant that every effect keeps holds along every run. *)
Lemma frame_run_invariant (I : Frame.ext_screencopy -> world -> Prop) :
  (forall self w i self' w' calls,
      I self w ->
      frame_effect self w i self' calls ->
      trace w' = trace w ++ calls ->
      env w' = env w -> globals w' = globals w ->
      I self' w') ->
  forall (l : list Frame.input) (self self' : Frame.ext_screencopy)
         (w w' : world),
    I self w -> Frame.run self l w = Ok (self', w') -> I self' w'.
Proof.
  intros Hkeep l. induction l as [|i l IH]; intros self self' w w' HI Hrun.
  - injection Hrun as <- <-. exact HI.
  - simpl in Hrun. unfold bind in Hrun.
    destruct (Frame.step self i w) as [[self1 w1]|] eqn:Hstep;
      [|discriminate].
    destruct (frame_step_effect _ _ _ _ _ Hstep)
      as (calls & Heff & Htr & He & Hg).
    exact (IH _ _ _ _ (Hkeep _ _ _ _ _ _ HI Heff Htr He Hg) Hrun).
Qed.

Lemma frame_fixed_refl (a : Frame.ext_screencopy) : frame_fixed a a.
Proof. repeat split. Qed.

Lemma frame_fixed_trans (a b c : Frame.ext_screencopy) :
  frame_fixed a b -> frame_fixed b c -> frame_fixed a c.
Proof.
  unfold frame_fixed. intros H1 H2.
  decompose [and] H1. decompose [and] H2. repeat split; congruence.
Qed.

Lemma frame_may_call_fixed (a b : Frame.ext_screencopy) (e : environment)
    (c : call) :
  frame_fixed a b -> frame_may_call b e c -> frame_may_call a e c.
Proof.
  unfold frame_fixed, frame_may_call, Frame.capture_domain.
  intros (Hp & Ho & Hc & Hr & Hpool & Hcc).
  destruct c; rewrite ?Hp, ?Ho, ?Hr, ?Hpool, ?Hcc; auto.
Qed.

Lemma frame_capture_calls_may (self : Frame.ext_screencopy) (e : environment)
    (s f : obj) (b : buf) (rects : region) (immediate : bool) :
  Forall (frame_may_call self e)
    (frame_capture_calls (Frame.pool self) s f b rects immediate).
Proof.
  unfold frame_capture_calls.
  repeat first [apply Forall_cons; split; [simpl; auto|] | apply Forall_app; split].
  - apply Forall_map, Forall_forall. intros r _.
    unfold frame_hint, damage_hint. exact I.
  - repeat constructor.
Qed.

Lemma frame_open_calls_may (self : Frame.ext_screencopy) (e : environment)
    (m1 m2 n : obj) :
  Forall (frame_may_call self e)
    (frame_open_calls (Frame.wl_output self) (Frame.render_cursors self)
       m1 m2 n e).
Proof.
  unfold frame_open_calls.
  destruct (source_ok e), (session_ok e); repeat constructor.
Qed.

Lemma frame_resize_call_may (self : Frame.ext_screencopy) (e : environment) :
  frame_may_call self e (frame_resize_call self e).
Proof.
  unfold frame_resize_call.
  destruct (ENABLE_SCREENCOPY_DMABUF e) eqn:He; simpl;
    [destruct (Frame.have_linux_dmabuf self); simpl;
     [destruct (enable_linux_dmabuf (Frame.parent self)) eqn:Hp; simpl|]|];
    repeat split; auto; discriminate.
Qed.

(** One input makes only calls of the footprint and writes none of the
    fields set at creation. *)
Lemma frame_effect_footprint (self self' : Frame.ext_screencopy) (w : world)
    (i : Frame.input) (calls : list call) :
  frame_effect self w i self' calls ->
  Forall (frame_may_call self (env w)) calls /\ frame_fixed self self'.
Proof.
  intros Heff. destruct Heff;
    try (split; [repeat constructor | repeat split]; fail).
  - split; [apply frame_capture_calls_may | repeat split].
  - split; [constructor|].
    destruct (ENABLE_SCREENCOPY_DMABUF (env w)); repeat split.
  - split; [|repeat split].
    repeat constructor; apply frame_resize_call_may.
  - split; [|repeat split].
    apply Forall_app. split; [repeat constructor; apply frame_resize_call_may|].
    apply Forall_app. split; [apply frame_capture_calls_may|].
    repeat constructor.
  - split; [|repeat split].
    apply Forall_app. split; [repeat constructor|].
    apply Forall_app. split.
    { destruct (Frame.session self); repeat constructor. }
    apply Forall_app. split; [apply frame_open_calls_may|].
    repeat constructor.
Qed.

(** ** The protocol objects of the frame dialect *)

Lemma frame_capture_calls_objects (pool : option obj) (s f : obj) (b : buf)
    (rects : region) (immediate : bool) :
  let calls := frame_capture_calls pool s f b rects immediate in
  select is_frame_created calls = [c_session_create_frame s (Some f)]
  /\ select is_frame_destroyed calls = []
  /\ select is_session_created calls = []
  /\ select is_session_destroyed calls = []
  /\ select is_source_created calls = []
  /\ select is_source_destroyed calls = []
  /\ select is_lifecycle calls = [].
Proof.
  unfold frame_capture_calls. simpl.
  rewrite !select_app. hints_off. simpl. repeat split; reflexivity.
Qed.

Lemma frame_resize_call_objects (self : Frame.ext_screencopy)
    (e : environment) :
  is_frame_created (frame_resize_call self e) = false
  /\ is_frame_destroyed (frame_resize_call self e) = false
  /\ is_session_created (frame_resize_call self e) = false
  /\ is_session_destroyed (frame_resize_call self e) = false
  /\ is_source_created (frame_resize_call self e) = false
  /\ is_source_destroyed (frame_resize_call self e) = false
  /\ is_lifecycle (frame_resize_call self e) = false.
Proof.
  unfold frame_resize_call.
  destruct (ENABLE_SCREENCOPY_DMABUF e
            && (Frame.have_linux_dmabuf self
                && enable_linux_dmabuf (Frame.parent self)));
    repeat split; reflexivity.
Qed.

Lemma frame_open_calls_objects (o : output) (render_cursors : bool)
    (m1 m2 n : obj) (e : environment) :
  let calls := frame_open_calls o render_cursors m1 m2 n e in
  select is_frame_created calls = []
  /\ select is_frame_destroyed calls = []
  /\ length (select is_session_created calls)
     = held (if source_ok e && session_ok e then Some (S n) else None)
  /\ select is_session_destroyed calls = []
  /\ length (select is_source_created calls)
     = length (select is_source_destroyed calls)
  /\ select is_lifecycle calls = [].
Proof.
  unfold frame_open_calls.
  destruct (source_ok e), (session_ok e); repeat split; reflexivity.
Qed.

(** One input keeps the account of the protocol objects. *)
Lemma frame_effect_objects (self self' : Frame.ext_screencopy) (w : world)
    (i : Frame.input) (calls : list call) (t : list call) :
  frame_effect self w i self' calls ->
  frame_objects_balanced self t ->
  frame_objects_balanced self' (t ++ calls).
Proof.
  unfold frame_objects_balanced.
  intros Heff (Hf & Hs & Hsrc).
  destruct Heff;
    rewrite ?app_nil_r; rewrite ?select_app, ?length_app;
    try (repeat split; assumption).
  - destruct (frame_capture_calls_objects (Frame.pool self) s f b rects
                immediate) as (C1 & C2 & C3 & C4 & C5 & C6 & _).
    cbv zeta in *. rewrite C1, C2, C3, C4, C5, C6. simpl.
    rewrite H0 in Hf. simpl in Hf. repeat split; lia.
  - destruct (ENABLE_SCREENCOPY_DMABUF (env w)); repeat split; assumption.
  - destruct (frame_resize_call_objects self (env w))
      as (C1 & C2 & C3 & C4 & C5 & C6 & _).
    cbn [select]. rewrite C1, C2, C3, C4, C5, C6. simpl.
    repeat split; lia.
  - destruct (frame_capture_calls_objects (Frame.pool self) s f b rects
                (Frame.shall_be_immediate self))
      as (C1 & C2 & C3 & C4 & C5 & C6 & _).
    destruct (frame_resize_call_objects self (env w))
      as (R1 & R2 & R3 & R4 & R5 & R6 & _).
    cbv zeta in *. rewrite ?select_app, ?length_app.
    rewrite C1, C2, C3, C4, C5, C6. cbn [select].
    rewrite R1, R2, R3, R4, R5, R6. simpl.
    rewrite H0 in Hf. simpl in Hf. repeat split; lia.
  - simpl. repeat split; lia.
  - simpl. repeat split; lia.
  - simpl. rewrite H in Hf. simpl in Hf. repeat split; lia.
  - simpl. rewrite H in Hf. simpl in Hf. repeat split; lia.
  - destruct (frame_open_calls_objects (Frame.wl_output self)
                (Frame.render_cursors self) m1 m2 (next_obj w) (env w))
      as (C1 & C2 & C3 & C4 & C5 & _).
    cbv zeta in *. rewrite ?select_app, ?length_app.
    rewrite C1, C2, C3, C4, C5. rewrite H in Hf.
    destruct (Frame.session self) as [s|];
      destruct (source_ok (env w) && session_ok (env w));
      simpl in *; repeat split; lia.
Qed.

(** ** Creation and destruction in the frame dialect *)

(** Opening a session stops the process only on a manager that is not
    there. *)
Lemma frame_init_session_fault (self : Frame.ext_screencopy) (w : world)
    (f : fault) :
  Frame.ext_screencopy_init_session self w = Fault f ->
  f = null_dereference
  /\ (ext_output_image_source_manager (globals w) = None
      \/ (source_ok (env w) = true
          /\ ext_screencopy_manager (globals w) = None)).
Proof.
  destruct (ext_output_image_source_manager (globals w)) as [m1|] eqn:H1.
  - destruct (ext_screencopy_manager (globals w)) as [m2|] eqn:H2.
    + destruct (frame_init_session_runs self w m1 m2 H1 H2)
        as (w1 & Hrun' & _).
      rewrite Hrun'. discriminate.
    + unfold Frame.ext_screencopy_init_session.
      destruct self as [? ? [s|] [f0|] ? ? ? ? ? ? ? ? ? ? ? ? ? ? ?]; simpl;
        mred; rewrite H1; simpl;
        (destruct (source_ok (env w)); simpl;
         [rewrite H2; simpl; intros [= <-]; auto | discriminate]).
  - unfold Frame.ext_screencopy_init_session.
    destruct self as [? ? [s|] [f0|] ? ? ? ? ? ? ? ? ? ? ? ? ? ? ?]; simpl;
      mred; rewrite H1; simpl; intros [= <-]; auto.
Qed.

Lemma frame_open_calls_leave_nothing (o : output) (render_cursors : bool)
    (m1 m2 n : obj) (e : environment) :
  source_ok e && session_ok e = false ->
  let calls := frame_open_calls o render_cursors m1 m2 n e in
  select is_pool_created calls = []
  /\ select is_pool_destroyed calls = []
  /\ length (select is_source_created calls)
     = length (select is_source_destroyed calls)
  /\ select is_session_created calls = []
  /\ select is_frame_created calls = [].
Proof.
  unfold frame_open_calls.
  destruct (source_ok e), (session_ok e); try discriminate;
    repeat split; reflexivity.
Qed.

Lemma frame_create_some (o : output) (render_cursor : bool)
    (self0 : Frame.ext_screencopy) (w w' : world) :
  Frame.ext_screencopy_create o render_cursor w = Ok (Some self0, w') ->
  exists (m1 m2 : obj),
    frame_grants (env w) = true
    /\ ext_output_image_source_manager (globals w) = Some m1
    /\ ext_screencopy_manager (globals w) = Some m2
    /\ self0
       = Frame.set_session (Some (S (S (next_obj w))))
           (Frame.new_self o render_cursor false (Some (next_obj w)))
    /\ trace w'
       = trace w
         ++ c_pool_create (Some (next_obj w))
            :: frame_open_calls o render_cursor m1 m2 (S (next_obj w))
                 (env w)
    /\ env w' = env w /\ globals w' = globals w.
Proof.
  unfold Frame.ext_screencopy_create, frame_grants. mred.
  destruct (calloc_ok (env w)); simpl; [|discriminate].
  unfold wv_buffer_pool_create. mred.
  destruct (pool_create_ok (env w)); simpl; [|discriminate].
  match goal with
  | |- context [Frame.ext_screencopy_init_session ?a ?b] =>
      destruct (Frame.ext_screencopy_init_session a b)
        as [[[r self1] w1]|] eqn:Hinit; [|discriminate]
  end.
  destruct (frame_init_session_effect _ _ _ _ _ Hinit)
    as (m1 & m2 & H1 & H2 & -> & -> & Htr & He & Hg).
  simpl in H1, H2, Htr, He, Hg. simpl.
  destruct (source_ok (env w)) eqn:Hsrc; simpl; [|discriminate].
  destruct (session_ok (env w)) eqn:Hses; simpl; [|discriminate].
  intros [= <- <-]. exists m1, m2.
  split; [reflexivity|]. split; [exact H1|]. split; [auto|].
  split; [reflexivity|].
  split; [rewrite Htr, <- !app_assoc; reflexivity|]. auto.
Qed.

Lemma frame_create_none (o : output) (render_cursor : bool) (w w' : world) :
  Frame.ext_screencopy_create o render_cursor w = Ok (None, w') ->
  frame_grants (env w) = false
  /\ exists (calls : list call),
       trace w' = trace w ++ calls
       /\ leaves_nothing calls
       /\ (if calloc_ok (env w) then last calls = Some c_free
           else calls = []).
Proof.
  unfold Frame.ext_screencopy_create, frame_grants. mred.
  destruct (calloc_ok (env w)); simpl.
  2: { intros [= <-]. split; [reflexivity|]. exists [].
       rewrite app_nil_r. repeat split; reflexivity. }
  unfold wv_buffer_pool_create. mred.
  destruct (pool_create_ok (env w)); simpl.
  2: { intros [= <-]. split; [reflexivity|].
       exists [c_pool_create None; c_free]. simpl.
       rewrite <- !app_assoc. repeat split; reflexivity. }
  match goal with
  | |- context [Frame.ext_screencopy_init_session ?a ?b] =>
      destruct (Frame.ext_screencopy_init_session a b)
        as [[[r self1] w1]|] eqn:Hinit; [|discriminate]
  end.
  destruct (frame_init_session_effect _ _ _ _ _ Hinit)
    as (m1 & m2 & H1 & H2 & -> & -> & Htr & He & Hg).
  simpl in H1, H2, Htr, He, Hg. simpl.
  destruct (source_ok (env w) && session_ok (env w)) eqn:Hgr; simpl;
    [discriminate|].
  intros [= <-]. split; [reflexivity|].
  exists ([c_pool_create (Some (next_obj w))]
          ++ frame_open_calls o render_cursor m1 m2 (S (next_obj w)) (env w)
          ++ [c_pool_destroy (Some (next_obj w)); c_free]).
  split; [cbn [trace set_trace]; rewrite Htr, <- !app_assoc; reflexivity|].
  destruct (frame_open_calls_leave_nothing o render_cursor m1 m2
              (S (next_obj w)) (env w) Hgr) as (C1 & C2 & C3 & C4 & C5).
  cbv zeta in *.
  split.
  - unfold leaves_nothing. rewrite !select_app, !length_app.
    rewrite C1, C2, C3, C4, C5. repeat split; reflexivity.
  - change [c_pool_destroy (Some (next_obj w)); c_free]
      with ([c_pool_destroy (Some (next_obj w))] ++ [c_free]).
    rewrite !app_assoc. apply last_snoc.
Qed.

Lemma frame_create_fault (o : output) (render_cursor : bool) (w : world)
    (f : fault) :
  Frame.ext_screencopy_create o render_cursor w = Fault f ->
  f = null_dereference
  /\ calloc_ok (env w) = true /\ pool_create_ok (env w) = true
  /\ (ext_output_image_source_manager (globals w) = None
      \/ (source_ok (env w) = true
          /\ ext_screencopy_manager (globals w) = None)).
Proof.
  unfold Frame.ext_screencopy_create. mred.
  destruct (calloc_ok (env w)); simpl; [|discriminate].
  unfold wv_buffer_pool_create. mred.
  destruct (pool_create_ok (env w)); simpl; [|discriminate].
  match goal with
  | |- context [Frame.ext_screencopy_init_session ?a ?b] =>
      destruct (Frame.ext_screencopy_init_session a b)
        as [[[r self1] w1]|f0] eqn:Hinit
  end.
  - simpl. destruct (r <? 0); simpl; discriminate.
  - intros [= <-].
    destruct (frame_init_session_fault _ _ _ Hinit) as (-> & Hm).
    simpl in Hm. auto.
Qed.

(** [create_cursor] is [create] without cursor painting, but for the
    cursor flag of the object: opening the session does not read the
    flag. *)
Lemma frame_init_session_as_cursor (self : Frame.ext_screencopy) (w : world) :
  Frame.ext_screencopy_init_session (as_cursor_capture self) w
  = match Frame.ext_screencopy_init_session self w with
    | Ok ((r, self'), w') => Ok ((r, as_cursor_capture self'), w')
    | Fault f => Fault f
    end.
Proof.
  unfold Frame.ext_screencopy_init_session.
  destruct self as [? ? [s|] [f|] ? ? ? ? ? ? ? ? ? ? ? ? ? ? ?]; simpl;
    mred;
    (destruct (ext_output_image_source_manager (globals w)); simpl;
     [|reflexivity];
     destruct (source_ok (env w)); simpl; [|reflexivity];
     destruct (ext_screencopy_manager (globals w)); simpl; [|reflexivity];
     destruct (session_ok (env w)); simpl; reflexivity).
Qed.

(** [destroy] always returns; it destroys the frame and the session the
    object points to, releases the buffer in the slot, and frees the
    object. *)
Lemma frame_destroy_effect (self : Frame.ext_screencopy) (w : world) :
  exists (w' : world),
    Frame.ext_screencopy_destroy self w = Ok (tt, w')
    /\ trace w'
       = trace w
         ++ option_list (c_frame_destroy <$> Frame.frame self)
         ++ option_list (c_session_destroy <$> Frame.session self)
         ++ option_list (c_pool_release (Frame.pool self)
                           <$> Frame.buffer self)
         ++ [c_free].
Proof.
  unfold Frame.ext_screencopy_destroy.
  destruct (Frame.frame self), (Frame.session self), (Frame.buffer self);
    mred; unfold wv_buffer_pool_release; simpl;
    (eexists; split; [reflexivity|]; simpl; rewrite <- ?app_assoc;
     reflexivity).
Qed.

Lemma frame_may_call_not_lifecycle (self : Frame.ext_screencopy)
    (e : environment) (calls : list call) :
  Forall (frame_may_call self e) calls -> select is_lifecycle calls = [].
Proof.
  intros H. apply select_none. eapply Forall_impl; [exact H|].
  intros c Hc. destruct c; simpl in *; try reflexivity; contradiction.
Qed.

Lemma frame_open_calls_granted_objects (o : output) (render_cursors : bool)
    (m1 m2 n : obj) (e : environment) :
  frame_grants e = true ->
  frame_objects_balanced
    (Frame.set_session (Some (S n))
       (Frame.new_self o render_cursors false (Some 0%nat)))
    (frame_open_calls o render_cursors m1 m2 n e)
  /\ select is_lifecycle (frame_open_calls o render_cursors m1 m2 n e) = [].
Proof.
  unfold frame_grants, frame_open_calls, frame_objects_balanced.
  destruct (calloc_ok e), (pool_create_ok e), (source_ok e), (session_ok e);
    try discriminate.
  intros _. repeat split; reflexivity.
Qed.

(** Along a run from creation: the account of the protocol objects holds,
    and the only pool call of the life cycle is the creation. *)
Lemma frame_run_objects (o : output) (render_cursor : bool)
    (l : list Frame.input) (self0 self : Frame.ext_screencopy)
    (w0 w1 w2 : world) :
  Frame.ext_screencopy_create o render_cursor w0 = Ok (Some self0, w1) ->
  Frame.run self0 l w1 = Ok (self, w2) ->
  exists (calls : list call),
    trace w2 = trace w0 ++ calls
    /\ frame_objects_balanced self calls
    /\ select is_lifecycle calls = [c_pool_create (Frame.pool self0)]
    /\ Frame.pool self0 <> None
    /\ frame_fixed self0 self.
Proof.
  intros Hcreate Hrun.
  destruct (frame_create_some _ _ _ _ _ Hcreate)
    as (m1 & m2 & Hgr & _ & _ & Hself & Htr & _).
  pose (I := fun (self : Frame.ext_screencopy) (w : world) =>
          exists calls,
            trace w = trace w0 ++ calls
            /\ frame_objects_balanced self calls
            /\ select is_lifecycle calls = [c_pool_create (Frame.pool self0)]
            /\ frame_fixed self0 self).
  assert (HI : I self w2).
  { apply (frame_run_invariant I) with (l := l) (self := self0) (w := w1);
      [| |exact Hrun].
    - clear. intros self w i self' w' calls (t & Ht & Hobj & Hlife & Hfix)
        Heff Htr _ _.
      destruct (frame_effect_footprint _ _ _ _ _ Heff) as (Hmay & Hfix').
      exists (t ++ calls). split; [rewrite Htr, Ht, app_assoc; reflexivity|].
      split; [exact (frame_effect_objects _ _ _ _ _ t Heff Hobj)|].
      split; [|exact (frame_fixed_trans _ _ _ Hfix Hfix')].
      rewrite select_app, Hlife,
        (frame_may_call_not_lifecycle _ _ _ Hmay).
      apply app_nil_r.
    - eexists. split; [exact Htr|].
      destruct (frame_open_calls_granted_objects o render_cursor m1 m2
                  (S (next_obj w0)) (env w0) Hgr) as (Hobj & Hlife).
      rewrite Hself. split; [|split; [|apply frame_fixed_refl]].
      + unfold frame_objects_balanced in *. cbn [select].
        change (is_frame_created (c_pool_create (Some (next_obj w0))))
          with false.
        exact Hobj.
      + cbn [select is_lifecycle]. rewrite Hlife. reflexivity. }
  destruct HI as (calls & Ht & Hobj & Hlife & Hfix).
  exists calls. split; [exact Ht|]. split; [exact Hobj|].
  split; [exact Hlife|].
  split; [rewrite Hself; discriminate | exact Hfix].
Qed.

(** ** Further properties of the frame dialect *)

(** X4.  What [ext_screencopy_create] of the frame dialect returns, in any
    world.  It returns a session exactly when the allocation of the object,
    the pool, the image source and the session are all granted; the session
    then holds the new pool and the new session, no frame and no buffer, the
    format is not known and no start is waiting, and the calls made are the
    creation of the pool and the opening of the session.  When something is
    refused it returns no session and leaves nothing behind: every pool and
    image source it created it has destroyed, and the last call frees the
    object (no call at all when the object itself could not be allocated).
    The process stops only on a manager global that is null: the image source
    manager, or the capture manager once a source was granted. *)
Theorem frame_create_outcome (o : output) (render_cursor : bool) (w : world) :
  match Frame.ext_screencopy_create o render_cursor w with
  | Ok (Some self, w') =>
      frame_grants (env w) = true
      /\ self
         = Frame.set_session (Some (S (S (next_obj w))))
             (Frame.new_self o render_cursor false (Some (next_obj w)))
      /\ exists (m1 m2 : obj),
           trace w'
           = trace w
             ++ c_pool_create (Some (next_obj w))
                :: frame_open_calls o render_cursor m1 m2 (S (next_obj w))
                     (env w)
  | Ok (None, w') =>
      frame_grants (env w) = false
      /\ exists (calls : list call),
           trace w' = trace w ++ calls
           /\ leaves_nothing calls
           /\ (if calloc_ok (env w) then last calls = Some c_free
               else calls = [])
  | Fault f =>
      f = null_dereference
      /\ calloc_ok (env w) = true /\ pool_create_ok (env w) = true
      /\ (ext_output_image_source_manager (globals w) = None
          \/ (source_ok (env w) = true
              /\ ext_screencopy_manager (globals w) = None))
  end.
Proof.
  destruct (Frame.ext_screencopy_create o render_cursor w)
    as [[[self|] w']|f] eqn:Hcreate.
  - destruct (frame_create_some _ _ _ _ _ Hcreate)
      as (m1 & m2 & Hgr & _ & _ & Hself & Htr & _).
    split; [exact Hgr|]. split; [exact Hself|]. exists m1, m2. exact Htr.
  - exact (frame_create_none _ _ _ _ Hcreate).
  - exact (frame_create_fault _ _ _ _ Hcreate).
Qed.

(** X5.  In the frame dialect [create_cursor(output)] is [create(output,
    false)] but for the cursor flag of the object it returns: it makes the
    same calls, is granted and refused alike, and opens the same kind of
    session on the output; opening the session does not read the flag, and no
    cursor session is created. *)
Theorem frame_create_cursor_is_create (o : output) (w : world) :
  Frame.ext_screencopy_create_cursor o w
  = match Frame.ext_screencopy_create o false w with
    | Ok (r, w') => Ok (as_cursor_capture <$> r, w')
    | Fault f => Fault f
    end.
Proof.
  unfold Frame.ext_screencopy_create_cursor, Frame.ext_screencopy_create.
  mred.
  destruct (calloc_ok (env w)); simpl; [|reflexivity].
  unfold wv_buffer_pool_create. mred.
  destruct (pool_create_ok (env w)); simpl; [|reflexivity].
  change (Frame.new_self o false true (Some (next_obj w)))
    with (as_cursor_capture (Frame.new_self o false false (Some (next_obj w)))).
  rewrite frame_init_session_as_cursor.
  match goal with
  | |- context [Frame.ext_screencopy_init_session ?a ?b] =>
      destruct (Frame.ext_screencopy_init_session a b)
        as [[[r self1] w1]|f0]
  end; simpl; [|reflexivity].
  destruct (r <? 0); reflexivity.
Qed.

(** X6.  The footprint of a session of the frame dialect between its creation
    and its destruction.  Over any run of calls of the owner and of events
    that the process survives, from any session: every call made is one
    [frame_may_call] allows.  The pool is neither created nor destroyed and
    nothing is freed; no cursor session is opened and no cursor callback is
    made; acquire, release and resize are on the pool of the session; the pool
    is resized for DMABUF only when the build option and the parent's flag
    both allow it; the completion callback always gets the parent's userdata.
    The fields set at creation are never written. *)
Theorem frame_run_stays_in_footprint (l : list Frame.input)
    (self0 self : Frame.ext_screencopy) (w0 w : world) :
  Frame.run self0 l w0 = Ok (self, w) ->
  exists (calls : list call),
    trace w = trace w0 ++ calls
    /\ Forall (frame_may_call self0 (env w0)) calls
    /\ select is_lifecycle calls = []
    /\ frame_fixed self0 self
    /\ env w = env w0 /\ globals w = globals w0.
Proof.
  intros Hrun.
  pose (I := fun (self : Frame.ext_screencopy) (w : world) =>
          exists calls,
            trace w = trace w0 ++ calls
            /\ Forall (frame_may_call self0 (env w0)) calls
            /\ frame_fixed self0 self
            /\ env w = env w0 /\ globals w = globals w0).
  assert (HI : I self w).
  { apply (frame_run_invariant I) with (l := l) (self := self0) (w := w0);
      [| |exact Hrun].
    - clear. intros self w i self' w' calls (t & Ht & Hmay & Hfix & He & Hg)
        Heff Htr He' Hg'.
      destruct (frame_effect_footprint _ _ _ _ _ Heff) as (Hmay' & Hfix').
      exists (t ++ calls). split; [rewrite Htr, Ht, app_assoc; reflexivity|].
      split; [|split; [exact (frame_fixed_trans _ _ _ Hfix Hfix')|]].
      + apply Forall_app. split; [exact Hmay|].
        rewrite He in Hmay'. eapply Forall_impl; [exact Hmay'|].
        intros c. apply frame_may_call_fixed. exact Hfix.
      + split; congruence.
    - exists []. rewrite app_nil_r. repeat split. constructor. }
  destruct HI as (calls & Ht & Hmay & Hfix & He & Hg).
  exists calls. split; [exact Ht|]. split; [exact Hmay|].
  split; [exact (frame_may_call_not_lifecycle _ _ _ Hmay)|].
  split; [exact Hfix|]. split; assumption.
Qed.

(** The footprint theorem on the run [frame_session_run] of the session
    that [create] leaves. *)
Lemma frame_run_stays_in_footprint_witness :
  match Frame.run frame_created frame_session_run world_created with
  | Ok (self, w) =>
      exists (calls : list call),
        trace w = trace world_created ++ calls
        /\ select is_lifecycle calls = []
        /\ Frame.pool self = Some 10%nat
  | Fault _ => False
  end.
Proof.
  destruct (Frame.run frame_created frame_session_run world_created)
    as [[self w]|f] eqn:Hrun.
  - destruct (frame_run_stays_in_footprint _ _ _ _ _ Hrun)
      as (calls & Ht & _ & Hl & Hfix & _).
    exists calls. split; [exact Ht|]. split; [exact Hl|].
    destruct Hfix as (_ & _ & _ & _ & Hp & _). exact Hp.
  - vm_compute in Hrun. discriminate Hrun.
Defined.

(** X7.  The protocol objects of a session of the frame dialect over its whole
    life.  From [create] through any run that the process survives: every
    frame and every session created has been destroyed except the one the
    session object points to, and every image source created has been
    destroyed.  After [destroy] no frame, session or image source is left.
    The pool is another matter: it is created once, by [create], and no call
    of the run or of [destroy] destroys it; [destroy] frees the object, as its
    last call. *)
Theorem frame_lifecycle_releases_protocol_objects (o : output)
    (render_cursor : bool) (l : list Frame.input)
    (self0 self : Frame.ext_screencopy) (w0 w1 w2 w3 : world) :
  Frame.ext_screencopy_create o render_cursor w0 = Ok (Some self0, w1) ->
  Frame.run self0 l w1 = Ok (self, w2) ->
  Frame.ext_screencopy_destroy self w2 = Ok (tt, w3) ->
  exists (lived all : list call),
    trace w2 = trace w0 ++ lived
    /\ frame_objects_balanced self lived
    /\ trace w3 = trace w0 ++ all
    /\ length (select is_frame_created all)
       = length (select is_frame_destroyed all)
    /\ length (select is_session_created all)
       = length (select is_session_destroyed all)
    /\ length (select is_source_created all)
       = length (select is_source_destroyed all)
    /\ select is_lifecycle all = [c_pool_create (Frame.pool self0); c_free]
    /\ Frame.pool self0 <> None
    /\ last all = Some c_free.
Proof.
  intros Hcreate Hrun Hdestroy.
  destruct (frame_run_objects _ _ _ _ _ _ _ _ Hcreate Hrun)
    as (lived & Ht & Hobj & Hlife & Hpool & _).
  destruct (frame_destroy_effect self w2) as (w3' & Hd & Htr3).
  rewrite Hd in Hdestroy. injection Hdestroy as <-.
  exists lived.
  exists (lived
          ++ option_list (c_frame_destroy <$> Frame.frame self)
          ++ option_list (c_session_destroy <$> Frame.session self)
          ++ option_list (c_pool_release (Frame.pool self)
                            <$> Frame.buffer self)
          ++ [c_free]).
  split; [exact Ht|]. split; [exact Hobj|].
  split; [rewrite Htr3, Ht, <- !app_assoc; reflexivity|].
  destruct Hobj as (Hf & Hs & Hsrc).
  assert (Hlast : forall (a b c d : list call),
             last (a ++ b ++ c ++ d ++ [c_free]) = Some c_free)
    by (intros; rewrite !app_assoc; apply last_snoc).
  rewrite Hlast, !select_app, !length_app, Hlife.
  destruct (Frame.frame self), (Frame.session self), (Frame.buffer self);
    simpl in *; repeat split; first [lia | assumption].
Qed.

(** The theorem on the run [frame_session_run], destroyed with a capture
    outstanding. *)
Lemma frame_lifecycle_releases_protocol_objects_witness :
  match Frame.run frame_created frame_session_run world_created with
  | Ok (self, w2) =>
      match Frame.ext_screencopy_destroy self w2 with
      | Ok (_, w3) =>
          exists (all : list call),
            trace w3 = all
            /\ length (select is_frame_created all) = 3%nat
            /\ length (select is_frame_destroyed all) = 3%nat
            /\ select is_lifecycle all = [c_pool_create (Some 10%nat); c_free]
      | Fault _ => False
      end
  | Fault _ => False
  end.
Proof.
  destruct (Frame.run frame_created frame_session_run world_created)
    as [[self w2]|f] eqn:Hrun; [|vm_compute in Hrun; discriminate Hrun].
  destruct (Frame.ext_screencopy_destroy self w2) as [[[] w3]|f] eqn:Hd.
  - destruct (frame_lifecycle_releases_protocol_objects 7%nat true
                frame_session_run frame_created self world0 world_created
                w2 w3 eq_refl Hrun Hd)
      as (lived & all & _ & _ & Ht & Hf & _ & _ & Hl & _).
    exists (trace w3). split; [reflexivity|].
    assert (Hw3 : length (select is_frame_created (trace w3)) = 3%nat).
    { revert Hd. vm_compute in Hrun. injection Hrun as <- <-.
      vm_compute. intros [= <-]. reflexivity. }
    rewrite Ht in *. simpl in *. split; [exact Hw3|].
    split; [rewrite <- Hf; exact Hw3 | exact Hl].
  - destruct (frame_destroy_effect self w2) as (w3 & Hd' & _).
    rewrite Hd' in Hd. discriminate Hd.
Defined.

(** A session that a run from [create] has reached keeps the account of
    its buffers and its flags agree. *)
Lemma frame_reached (o : output) (render_cursor : bool)
    (l : list Frame.input) (self0 self : Frame.ext_screencopy)
    (w0 w1 w2 : world) :
  Frame.ext_screencopy_create o render_cursor w0 = Ok (Some self0, w1) ->
  Frame.run self0 l w1 = Ok (self, w2) ->
  settled self /\ (Frame.frame self = None <-> Frame.buffer self = None).
Proof.
  intros Hcreate Hrun. split.
  - eapply frame_run_settled; [|exact Hrun].
    eapply frame_create_settled. exact Hcreate.
  - pose (I := fun (self : Frame.ext_screencopy) (w : world) =>
            Frame.frame self = None <-> Frame.buffer self = None).
    apply (frame_run_invariant I) with (l := l) (self := self0) (w := w1)
                                       (w' := w2); [| |exact Hrun].
    + clear. unfold I. intros self w i self' w' calls HI Heff _ _ _.
      destruct Heff; simpl; try exact HI;
        try (split; discriminate); try (split; reflexivity).
      destruct (ENABLE_SCREENCOPY_DMABUF (env w)); exact HI.
    + destruct (frame_create_some _ _ _ _ _ Hcreate)
        as (m1 & m2 & _ & _ & _ & -> & _).
      split; reflexivity.
Qed.

(** X8.  In the frame dialect a second capture cannot be started while one is
    outstanding.  In any state that a run from [create] reaches with a frame
    outstanding, [start], with either flag and also through
    [screencopy_start], stops the process on [assert(!self->frame)], in every
    world.  No start is waiting there, so a negotiation-complete event in
    that state schedules nothing: it leaves the session object as it is and
    makes two calls, the configuration of the pool and the log line. *)
Theorem frame_run_refuses_start_while_capturing {wlr_t : Type}
    (wlr_screencopy_impl : screencopy_impl wlr_t) (o : output)
    (render_cursor : bool) (l : list Frame.input)
    (self0 self : Frame.ext_screencopy) (w0 w1 w2 : world) (f : obj) :
  Frame.ext_screencopy_create o render_cursor w0 = Ok (Some self0, w1) ->
  Frame.run self0 l w1 = Ok (self, w2) ->
  Frame.frame self = Some f ->
  (forall (immediate : bool) (w : world),
      Frame.ext_screencopy_start self immediate w
      = Fault (assertion_failed "!self->frame")
      /\ screencopy_start Frame.ext_screencopy_impl wlr_screencopy_impl
           (ext_handle self) immediate w
         = Fault (assertion_failed "!self->frame"))
  /\ Frame.should_start self = false
  /\ forall (w : world),
       exists (w' : world),
         Frame.session_listener self Frame.ev_done w = Ok (self, w')
         /\ trace w'
            = trace w ++ [frame_resize_call self (env w); c_log LogInitDone].
Proof.
  intros Hcreate Hrun Hf.
  destruct (frame_reached _ _ _ _ _ _ _ _ Hcreate Hrun) as ((S1 & S2) & _).
  assert (Hinfo : Frame.have_buffer_info self = true)
    by (apply S1; rewrite Hf; discriminate).
  assert (Hstart : Frame.should_start self = false) by (apply S2, Hinfo).
  split; [|split; [exact Hstart|]].
  - intros immediate w.
    pose proof (frame_start_while_outstanding_asserts self immediate w f
                  Hinfo Hf) as Hfault.
    split; [exact Hfault|].
    simpl. unfold bind. rewrite Hfault. reflexivity.
  - intros w.
    destruct (frame_constraints_done_idle self w Hstart) as (w' & Hdone & Htr).
    exists w'. simpl. rewrite Hdone.
    replace (Frame.set_have_buffer_info true self) with self
      by (destruct self; simpl in Hinfo; rewrite Hinfo; reflexivity).
    split; [reflexivity | exact Htr].
Qed.

(** The theorem on [frame_session_run], whose last input starts a capture:
    one more start stops the process. *)
Lemma frame_run_refuses_start_while_capturing_witness :
  match Frame.run frame_created frame_session_run world_created with
  | Ok (self, w2) =>
      Frame.frame self = Some 17%nat
      /\ Frame.ext_screencopy_start self true w2
         = Fault (assertion_failed "!self->frame")
  | Fault _ => False
  end.
Proof.
  destruct (Frame.run frame_created frame_session_run world_created)
    as [[self w2]|f] eqn:Hrun; [|vm_compute in Hrun; discriminate Hrun].
  assert (Hf : Frame.frame self = Some 17%nat).
  { vm_compute in Hrun. injection Hrun as <- _. reflexivity. }
  split; [exact Hf|].
  exact (proj1 (proj1 (frame_run_refuses_start_while_capturing
                         Session.ext_screencopy_impl 7%nat true
                         frame_session_run frame_created self world0
                         world_created w2 17%nat eq_refl Hrun Hf) true w2)).
Defined.

(** X9.  Which frame events a session of the frame dialect accepts.  In any
    state that a run from [create] reaches with frame [f] outstanding, no
    assertion fails and no null field or manager is read on an event of [f]:
    with the completion callback of the owner installed, as the listener has
    it, damage, presentation time, transform, ready, and failed with any
    reason return (for the invalidating reason, given the two managers the
    reopening needs).  With the [on_done] pointer null, as [calloc] leaves
    it, ready and failed of [f] stop the process on the null pointer.  A
    ready or failed event of any other frame, in any state, stops the
    process on [assert(frame == self->frame)]; a transform event on a session
    whose slot is empty stops on [assert(self->buffer)]. *)
Theorem frame_run_accepts_events_of_outstanding_frame (o : output)
    (render_cursor : bool) (l : list Frame.input)
    (self0 self : Frame.ext_screencopy) (w0 w1 w2 : world) (f : obj) :
  Frame.ext_screencopy_create o render_cursor w0 = Ok (Some self0, w1) ->
  Frame.run self0 l w1 = Ok (self, w2) ->
  Frame.frame self = Some f ->
  (forall (ev : Frame.frame_event) (w : world),
      (ev = Frame.ev_failed Frame.FAILURE_REASON_BUFFER_CONSTRAINTS ->
       ext_output_image_source_manager (globals w) <> None
       /\ ext_screencopy_manager (globals w) <> None) ->
      exists (self' : Frame.ext_screencopy) (w' : world),
        Frame.frame_listener self f ev w = Ok (self', w'))
  /\ (forall (reason : Frame.failure_reason) (w : world),
         Frame.frame_handle_ready_with None self f w = Fault null_dereference
         /\ Frame.frame_handle_failed_with None self f reason w
            = Fault null_dereference)
  /\ (forall (f' : obj) (reason : Frame.failure_reason) (w : world),
         f' <> f ->
         Frame.frame_listener self f' Frame.ev_ready w
         = Fault (assertion_failed "frame == self->frame")
         /\ Frame.frame_listener self f' (Frame.ev_failed reason) w
            = Fault (assertion_failed "frame == self->frame"))
  /\ (forall (idle : Frame.ext_screencopy) (f' : obj) (t : Z) (w : world),
         Frame.buffer idle = None ->
         Frame.frame_listener idle f' (Frame.ev_transform t) w
         = Fault (assertion_failed "self->buffer")).
Proof.
  intros Hcreate Hrun Hf.
  destruct (frame_reached _ _ _ _ _ _ _ _ Hcreate Hrun) as (_ & Hslot).
  destruct (Frame.buffer self) as [b|] eqn:Hb.
  2: { rewrite (proj2 Hslot eq_refl) in Hf. discriminate Hf. }
  split; [|split; [|split]].
  - intros ev w Hm.
    destruct ev as [x y width height|sec_hi sec_lo nsec|t| |reason]; simpl.
    + eexists _, _. reflexivity.
    + eexists _, _. reflexivity.
    + unfold Frame.frame_handle_transform. rewrite Hb. mred.
      eexists _, _. reflexivity.
    + unfold Frame.frame_handle_ready, Frame.frame_handle_ready_with.
      rewrite Hf.
      rewrite bool_decide_true by reflexivity. mred. rewrite Hb. mred.
      eexists _, _. reflexivity.
    + unfold Frame.frame_handle_failed, Frame.frame_handle_failed_with.
      rewrite Hf.
      rewrite bool_decide_true by reflexivity. mred. rewrite Hb. mred.
      unfold wv_buffer_pool_release. simpl.
      destruct reason as [|code].
      * destruct (Hm eq_refl) as (H1 & H2).
        destruct (ext_output_image_source_manager (globals w))
          as [m1|] eqn:E1; [|contradiction].
        destruct (ext_screencopy_manager (globals w))
          as [m2|] eqn:E2; [|contradiction].
        match goal with
        | |- context [Frame.ext_screencopy_init_session ?a ?b] =>
            destruct (frame_init_session_runs a b m1 m2 E1 E2)
              as (w3 & Hinit & _); rewrite Hinit
        end.
        simpl. eexists _, _. reflexivity.
      * simpl. eexists _, _. reflexivity.
  - intros reason w. split.
    + unfold Frame.frame_handle_ready_with. rewrite Hf.
      rewrite bool_decide_true by reflexivity. mred. rewrite Hb. mred.
      reflexivity.
    + unfold Frame.frame_handle_failed_with. rewrite Hf.
      rewrite bool_decide_true by reflexivity. mred. rewrite Hb. mred.
      unfold wv_buffer_pool_release. simpl.
      destruct reason as [|code]; [|reflexivity].
      match goal with
      | |- context [Frame.ext_screencopy_init_session ?a ?b] =>
          destruct (Frame.ext_screencopy_init_session a b)
            as [[[r self1] w3]|f0] eqn:Hinit
      end.
      * reflexivity.
      * destruct (frame_init_session_fault _ _ _ Hinit) as (-> & _).
        reflexivity.
  - intros f' reason w Hne. simpl.
    unfold Frame.frame_handle_ready, Frame.frame_handle_ready_with,
      Frame.frame_handle_failed, Frame.frame_handle_failed_with.
    rewrite Hf. rewrite bool_decide_false by congruence.
    split; reflexivity.
  - intros idle f' t w Hidle. simpl.
    unfold Frame.frame_handle_transform. rewrite Hidle. reflexivity.
Qed.

(** The theorem on [frame_session_run]: the capture left outstanding can
    be failed with the invalidating reason. *)
Lemma frame_run_accepts_events_of_outstanding_frame_witness :
  match Frame.run frame_created frame_session_run world_created with
  | Ok (self, w2) =>
      exists (self' : Frame.ext_screencopy) (w' : world),
        Frame.frame_listener self 17%nat
          (Frame.ev_failed Frame.FAILURE_REASON_BUFFER_CONSTRAINTS) w2
        = Ok (self', w')
  | Fault _ => False
  end.
Proof.
  destruct (Frame.run frame_created frame_session_run world_created)
    as [[self w2]|f] eqn:Hrun; [|vm_compute in Hrun; discriminate Hrun].
  assert (Hf : Frame.frame self = Some 17%nat
               /\ globals w2 = all_managers).
  { vm_compute in Hrun. injection Hrun as <- <-. split; reflexivity. }
  destruct Hf as (Hf & Hg).
  apply (proj1 (frame_run_accepts_events_of_outstanding_frame 7%nat true
                  frame_session_run frame_created self world0 world_created
                  w2 17%nat eq_refl Hrun Hf)).
  intros _. rewrite Hg. split; discriminate.
Defined.

(** ** Negotiation in the frame dialect *)

Lemma frame_run_app (l1 l2 : list Frame.input) (self : Frame.ext_screencopy)
    (w : world) :
  Frame.run self (l1 ++ l2) w
  = match Frame.run self l1 w with
    | Ok (self1, w1) => Frame.run self1 l2 w1
    | Fault f => Fault f
    end.
Proof.
  revert self w. induction l1 as [|i l1 IH]; intros self w; simpl.
  - reflexivity.
  - unfold bind. destruct (Frame.step self i w) as [[self1 w1]|f];
      [apply IH | reflexivity].
Qed.

(** One announcement records what it announces and nothing else. *)
Lemma frame_announcement_records (ev : Frame.session_event)
    (self : Frame.ext_screencopy) (w : world) :
  ev <> Frame.ev_done ->
  exists (self' : Frame.ext_screencopy),
    Frame.step self (Frame.on_session ev) w = Ok (self', w)
    /\ same_capture_state self self'
    /\ frame_fixed self self'
    /\ (Frame.width self', Frame.height self')
       = default (Frame.width self, Frame.height self) (buffer_size_of ev)
    /\ Frame.wl_shm_stride self'
       = default (Frame.wl_shm_stride self) (stride_of ev)
    /\ Frame.wl_shm_format self'
       = default (Frame.wl_shm_format self) (shm_format_of ev)
    /\ Frame.have_linux_dmabuf self'
       = (Frame.have_linux_dmabuf self
          || (ENABLE_SCREENCOPY_DMABUF (env w) && is_dmabuf_format ev))
    /\ Frame.dmabuf_format self'
       = (if ENABLE_SCREENCOPY_DMABUF (env w)
          then default (Frame.dmabuf_format self) (dmabuf_format_of ev)
          else Frame.dmabuf_format self).
Proof.
  intros Hev. destruct ev as [format|format| |width height| |];
    try congruence; simpl.
  - eexists. split; [reflexivity|]. simpl.
    rewrite andb_false_r, orb_false_r.
    destruct (ENABLE_SCREENCOPY_DMABUF (env w)); repeat split; reflexivity.
  - unfold Frame.session_handle_format_drm, bind, get_env.
    destruct (ENABLE_SCREENCOPY_DMABUF (env w));
      (eexists; split; [reflexivity|]); simpl;
      rewrite ?orb_true_r, ?orb_false_r; repeat split; reflexivity.
  - eexists. split; [reflexivity|]. simpl.
    rewrite andb_false_r, orb_false_r.
    destruct (ENABLE_SCREENCOPY_DMABUF (env w)); repeat split; reflexivity.
  - eexists. split; [reflexivity|]. simpl.
    rewrite andb_false_r, orb_false_r.
    destruct (ENABLE_SCREENCOPY_DMABUF (env w)); repeat split; reflexivity.
  - eexists. split; [reflexivity|]. simpl.
    rewrite andb_false_r, orb_false_r.
    destruct (ENABLE_SCREENCOPY_DMABUF (env w)); repeat split; reflexivity.
Qed.

(** The announcements before negotiation complete only record what they
    announce; for each kind the last one stands. *)
Lemma frame_negotiation_records (evs : list Frame.session_event)
    (self : Frame.ext_screencopy) (w : world) :
  Forall (fun ev => ev <> Frame.ev_done) evs ->
  exists (self' : Frame.ext_screencopy),
    Frame.run self (map Frame.on_session evs) w = Ok (self', w)
    /\ same_capture_state self self'
    /\ frame_fixed self self'
    /\ (Frame.width self', Frame.height self')
       = last_announced buffer_size_of evs
           (Frame.width self, Frame.height self)
    /\ Frame.wl_shm_stride self'
       = last_announced stride_of evs (Frame.wl_shm_stride self)
    /\ Frame.wl_shm_format self'
       = last_announced shm_format_of evs (Frame.wl_shm_format self)
    /\ Frame.have_linux_dmabuf self'
       = (Frame.have_linux_dmabuf self
          || (ENABLE_SCREENCOPY_DMABUF (env w)
              && existsb is_dmabuf_format evs))
    /\ Frame.dmabuf_format self'
       = (if ENABLE_SCREENCOPY_DMABUF (env w)
          then last_announced dmabuf_format_of evs (Frame.dmabuf_format self)
          else Frame.dmabuf_format self).
Proof.
  intros Hevs. revert self.
  induction Hevs as [|ev evs Hev _ IH]; intros self.
  - exists self. split; [reflexivity|].
    split; [apply same_capture_state_refl|].
    split; [apply frame_fixed_refl|].
    simpl. rewrite andb_false_r, orb_false_r.
    destruct (ENABLE_SCREENCOPY_DMABUF (env w)); repeat split; reflexivity.
  - destruct (frame_announcement_records ev self w Hev)
      as (self1 & Hstep & S1 & F1 & Hsz1 & Hst1 & Hshm1 & Hhave1 & Hdma1).
    destruct (IH self1)
      as (self2 & Hrun & S2 & F2 & Hsz2 & Hst2 & Hshm2 & Hhave2 & Hdma2).
    exists self2.
    split.
    { cbn [map Frame.run]. unfold bind. rewrite Hstep. exact Hrun. }
    split; [exact (same_capture_state_trans _ _ _ S1 S2)|].
    split; [exact (frame_fixed_trans _ _ _ F1 F2)|].
    cbn [last_announced existsb].
    rewrite Hsz2, Hst2, Hshm2, Hhave2, Hdma2, Hsz1, Hst1, Hshm1, Hhave1, Hdma1.
    repeat split.
    + destruct (Frame.have_linux_dmabuf self),
        (ENABLE_SCREENCOPY_DMABUF (env w)), (is_dmabuf_format ev),
        (existsb is_dmabuf_format evs); reflexivity.
    + destruct (ENABLE_SCREENCOPY_DMABUF (env w)); reflexivity.
Qed.

(** Negotiation complete with no start waiting configures the pool from
    the fields of the session, and marks the format known. *)
Lemma frame_constraints_done_configures (self : Frame.ext_screencopy)
    (w : world) :
  Frame.should_start self = false ->
  exists (w' : world),
    Frame.session_handle_constraints_done self w
    = Ok (Frame.set_have_buffer_info true self, w')
    /\ trace w'
       = trace w ++ [resize_call (Frame.pool self) (negotiated self (env w) []);
                     c_log LogInitDone]
    /\ pool_cfg w' = negotiated self (env w) []
    /\ bufs w' = bufs w /\ pool_queue w' = pool_queue w
    /\ env w' = env w /\ globals w' = globals w.
Proof.
  intros Hstart.
  unfold Frame.session_handle_constraints_done, negotiated, resize_call.
  rewrite Hstart. mred. rewrite orb_false_r.
  destruct (ENABLE_SCREENCOPY_DMABUF (env w)
            && (Frame.have_linux_dmabuf self
                && enable_linux_dmabuf (Frame.parent self)));
    mred; unfold wv_buffer_pool_resize; simpl;
    (eexists; split; [reflexivity|]; simpl;
     rewrite <- !app_assoc; repeat split; reflexivity).
Qed.

Lemma negotiated_after (self self' : Frame.ext_screencopy) (e : environment)
    (evs : list Frame.session_event) :
  Frame.parent self' = Frame.parent self ->
  (Frame.width self', Frame.height self')
  = last_announced buffer_size_of evs (Frame.width self, Frame.height self) ->
  Frame.wl_shm_stride self'
  = last_announced stride_of evs (Frame.wl_shm_stride self) ->
  Frame.wl_shm_format self'
  = last_announced shm_format_of evs (Frame.wl_shm_format self) ->
  Frame.have_linux_dmabuf self'
  = (Frame.have_linux_dmabuf self
     || (ENABLE_SCREENCOPY_DMABUF e && existsb is_dmabuf_format evs)) ->
  Frame.dmabuf_format self'
  = (if ENABLE_SCREENCOPY_DMABUF e
     then last_announced dmabuf_format_of evs (Frame.dmabuf_format self)
     else Frame.dmabuf_format self) ->
  negotiated self' e [] = negotiated self e evs.
Proof.
  intros Hp Hsz Hst Hshm Hhave Hdma. unfold negotiated.
  destruct (last_announced buffer_size_of evs
              (Frame.width self, Frame.height self)) as [width height].
  injection Hsz as Hw Hh.
  cbn [last_announced existsb]. rewrite Hw, Hh, Hp, Hst, Hshm, Hhave, Hdma.
  rewrite orb_false_r.
  destruct (ENABLE_SCREENCOPY_DMABUF e); simpl; reflexivity.
Qed.

(** X10.  What a negotiation of the frame dialect asks of the pool.  With no
    start waiting, after any announcements (formats, dimensions, device) the
    negotiation-complete event makes one resize call on the pool of the
    session and nothing else but its log line: with the dimensions of the last
    dimensions event, the stride that event set, and the format of the last
    format event of the chosen kind (for a kind never announced, what the
    session held before).  DMABUF is chosen exactly when the build option is
    on, a DMABUF format has been announced and the parent enables it;
    otherwise shared memory, whether or not a shared-memory format was ever
    announced.  The format is then known; no buffer is taken and the capture
    state is as it was. *)
Theorem frame_negotiation_configures_pool (evs : list Frame.session_event)
    (self : Frame.ext_screencopy) (w : world) :
  Frame.should_start self = false ->
  Forall (fun ev => ev <> Frame.ev_done) evs ->
  exists (self' : Frame.ext_screencopy) (w' : world),
    Frame.run self (map Frame.on_session (evs ++ [Frame.ev_done])) w
    = Ok (self', w')
    /\ trace w'
       = trace w ++ [resize_call (Frame.pool self) (negotiated self (env w) evs);
                     c_log LogInitDone]
    /\ pool_cfg w' = negotiated self (env w) evs
    /\ Frame.have_buffer_info self' = true
    /\ Frame.buffer self' = Frame.buffer self
    /\ Frame.frame self' = Frame.frame self
    /\ Frame.session self' = Frame.session self
    /\ Frame.should_start self' = false
    /\ bufs w' = bufs w /\ pool_queue w' = pool_queue w.
Proof.
  intros Hstart Hevs.
  destruct (frame_negotiation_records evs self w Hevs)
    as (self1 & Hrun & S & F & Hsz & Hst & Hshm & Hhave & Hdma).
  destruct S as (Sp & Ss & Sf & Spool & Sb & Si & Sst & _).
  destruct (frame_constraints_done_configures self1 w)
    as (w' & Hdone & Htr & Hcfg & Hb & Hq & _); [congruence|].
  rewrite (negotiated_after self self1 (env w) evs Sp Hsz Hst Hshm Hhave Hdma)
    in Htr, Hcfg.
  exists (Frame.set_have_buffer_info true self1), w'.
  split.
  { rewrite map_app, frame_run_app, Hrun. simpl. unfold bind.
    rewrite Hdone. reflexivity. }
  rewrite Spool in Htr. simpl.
  repeat split; try assumption; congruence.
Qed.

(** The theorem on the session [create] leaves, with a shared-memory
    format and two dimensions events. *)
Lemma frame_negotiation_configures_pool_witness :
  exists (self' : Frame.ext_screencopy) (w' : world),
    Frame.run frame_created
      (map Frame.on_session
         [Frame.ev_shm_format 875713112; Frame.ev_buffer_size 640 480;
          Frame.ev_buffer_size 1920 1080; Frame.ev_done])
      world_created
    = Ok (self', w')
    /\ pool_cfg w'
       = {| cfg_type := WV_BUFFER_SHM; cfg_width := 1920;
            cfg_height := 1080; cfg_stride := 7680;
            cfg_format := 875713112 |}.
Proof.
  destruct (frame_negotiation_configures_pool
              [Frame.ev_shm_format 875713112; Frame.ev_buffer_size 640 480;
               Frame.ev_buffer_size 1920 1080]
              frame_created world_created eq_refl)
    as (self' & w' & Hrun & _ & Hcfg & _).
  { repeat constructor; discriminate. }
  exists self', w'. split; [exact Hrun | exact Hcfg].
Defined.

Lemma last_announced_app {A} (pick : Frame.session_event -> option A)
    (l1 l2 : list Frame.session_event) (d : A) :
  last_announced pick (l1 ++ l2) d
  = last_announced pick l2 (last_announced pick l1 d).
Proof.
  revert d. induction l1 as [|ev l1 IH]; intros d; simpl;
    [reflexivity | apply IH].
Qed.

Lemma last_announced_none {A} (pick : Frame.session_event -> option A)
    (l : list Frame.session_event) (d : A) :
  Forall (fun ev => pick ev = None) l -> last_announced pick l d = d.
Proof.
  induction 1 as [|ev l Hev _ IH]; simpl; [reflexivity|].
  rewrite Hev. exact IH.
Qed.

(** X11.  The stride of a shared-memory pool.  When DMABUF cannot be chosen
    (the build option is off, or the parent does not enable it), a negotiation
    whose last dimensions event announces [width] by [height] resizes the pool
    for shared memory with these dimensions and the stride [width * 4]
    computed in 32 bits: exactly four bytes for each pixel of a row as long as
    [width] is below 2^30, and a wrapped value, smaller than the row, from
    2^30 on. *)
Theorem frame_shm_stride_follows_width
    (before after : list Frame.session_event) (width height : Z)
    (self : Frame.ext_screencopy) (w : world) :
  Frame.should_start self = false ->
  ENABLE_SCREENCOPY_DMABUF (env w) && enable_linux_dmabuf (Frame.parent self)
  = false ->
  Forall (fun ev => ev <> Frame.ev_done) before ->
  Forall (fun ev => ev <> Frame.ev_done /\ is_buffer_size ev = false) after ->
  0 <= width ->
  exists (self' : Frame.ext_screencopy) (w' : world) (stride format : Z),
    Frame.run self
      (map Frame.on_session
         (before ++ Frame.ev_buffer_size width height :: after
          ++ [Frame.ev_done])) w
    = Ok (self', w')
    /\ trace w'
       = trace w ++ [c_pool_resize (Frame.pool self) WV_BUFFER_SHM width
                       height stride format;
                     c_log LogInitDone]
    /\ stride = (width * 4) mod 2 ^ 32
    /\ (width < 2 ^ 30 -> stride = width * 4)
    /\ (2 ^ 30 <= width -> stride < width * 4)
    /\ Frame.wl_shm_stride self' = stride
    /\ Frame.width self' = width /\ Frame.height self' = height.
Proof.
  intros Hstart Hno Hbefore Hafter Hwidth.
  assert (Hevs : Forall (fun ev => ev <> Frame.ev_done)
                   (before ++ Frame.ev_buffer_size width height :: after)).
  { apply Forall_app. split; [exact Hbefore|].
    constructor; [discriminate|].
    eapply Forall_impl; [exact Hafter|]. intros ev [H _]. exact H. }
  destruct (frame_negotiation_records _ self w Hevs)
    as (self1 & Hrun & S & F & Hsz & Hst & Hshm & Hhave & Hdma).
  destruct S as (Sp & Ss & Sf & Spool & Sb & Si & Sst & _).
  destruct (frame_constraints_done_idle self1 w)
    as (w' & Hdone & Htr); [congruence|].
  assert (Hsize : forall ev, is_buffer_size ev = false ->
                    buffer_size_of ev = None /\ stride_of ev = None)
    by (intros ev; destruct ev; simpl; intros; try discriminate;
        split; reflexivity).
  rewrite last_announced_app in Hsz. rewrite last_announced_app in Hst.
  cbn [last_announced] in Hsz, Hst.
  rewrite last_announced_none in Hsz
    by (eapply Forall_impl; [exact Hafter|];
        intros ev [_ H]; apply Hsize, H).
  rewrite last_announced_none in Hst
    by (eapply Forall_impl; [exact Hafter|];
        intros ev [_ H]; apply Hsize, H).
  simpl in Hsz, Hst. injection Hsz as Hw Hh.
  exists (Frame.set_have_buffer_info true self1), w',
    ((width * 4) mod 2 ^ 32), (Frame.wl_shm_format self1).
  split.
  { replace (before ++ Frame.ev_buffer_size width height :: after
             ++ [Frame.ev_done])
      with ((before ++ Frame.ev_buffer_size width height :: after)
            ++ [Frame.ev_done])
      by (rewrite <- app_assoc; reflexivity).
    rewrite map_app, frame_run_app, Hrun. simpl. unfold bind.
    rewrite Hdone. reflexivity. }
  split.
  { rewrite Htr. unfold frame_resize_call.
    rewrite Sp, Spool, Hw, Hh, Hst.
    replace (ENABLE_SCREENCOPY_DMABUF (env w)
             && (Frame.have_linux_dmabuf self1
                 && enable_linux_dmabuf (Frame.parent self)))
      with false
      by (destruct (ENABLE_SCREENCOPY_DMABUF (env w)),
            (Frame.have_linux_dmabuf self1),
            (enable_linux_dmabuf (Frame.parent self));
          simpl in *; congruence).
    reflexivity. }
  split; [reflexivity|].
  split; [intros Hlt; apply Z.mod_small; lia|].
  split; [intros Hge; pose proof (Z.mod_pos_bound (width * 4) (2 ^ 32));
          lia|].
  simpl. repeat split; assumption.
Qed.

(** The theorem at 1920 by 1080 on the session [create] leaves. *)
Lemma frame_shm_stride_follows_width_witness :
  exists (self' : Frame.ext_screencopy) (w' : world),
    Frame.run frame_created
      (map Frame.on_session
         [Frame.ev_buffer_size 640 480; Frame.ev_buffer_size 1920 1080;
          Frame.ev_shm_format 0; Frame.ev_done])
      world_created
    = Ok (self', w')
    /\ Frame.wl_shm_stride self' = 7680.
Proof.
  destruct (frame_shm_stride_follows_width [Frame.ev_buffer_size 640 480]
              [Frame.ev_shm_format 0] 1920 1080 frame_created world_created
              eq_refl eq_refl)
    as (self' & w' & stride & format & Hrun & _ & Hs & _ & _ & Hst & _).
  { repeat constructor; discriminate. }
  { repeat constructor; discriminate. }
  { lia. }
  exists self', w'. split; [exact Hrun|]. rewrite Hst, Hs. reflexivity.
Defined.

(** ** The damage hints of a capture *)

(** Scheduling sends one hint for each rectangle of the buffer damage of
    the buffer it took, as the store holds that buffer afterwards, and tags
    the buffer with the domain of the session; no other buffer is
    touched. *)
Lemma frame_schedule_capture_hints (self : Frame.ext_screencopy)
    (immediate : bool) (w : world) (s : obj) :
  Frame.frame self = None ->
  Frame.session self = Some s ->
  frame_ok (env w) = true ->
  exists (b : buf) (w1 : world),
    Frame.ext_screencopy_schedule_capture self immediate w
    = Ok (Frame.set_frame (Some (next_obj w))
            (Frame.set_buffer (Some b) self), w1)
    /\ trace w1
       = trace w
         ++ frame_capture_calls (Frame.pool self) s (next_obj w) b
              (buffer_damage (stored w1 b)) immediate
    /\ (forall x, bufs w1 !! b = Some x ->
                  domain x = Frame.capture_domain self)
    /\ (forall b', b' <> b -> bufs w1 !! b' = bufs w !! b').
Proof.
  intros Hf Hs Hok.
  unfold Frame.ext_screencopy_schedule_capture, frame_capture_calls, stored.
  rewrite Hf. mred. rewrite Hs.
  unfold wv_buffer_pool_acquire.
  destruct (pool_queue w) as [|b q] eqn:Hq; simpl; rewrite Hok; simpl;
    rewrite for_each_emit; simpl;
    (eexists _, _; split; [reflexivity|]; simpl;
     split; [rewrite <- !app_assoc; reflexivity|]; split).
  - intros x. rewrite lookup_alter_eq, lookup_insert_eq. simpl.
    intros [= <-]. reflexivity.
  - intros b' Hne. rewrite lookup_alter_ne, lookup_insert_ne by congruence.
    reflexivity.
  - intros x. rewrite lookup_alter_eq.
    destruct (bufs w !! b); simpl; intros [= <-]. reflexivity.
  - intros b' Hne. rewrite lookup_alter_ne by congruence. reflexivity.
Qed.

Lemma damage_hint_box (r : pixman_box16) :
  box_ok r ->
  damage_hint r
  = (x1 r mod 2 ^ 32, y1 r mod 2 ^ 32, x2 r - x1 r, y2 r - y1 r).
Proof.
  unfold box_ok, damage_hint, u32. intros (Hx1 & Hx & Hx2 & Hy1 & Hy & Hy2).
  rewrite !Zminus_mod_idemp_r.
  rewrite (Z.mod_small (x2 r - x1 r)) by lia.
  rewrite (Z.mod_small (y2 r - y1 r)) by lia.
  reflexivity.
Qed.

Lemma select_own_frame_hints (f : obj) (rects : region) :
  select is_frame_hint (map (frame_hint f) rects) = map (frame_hint f) rects.
Proof.
  induction rects as [|r rects IH]; cbn [map select]; [reflexivity|].
  assert (Hr : is_frame_hint (frame_hint f r) = true).
  { unfold frame_hint. destruct (damage_hint r) as [[[x y] wd] ht].
    reflexivity. }
  rewrite Hr, IH. reflexivity.
Qed.

Lemma frame_hints_of_boxes (f : obj) (rects : region) :
  Forall box_ok rects ->
  map (frame_hint f) rects
  = map (fun r => c_frame_damage_buffer f (x1 r mod 2 ^ 32)
                    (y1 r mod 2 ^ 32) (x2 r - x1 r) (y2 r - y1 r)) rects.
Proof.
  induction 1 as [|r rects Hr _ IH]; cbn [map]; [reflexivity|].
  rewrite IH. unfold frame_hint at 1. rewrite (damage_hint_box r Hr).
  reflexivity.
Qed.

(** X12.  The damage hints of a capture of the frame dialect.  Scheduling a
    capture tags the buffer it took with the domain of the session (cursor for
    a session made by [create_cursor], output otherwise), leaves every other
    buffer as it was, and between attaching the buffer and capturing sends one
    damage hint for each rectangle of that buffer's buffer damage, in order.
    For a box of 16-bit coordinates that is not inverted the hint carries the
    corner, each coordinate converted to 32 bits unsigned, with the width [x2
    - x1] and the height [y2 - y1]. *)
Theorem frame_capture_sends_buffer_damage (self : Frame.ext_screencopy)
    (immediate : bool) (w : world) (s : obj) :
  Frame.frame self = None ->
  Frame.session self = Some s ->
  frame_ok (env w) = true ->
  exists (b : buf) (w1 : world) (calls : list call),
    Frame.ext_screencopy_schedule_capture self immediate w
    = Ok (Frame.set_frame (Some (next_obj w))
            (Frame.set_buffer (Some b) self), w1)
    /\ trace w1 = trace w ++ calls
    /\ calls
       = [c_pool_acquire (Frame.pool self) b;
          c_session_create_frame s (Some (next_obj w));
          c_frame_attach_buffer (next_obj w) b;
          c_frame_add_listener (next_obj w)]
         ++ select is_frame_hint calls
         ++ [c_frame_capture (next_obj w);
             c_log (LogCommitted immediate (Some b))]
    /\ select is_frame_hint calls
       = map (frame_hint (next_obj w)) (buffer_damage (stored w1 b))
    /\ (Forall box_ok (buffer_damage (stored w1 b)) ->
        select is_frame_hint calls
        = map (fun r => c_frame_damage_buffer (next_obj w)
                          (x1 r mod 2 ^ 32) (y1 r mod 2 ^ 32)
                          (x2 r - x1 r) (y2 r - y1 r))
            (buffer_damage (stored w1 b)))
    /\ (forall x, bufs w1 !! b = Some x ->
                  domain x = Frame.capture_domain self)
    /\ (forall b', b' <> b -> bufs w1 !! b' = bufs w !! b').
Proof.
  intros Hf Hs Hok.
  destruct (frame_schedule_capture_hints self immediate w s Hf Hs Hok)
    as (b & w1 & Hrun & Htr & Hdom & Hother).
  exists b, w1. eexists. split; [exact Hrun|]. split; [exact Htr|].
  assert (Hsel : select is_frame_hint
                   (frame_capture_calls (Frame.pool self) s (next_obj w) b
                      (buffer_damage (stored w1 b)) immediate)
                 = map (frame_hint (next_obj w))
                     (buffer_damage (stored w1 b))).
  { unfold frame_capture_calls. rewrite !select_app, select_own_frame_hints.
    simpl. apply app_nil_r. }
  rewrite Hsel.
  split; [reflexivity|]. split; [reflexivity|].
  split; [|split; assumption].
  apply frame_hints_of_boxes.
Qed.

(** The theorem on a session with buffer 0 back in the pool, whose buffer
    damage is the box from (0, 0) to (64, 32). *)
Lemma frame_capture_sends_buffer_damage_witness :
  exists (w1 : world) (calls : list call),
    Frame.ext_screencopy_schedule_capture frame_idle false world_recycled
    = Ok (frame_capturing_next, w1)
    /\ trace w1 = calls
    /\ select is_frame_hint calls = [c_frame_damage_buffer 14%nat 0 0 64 32].
Proof.
  destruct (frame_capture_sends_buffer_damage frame_idle false world_recycled
              12%nat eq_refl eq_refl eq_refl)
    as (b & w1 & calls & Hrun & Htr & _ & Hsel & _).
  assert (Hb : b = 0%nat /\ buffer_damage (stored w1 b)
                            = [{| x1 := 0; y1 := 0; x2 := 64; y2 := 32 |}]).
  { revert Hrun. vm_compute. intros [= <- <-]. split; reflexivity. }
  destruct Hb as (-> & Hdamage).
  exists w1, calls. split; [exact Hrun|]. split; [exact Htr|].
  rewrite Hsel, Hdamage. reflexivity.
Defined.

(** X13.  Once the format is known it stays known.  No call of the owner and
    no event clears [have_buffer_info], not even the reopening of the session
    after an invalidating failure; and with the format known no start is ever
    recorded as waiting.  So after the first negotiation every [start] that
    returns has scheduled a capture at once: it has taken a buffer from the
    pool and captured a frame. *)
Theorem frame_format_stays_known (l : list Frame.input)
    (self self' : Frame.ext_screencopy) (w w' : world) :
  Frame.have_buffer_info self = true ->
  Frame.should_start self = false ->
  Frame.run self l w = Ok (self', w') ->
  Frame.have_buffer_info self' = true
  /\ Frame.should_start self' = false
  /\ forall (immediate : bool) (r : Z) (self'' : Frame.ext_screencopy)
            (w1 w2 : world),
       Frame.ext_screencopy_start self' immediate w1 = Ok ((r, self''), w2) ->
       exists (calls : list call),
         trace w2 = trace w1 ++ calls
         /\ length (acquisitions calls) = 1%nat
         /\ length (commits calls) = 1%nat.
Proof.
  intros Hinfo Hstart Hrun.
  pose (I := fun (self : Frame.ext_screencopy) (w : world) =>
          Frame.have_buffer_info self = true
          /\ Frame.should_start self = false).
  assert (HI : I self' w').
  { apply (frame_run_invariant I) with (l := l) (self := self) (w := w);
      [| |exact Hrun].
    - clear. unfold I. intros self w i self' w' calls (Hi & Hs) Heff _ _ _.
      destruct Heff; simpl;
        try (split; first [assumption | reflexivity]); try congruence.
      destruct (ENABLE_SCREENCOPY_DMABUF (env w)); split; assumption.
    - split; assumption. }
  destruct HI as (Hi' & Hs'). split; [exact Hi'|]. split; [exact Hs'|].
  intros immediate r self'' w1 w2.
  unfold Frame.ext_screencopy_start. rewrite Hi'. simpl. unfold bind.
  destruct (Frame.ext_screencopy_schedule_capture self' immediate w1)
    as [[self1 w3]|] eqn:Hsched; [|discriminate].
  simpl. intros [= _ _ <-].
  destruct (frame_schedule_capture_effect _ _ _ _ _ Hsched)
    as (_ & s & f & b & rects & _ & _ & Htr & _).
  eexists. split; [exact Htr|].
  destruct (frame_capture_calls_read (Frame.pool self') s f b rects immediate)
    as (Ha & _ & Hc).
  rewrite Ha, Hc. split; reflexivity.
Qed.

(** The theorem on [frame_idle], whose format is known, over a run with an
    invalidating failure. *)
Lemma frame_format_stays_known_witness :
  match Frame.run frame_idle
          [Frame.call_start false;
           Frame.on_frame 14%nat
             (Frame.ev_failed Frame.FAILURE_REASON_BUFFER_CONSTRAINTS);
           Frame.on_session (Frame.ev_buffer_size 800 600)]
          world_capturing with
  | Ok (self', w') =>
      Frame.have_buffer_info self' = true /\ Frame.session self' = Some 16%nat
  | Fault _ => False
  end.
Proof.
  destruct (Frame.run frame_idle
              [Frame.call_start false;
               Frame.on_frame 14%nat
                 (Frame.ev_failed Frame.FAILURE_REASON_BUFFER_CONSTRAINTS);
               Frame.on_session (Frame.ev_buffer_size 800 600)]
              world_capturing)
    as [[self' w']|f] eqn:Hrun; [|vm_compute in Hrun; discriminate Hrun].
  split.
  - exact (proj1 (frame_format_stays_known _ frame_idle self' world_capturing
                    w' eq_refl eq_refl Hrun)).
  - vm_compute in Hrun. injection Hrun as <- _. reflexivity.
Defined.

Lemma frame_stop_does_nothing (self : Frame.ext_screencopy) (w : world)
    (i : Frame.input) :
  is_frame_stop i = true -> Frame.step self i w = Ok (self, w).
Proof. destruct i; try discriminate. reflexivity. Qed.

Lemma session_stop_does_nothing (self : Session.ext_screencopy) (w : world)
    (i : Session.input) :
  is_session_stop i = true -> Session.step self i w = Ok (self, w).
Proof. destruct i; try discriminate. reflexivity. Qed.

(** X14.  [stop] stops nothing.  In both dialects, taking the [stop] calls out
    of any run of calls and events changes neither what the run returns nor
    whether it stops the process: a capture that is outstanding stays
    outstanding and a start that is waiting still fires at the next
    negotiation-complete event.  Through [screencopy_stop] the session and the
    world are returned as they were. *)
Theorem stop_changes_nothing {wlr_t : Type}
    (wlr_screencopy_impl : screencopy_impl wlr_t) :
  (forall (l : list Frame.input) (self : Frame.ext_screencopy) (w : world),
      Frame.run self (List.filter (fun i => negb (is_frame_stop i)) l) w
      = Frame.run self l w)
  /\ (forall (l : list Session.input) (self : Session.ext_screencopy)
             (w : world),
         Session.run self (List.filter (fun i => negb (is_session_stop i)) l) w
         = Session.run self l w)
  /\ (forall (self : Frame.ext_screencopy) (w : world),
         screencopy_stop Frame.ext_screencopy_impl wlr_screencopy_impl
           (ext_handle self) w
         = Ok (ext_handle self, w))
  /\ (forall (self : Session.ext_screencopy) (w : world),
         screencopy_stop Session.ext_screencopy_impl wlr_screencopy_impl
           (ext_handle self) w
         = Ok (ext_handle self, w)).
Proof.
  split; [|split; [|split; reflexivity]].
  - intros l. induction l as [|i l IH]; intros self w; [reflexivity|].
    cbn [List.filter]. destruct (is_frame_stop i) eqn:Hi; simpl.
    + unfold bind. rewrite (frame_stop_does_nothing _ _ _ Hi). apply IH.
    + unfold bind. destruct (Frame.step self i w) as [[self1 w1]|f];
        [apply IH | reflexivity].
  - intros l. induction l as [|i l IH]; intros self w; [reflexivity|].
    cbn [List.filter]. destruct (is_session_stop i) eqn:Hi; simpl.
    + unfold bind. rewrite (session_stop_does_nothing _ _ _ Hi). apply IH.
    + unfold bind. destruct (Session.step self i w) as [[self1 w1]|f];
        [apply IH | reflexivity].
Qed.

(** ** Fields that are written and never read *)

Lemma frame_schedule_capture_rate_limit (v : Z) (self : Frame.ext_screencopy)
    (immediate : bool) (w : world) :
  Frame.ext_screencopy_schedule_capture (with_rate_limit v self) immediate w
  = on_result (with_rate_limit v)
      (Frame.ext_screencopy_schedule_capture self immediate w).
Proof.
  unfold Frame.ext_screencopy_schedule_capture, on_result.
  destruct self as [p ? [s|] [f|] ? ? ? ? ? ? ? ? ? ? ? ? ? ? ?]; simpl;
    try reflexivity; mred; unfold wv_buffer_pool_acquire;
    destruct (pool_queue w); simpl; try reflexivity;
    (destruct (frame_ok (env w)); simpl; [|reflexivity]);
    rewrite !for_each_emit; reflexivity.
Qed.

Lemma frame_init_session_rate_limit (v : Z) (self : Frame.ext_screencopy)
    (w : world) :
  Frame.ext_screencopy_init_session (with_rate_limit v self) w
  = on_result (fun p => (p.1, with_rate_limit v p.2))
      (Frame.ext_screencopy_init_session self w).
Proof.
  unfold Frame.ext_screencopy_init_session, on_result.
  destruct self as [p ? [s|] [f|] ? ? ? ? ? ? ? ? ? ? ? ? ? ? ?]; simpl;
    mred;
    (destruct (ext_output_image_source_manager (globals w)); simpl;
     [|reflexivity];
     destruct (source_ok (env w)); simpl; [|reflexivity];
     destruct (ext_screencopy_manager (globals w)); simpl; [|reflexivity];
     destruct (session_ok (env w)); simpl; reflexivity).
Qed.

(** No input reads the rate limit. *)
Lemma frame_step_rate_limit (v : Z) (self : Frame.ext_screencopy)
    (i : Frame.input) (w : world) :
  Frame.step (with_rate_limit v self) i w
  = on_result (with_rate_limit v) (Frame.step self i w).
Proof.
  destruct i as [immediate| |ev|f ev]; simpl.
  - unfold Frame.ext_screencopy_start.
    change (Frame.have_buffer_info (with_rate_limit v self))
      with (Frame.have_buffer_info self).
    destruct (Frame.have_buffer_info self); simpl; [|reflexivity].
    unfold bind. rewrite frame_schedule_capture_rate_limit.
    destruct (Frame.ext_screencopy_schedule_capture self immediate w)
      as [[self1 w1]|]; reflexivity.
  - reflexivity.
  - destruct ev as [format|format| |width height| |]; simpl;
      try reflexivity.
    + unfold Frame.session_handle_format_drm, bind, get_env.
      destruct (ENABLE_SCREENCOPY_DMABUF (env w)); reflexivity.
    + unfold Frame.session_handle_constraints_done.
      change (Frame.should_start (with_rate_limit v self))
        with (Frame.should_start self).
      cbn [with_rate_limit Frame.parent Frame.have_linux_dmabuf
           Frame.dmabuf_format Frame.wl_shm_format Frame.wl_shm_stride
           Frame.pool Frame.width Frame.height Frame.shall_be_immediate
           set_rate_limit enable_linux_dmabuf].
      fold (with_rate_limit v self).
      destruct (Frame.should_start self); mred;
        destruct (ENABLE_SCREENCOPY_DMABUF (env w)
                  && (Frame.have_linux_dmabuf self
                      && enable_linux_dmabuf (Frame.parent self)));
        mred; unfold wv_buffer_pool_resize; simpl; try reflexivity;
        rewrite frame_schedule_capture_rate_limit;
        match goal with
        | |- context [Frame.ext_screencopy_schedule_capture ?a ?i ?b] =>
            destruct (Frame.ext_screencopy_schedule_capture a i b)
              as [[self1 w1]|]
        end; reflexivity.
  - destruct ev as [x y width height|sec_hi sec_lo nsec|t| |reason]; simpl;
      try reflexivity.
    + unfold Frame.frame_handle_transform.
      change (Frame.buffer (with_rate_limit v self))
        with (Frame.buffer self).
      destruct (Frame.buffer self); reflexivity.
    + unfold Frame.frame_handle_ready, Frame.frame_handle_ready_with.
      change (Frame.frame (with_rate_limit v self)) with (Frame.frame self).
      destruct (bool_decide (Some f = Frame.frame self)); [|reflexivity].
      destruct (Frame.frame self); [|reflexivity]. mred.
      destruct (Frame.buffer self); reflexivity.
    + unfold Frame.frame_handle_failed, Frame.frame_handle_failed_with.
      change (Frame.frame (with_rate_limit v self)) with (Frame.frame self).
      destruct (bool_decide (Some f = Frame.frame self)); [|reflexivity].
      destruct (Frame.frame self); [|reflexivity]. mred.
      destruct (Frame.buffer self); [|reflexivity]. mred.
      unfold wv_buffer_pool_release. simpl.
      destruct reason as [|code]; [|reflexivity].
      match goal with
      | |- context [Frame.ext_screencopy_init_session
                      (Frame.set_buffer None
                         (Frame.set_frame None (with_rate_limit v self))) ?b] =>
          change (Frame.set_buffer None
                    (Frame.set_frame None (with_rate_limit v self)))
            with (with_rate_limit v
                    (Frame.set_buffer None (Frame.set_frame None self)));
          rewrite frame_init_session_rate_limit;
          destruct (Frame.ext_screencopy_init_session
                      (Frame.set_buffer None (Frame.set_frame None self)) b)
            as [[[r self1] w1]|]
      end; reflexivity.
Qed.

(** X15.  The rate limit is never read.  [create] sets the parent's
    [rate_limit] to 30, and nothing in the frame dialect consults it: with any
    other value in the field, every run of calls and events makes the same
    calls, leaves the same world, stops the process in the same cases and
    returns the same session but for that field; [destroy] is the same too.
    Captures are not throttled. *)
Theorem frame_rate_limit_is_never_read (v : Z) (l : list Frame.input)
    (self : Frame.ext_screencopy) (w : world) :
  Frame.run (with_rate_limit v self) l w
  = on_result (with_rate_limit v) (Frame.run self l w)
  /\ Frame.ext_screencopy_destroy (with_rate_limit v self) w
     = Frame.ext_screencopy_destroy self w.
Proof.
  split; [|reflexivity].
  revert self w. induction l as [|i l IH]; intros self w; [reflexivity|].
  simpl. unfold bind. rewrite frame_step_rate_limit.
  destruct (Frame.step self i w) as [[self1 w1]|f]; simpl;
    [apply IH | reflexivity].
Qed.

Lemma frame_schedule_capture_flag (self : Frame.ext_screencopy)
    (immediate : bool) (w : world) :
  match Frame.ext_screencopy_schedule_capture self immediate w,
        Frame.ext_screencopy_schedule_capture self (negb immediate) w with
  | Ok (self1, w1), Ok (self2, w2) =>
      self1 = self2
      /\ requests (trace w1) = requests (trace w2)
      /\ bufs w1 = bufs w2 /\ pool_queue w1 = pool_queue w2
      /\ pool_cfg w1 = pool_cfg w2
      /\ next_buf w1 = next_buf w2 /\ next_obj w1 = next_obj w2
  | Fault f1, Fault f2 => f1 = f2
  | _, _ => False
  end.
Proof.
  unfold Frame.ext_screencopy_schedule_capture.
  destruct (Frame.frame self); simpl; [reflexivity|]. mred.
  unfold wv_buffer_pool_acquire.
  destruct (pool_queue w); simpl;
    (destruct (Frame.session self); simpl; [|reflexivity]);
    (destruct (frame_ok (env w)); simpl; [|reflexivity]);
    rewrite !for_each_emit; simpl; unfold requests;
    rewrite !select_app; simpl; repeat split; reflexivity.
Qed.

(** X16.  In the frame dialect the [immediate] flag of [start] reaches nothing
    but the log.  With the format known, [start(true)] and [start(false)]
    return alike or stop the process alike; when they return, the session
    object, the buffers, the pool and every call made other than the log line
    are the same. *)
Theorem frame_immediate_flag_is_only_logged (self : Frame.ext_screencopy)
    (immediate : bool) (w : world) :
  Frame.have_buffer_info self = true ->
  match Frame.ext_screencopy_start self immediate w,
        Frame.ext_screencopy_start self (negb immediate) w with
  | Ok ((r1, self1), w1), Ok ((r2, self2), w2) =>
      r1 = r2 /\ self1 = self2
      /\ requests (trace w1) = requests (trace w2)
      /\ bufs w1 = bufs w2 /\ pool_queue w1 = pool_queue w2
      /\ pool_cfg w1 = pool_cfg w2
  | Fault f1, Fault f2 => f1 = f2
  | _, _ => False
  end.
Proof.
  intros Hinfo. unfold Frame.ext_screencopy_start. rewrite Hinfo. simpl.
  unfold bind.
  pose proof (frame_schedule_capture_flag self immediate w) as H.
  destruct (Frame.ext_screencopy_schedule_capture self immediate w)
    as [[self1 w1]|f1];
    destruct (Frame.ext_screencopy_schedule_capture self (negb immediate) w)
      as [[self2 w2]|f2]; simpl; try contradiction; [|exact H].
  destruct H as (Hs & Hr & Hb & Hq & Hc & _).
  repeat split; assumption.
Qed.

(** The theorem on [frame_idle]: the two flags differ in the log line
    only. *)
Lemma frame_immediate_flag_is_only_logged_witness :
  match Frame.ext_screencopy_start frame_idle true world_recycled,
        Frame.ext_screencopy_start frame_idle false world_recycled with
  | Ok (_, w1), Ok (_, w2) =>
      requests (trace w1) = requests (trace w2)
      /\ trace w1 <> trace w2
  | _, _ => False
  end.
Proof.
  pose proof (frame_immediate_flag_is_only_logged frame_idle true
                world_recycled eq_refl) as H.
  cbn [negb] in H.
  destruct (Frame.ext_screencopy_start frame_idle true world_recycled)
    as [[[r1 self1] w1]|f1] eqn:H1;
    destruct (Frame.ext_screencopy_start frame_idle false world_recycled)
      as [[[r2 self2] w2]|f2] eqn:H2; try exact H.
  - destruct H as (_ & _ & Hr & _). split; [exact Hr|].
    revert H1 H2. vm_compute. intros [= _ _ <-] [= _ _ <-] Heq. congruence.
  - vm_compute in H1. discriminate H1.
Defined.

(** ** One input of the session dialect, as a relation *)

Lemma session_schedule_capture_effect (self self' : Session.ext_screencopy)
    (immediate : bool) (w w' : world) :
  Session.ext_screencopy_schedule_capture self immediate w = Ok (self', w') ->
  exists (s : obj) (b : buf) (rects : region),
    Session.session self = Some s
    /\ self' = Session.set_buffer (Some b) self
    /\ trace w'
       = trace w
         ++ session_capture_calls (Session.pool self) s b rects immediate
    /\ env w' = env w /\ globals w' = globals w.
Proof.
  intros Hrun.
  destruct (Session.session self) as [s|] eqn:Hs.
  - destruct (session_schedule_capture_runs self immediate w s Hs)
      as (b & w1 & rects & Hrun' & Htr & He & Hg & _).
    rewrite Hrun' in Hrun. injection Hrun as <- <-.
    exists s, b, rects. auto.
  - exfalso. revert Hrun.
    unfold Session.ext_screencopy_schedule_capture. mred.
    rewrite Hs. unfold wv_buffer_pool_acquire.
    destruct (pool_queue w); simpl; discriminate.
Qed.

(** Opening a session in the session dialect, whatever is granted. *)
Lemma session_init_session_runs (self : Session.ext_screencopy) (w : world)
    (m1 m2 : obj) :
  ext_image_source_manager (globals w) = Some m1 ->
  (source_ok (env w) = true -> ext_screencopy_manager (globals w) = Some m2) ->
  exists (w' : world),
    Session.ext_screencopy_init_session self w
    = Ok ((if session_grants (Session.capture_cursor self) (env w)
           then 0 else -1,
           session_opened (next_obj w) (env w) self), w')
    /\ trace w'
       = trace w
         ++ option_list (c_session_destroy <$> Session.session self)
         ++ session_open_calls_in (Session.wl_output self)
              (Session.render_cursors self) (Session.capture_cursor self)
              m1 m2 (next_obj w) (env w)
    /\ env w' = env w /\ globals w' = globals w /\ pool_cfg w' = pool_cfg w
    /\ bufs w' = bufs w /\ pool_queue w' = pool_queue w.
Proof.
  intros H1 H2.
  unfold Session.ext_screencopy_init_session, session_open_calls_in,
    session_opened, session_grants.
  destruct self as [? ? [s|] ? ? ? ? ? ? ? [|] ? ? ? ? ? ? ?]; simpl;
    mred; rewrite H1; simpl;
    (destruct (source_ok (env w)); simpl;
     [rewrite (H2 eq_refl); simpl|]);
    try (destruct (cursor_ok (env w)); simpl);
    try (destruct (session_ok (env w)); simpl);
    (eexists; split; [reflexivity|]; simpl;
     rewrite <- ?app_assoc; simpl; repeat split; reflexivity).
Qed.

Lemma session_init_session_effect (self self' : Session.ext_screencopy)
    (r : Z) (w w' : world) :
  Session.ext_screencopy_init_session self w = Ok ((r, self'), w') ->
  exists (m1 m2 : obj),
    ext_image_source_manager (globals w) = Some m1
    /\ (source_ok (env w) = true ->
        ext_screencopy_manager (globals w) = Some m2)
    /\ r = (if session_grants (Session.capture_cursor self) (env w)
            then 0 else -1)
    /\ self' = session_opened (next_obj w) (env w) self
    /\ trace w'
       = trace w
         ++ option_list (c_session_destroy <$> Session.session self)
         ++ session_open_calls_in (Session.wl_output self)
              (Session.render_cursors self) (Session.capture_cursor self)
              m1 m2 (next_obj w) (env w)
    /\ env w' = env w /\ globals w' = globals w.
Proof.
  intros Hrun.
  destruct (ext_image_source_manager (globals w)) as [m1|] eqn:H1.
  - destruct (source_ok (env w)) eqn:Hsrc.
    + destruct (ext_screencopy_manager (globals w)) as [m2|] eqn:H2.
      * destruct (session_init_session_runs self w m1 m2 H1)
          as (w1 & Hrun' & Htr & He & Hg & _);
          [intros _; exact H2|].
        rewrite Hrun' in Hrun. injection Hrun as <- <- <-.
        exists m1, m2. repeat split; auto.
      * exfalso. revert Hrun. unfold Session.ext_screencopy_init_session.
        destruct self as [? ? [s|] ? ? ? ? ? ? ? [|] ? ? ? ? ? ? ?]; simpl;
          mred; rewrite H1; simpl; rewrite Hsrc; simpl; rewrite H2; simpl;
          discriminate.
    + destruct (session_init_session_runs self w m1 0%nat H1)
        as (w1 & Hrun' & Htr & He & Hg & _);
        [rewrite Hsrc; discriminate|].
      rewrite Hrun' in Hrun. injection Hrun as <- <- <-.
      exists m1, 0%nat. repeat split; auto. discriminate.
  - exfalso. revert Hrun. unfold Session.ext_screencopy_init_session.
    destruct self as [? ? [s|] ? ? ? ? ? ? ? [|] ? ? ? ? ? ? ?]; simpl;
      mred; rewrite H1; simpl; discriminate.
Qed.

Lemma session_constraints_done_effect (self self' : Session.ext_screencopy)
    (w w' : world) :
  Session.session_handle_constraints_done self w = Ok (self', w') ->
  exists (calls : list call),
    session_effect self w (Session.on_session Session.ev_constraints_done)
      self' calls
    /\ trace w' = trace w ++ calls
    /\ env w' = env w /\ globals w' = globals w.
Proof.
  unfold Session.session_handle_constraints_done.
  destruct (Session.should_start self) eqn:Hstart; mred;
    destruct (ENABLE_SCREENCOPY_DMABUF (env w)
              && (Session.have_linux_dmabuf self
                  && enable_linux_dmabuf (Session.parent self))) eqn:Hc;
    mred; unfold wv_buffer_pool_resize; simpl.
  1, 2:
    match goal with
    | |- context [Session.ext_screencopy_schedule_capture ?a ?i ?b] =>
        destruct (Session.ext_screencopy_schedule_capture a i b)
          as [[self1 w1]|] eqn:Hrun; [|discriminate]
    end;
    simpl; intros [= <- <-];
    destruct (session_schedule_capture_effect _ _ _ _ _ Hrun)
      as (s & b & rects & Hs & -> & Htr & He & Hg);
    simpl in Htr, He, Hg;
    (eexists; split;
     [apply (se_done_capture self w s b rects Hstart Hs)|];
     unfold session_resize_call; rewrite Hc;
     cbn [trace set_trace env globals];
     rewrite Htr, <- !app_assoc; auto).
  all: intros [= <- <-];
    (eexists; split; [apply (se_done_idle self w Hstart)|];
     unfold session_resize_call; rewrite Hc;
     cbn [trace set_trace env globals];
     rewrite <- !app_assoc; auto).
Qed.

(** Every input that returns does what one constructor of
    [session_effect] says, and leaves the environment and the manager
    globals alone. *)
Lemma session_step_effect (self self' : Session.ext_screencopy)
    (i : Session.input) (w w' : world) :
  Session.step self i w = Ok (self', w') ->
  exists (calls : list call),
    session_effect self w i self' calls
    /\ trace w' = trace w ++ calls
    /\ env w' = env w /\ globals w' = globals w.
Proof.
  intros Hstep. destruct i as [immediate| |ev|ev]; simpl in Hstep.
  - (* start *)
    unfold Session.ext_screencopy_start in Hstep.
    destruct (Session.have_buffer_info self) eqn:Hinfo; simpl in Hstep.
    + unfold bind in Hstep.
      destruct (Session.ext_screencopy_schedule_capture self immediate w)
        as [[self1 w1]|] eqn:Hrun; [|discriminate].
      simpl in Hstep. injection Hstep as <- <-.
      destruct (session_schedule_capture_effect _ _ _ _ _ Hrun)
        as (s & b & rects & Hs & -> & Htr & He & Hg).
      eexists. split; [apply (se_start_capture _ _ _ s b rects); auto|].
      auto.
    + injection Hstep as <- <-. exists []. rewrite app_nil_r.
      split; [apply se_start_deferred; exact Hinfo | auto].
  - (* stop *)
    injection Hstep as <- <-. exists []. rewrite app_nil_r.
    split; [constructor | auto].
  - (* session events *)
    destruct ev as [format|format|width height| |x y width height
                    |sec_hi sec_lo nsec|t| |reason]; simpl in Hstep.
    + injection Hstep as <- <-. exists []. rewrite app_nil_r.
      split; [constructor | auto].
    + revert Hstep. unfold Session.session_handle_format_drm, bind, get_env.
      intros Hstep. exists []. rewrite app_nil_r.
      assert (self' = (if ENABLE_SCREENCOPY_DMABUF (env w)
                       then Session.set_dmabuf_format format
                              (Session.set_have_linux_dmabuf true self)
                       else self) /\ w' = w) as [-> ->]
        by (destruct (ENABLE_SCREENCOPY_DMABUF (env w));
            injection Hstep as <- <-; split; reflexivity).
      split; [constructor | auto].
    + injection Hstep as <- <-. exists []. rewrite app_nil_r.
      split; [constructor | auto].
    + apply session_constraints_done_effect. exact Hstep.
    + injection Hstep as <- <-. eexists.
      split; [constructor | auto].
    + injection Hstep as <- <-. exists []. rewrite app_nil_r.
      split; [constructor | auto].
    + revert Hstep. unfold Session.session_handle_transform.
      destruct (Session.buffer self) as [b|] eqn:Hb; [|discriminate].
      mred. intros [= <- <-]. eexists.
      split; [apply (se_transform self w t b Hb) | auto].
    + revert Hstep. unfold Session.session_handle_ready,
      Session.session_handle_ready_with. mred.
      destruct (Session.buffer self) as [b|] eqn:Hb; [|discriminate].
      simpl. intros [= <- <-]. eexists.
      split; [eapply se_ready; exact Hb|].
      cbn [trace set_trace set_bufs env globals].
      rewrite <- !app_assoc. simpl.
      split; [reflexivity | split; reflexivity].
    + revert Hstep. unfold Session.session_handle_failed,
      Session.session_handle_failed_with. mred.
      destruct (Session.buffer self) as [b|] eqn:Hb; [|discriminate].
      simpl. unfold wv_buffer_pool_release. simpl.
      destruct reason as [|code].
      * match goal with
        | |- context [Session.ext_screencopy_init_session ?a ?b] =>
            destruct (Session.ext_screencopy_init_session a b)
              as [[[r self1] w1]|] eqn:Hinit; [|discriminate]
        end.
        simpl. intros [= <- <-].
        destruct (session_init_session_effect _ _ _ _ _ Hinit)
          as (m1 & m2 & H1 & H2 & _ & -> & Htr & He & Hg).
        simpl in H1, H2, Htr, He, Hg.
        eexists. split.
        { apply (se_failed_reopen self w b m1 m2 Hb H1 H2). }
        assert (Hp : forall n e x,
                   Session.parent (session_opened n e x) = Session.parent x).
        { intros n e x. unfold session_opened.
          destruct (source_ok e), (Session.capture_cursor x), (cursor_ok e);
            reflexivity. }
        rewrite Hp.
        cbn [trace set_trace env globals Session.parent Session.set_buffer].
        rewrite Htr, <- !app_assoc. auto.
      * simpl. intros [= <- <-]. eexists.
        split; [apply (se_failed self w b code Hb)|].
        cbn [trace set_trace env globals].
        rewrite <- !app_assoc. auto.
  - (* cursor events *)
    destruct ev as [| |x y|x y]; simpl in Hstep; revert Hstep.
    + unfold Session.cursor_handle_enter.
      destruct (cursor_enter (Session.parent self)) eqn:Hreg; mred;
        intros [= <- <-]; eexists;
        (split; [constructor|]); rewrite Hreg; simpl;
        rewrite ?app_nil_r; auto.
    + unfold Session.cursor_handle_leave.
      destruct (cursor_leave (Session.parent self)) eqn:Hreg; mred;
        intros [= <- <-]; eexists;
        (split; [constructor|]); rewrite Hreg; simpl;
        rewrite ?app_nil_r; auto.
    + intros [= <- <-]. exists []. rewrite app_nil_r.
      split; [constructor | auto].
    + unfold Session.cursor_handle_hotspot.
      destruct (cursor_hotspot (Session.parent self)) eqn:Hreg; mred;
        intros [= <- <-]; eexists;
        (split; [constructor|]); rewrite Hreg; simpl;
        rewrite ?app_nil_r; auto.
Qed.

(** An invariant that every effect keeps holds along every run. *)
Lemma session_run_invariant (I : Session.ext_screencopy -> world -> Prop) :
  (forall self w i self' w' calls,
      I self w ->
      session_effect self w i self' calls ->
      trace w' = trace w ++ calls ->
      env w' = env w -> globals w' = globals w ->
      I self' w') ->
  forall (l : list Session.input) (self self' : Session.ext_screencopy)
         (w w' : world),
    I self w -> Session.run self l w = Ok (self', w') -> I self' w'.
Proof.
  intros Hkeep l. induction l as [|i l IH]; intros self self' w w' HI Hrun.
  - injection Hrun as <- <-. exact HI.
  - simpl in Hrun. unfold bind in Hrun.
    destruct (Session.step self i w) as [[self1 w1]|] eqn:Hstep;
      [|discriminate].
    destruct (session_step_effect _ _ _ _ _ Hstep)
      as (calls & Heff & Htr & He & Hg).
    exact (IH _ _ _ _ (Hkeep _ _ _ _ _ _ HI Heff Htr He Hg) Hrun).
Qed.

(** ** The buffers of the session dialect over whole runs *)

Lemma session_open_calls_in_read (o : output) (render_cursors capture : bool)
    (m1 m2 n : obj) (e : environment) :
  acquisitions (session_open_calls_in o render_cursors capture m1 m2 n e) = []
  /\ disposals (session_open_calls_in o render_cursors capture m1 m2 n e)
     = []
  /\ select is_lifecycle
       (session_open_calls_in o render_cursors capture m1 m2 n e) = [].
Proof.
  unfold session_open_calls_in.
  destruct (source_ok e), capture, (cursor_ok e), (session_ok e);
    repeat split; reflexivity.
Qed.

Lemma session_resize_call_read (self : Session.ext_screencopy)
    (e : environment) :
  is_acquisition (session_resize_call self e) = false
  /\ is_disposal (session_resize_call self e) = false
  /\ is_lifecycle (session_resize_call self e) = false.
Proof.
  unfold session_resize_call.
  destruct (ENABLE_SCREENCOPY_DMABUF e
            && (Session.have_linux_dmabuf self
                && enable_linux_dmabuf (Session.parent self)));
    repeat split; reflexivity.
Qed.

Lemma session_opened_buffer (n : obj) (e : environment)
    (self : Session.ext_screencopy) :
  Session.buffer (session_opened n e self) = Session.buffer self.
Proof.
  unfold session_opened.
  destruct (source_ok e), (Session.capture_cursor self), (cursor_ok e);
    reflexivity.
Qed.

Lemma cursor_upcall_read (registered : bool) (c : call) :
  is_acquisition c = false -> is_disposal c = false ->
  acquisitions (cursor_upcall registered c) = []
  /\ disposals (cursor_upcall registered c) = [].
Proof.
  intros Ha Hd. unfold cursor_upcall, acquisitions, disposals.
  destruct registered; simpl; rewrite ?Ha, ?Hd; split; reflexivity.
Qed.

(** One input moves the account of the buffers by what it overwrites. *)
Lemma session_effect_account (self self' : Session.ext_screencopy) (w : world)
    (i : Session.input) (calls : list call) :
  session_effect self w i self' calls ->
  (length (acquisitions calls) + held (Session.buffer self)
   = length (disposals calls) + held (Session.buffer self')
     + (if overwrites self i then 1 else 0))%nat.
Proof.
  intros Heff. unfold overwrites.
  destruct Heff;
    try (simpl; destruct (Session.buffer self); simpl; lia).
  - simpl. rewrite H. destruct (Session.buffer self); reflexivity.
  - destruct (session_capture_calls_read (Session.pool self) s b rects
                immediate) as (Ha & Hd & _).
    rewrite Ha, Hd, H. destruct (Session.buffer self); reflexivity.
  - destruct (ENABLE_SCREENCOPY_DMABUF (env w));
      simpl; destruct (Session.buffer self); simpl; lia.
  - destruct (session_resize_call_read self (env w)) as (Ra & Rd & _).
    unfold acquisitions, disposals. cbn [select]. rewrite Ra, Rd, H.
    simpl. destruct (Session.buffer self); simpl; lia.
  - destruct (session_capture_calls_read (Session.pool self) s b rects
                (Session.shall_be_immediate self)) as (Ha & Hd & _).
    destruct (session_resize_call_read self (env w)) as (Ra & Rd & _).
    unfold acquisitions, disposals in *.
    rewrite !select_app, !length_app, Ha, Hd, H. cbn [select].
    rewrite Ra, Rd.
    simpl. destruct (Session.buffer self); simpl; lia.
  - rewrite H. reflexivity.
  - rewrite H. reflexivity.
  - destruct (session_open_calls_in_read (Session.wl_output self)
                (Session.render_cursors self) (Session.capture_cursor self)
                m1 m2 (next_obj w) (env w)) as (Ha & Hd & _).
    unfold acquisitions, disposals in *.
    rewrite session_opened_buffer, H.
    rewrite !select_app, !length_app, Ha, Hd.
    destruct (Session.session self); simpl; lia.
  - destruct (cursor_upcall_read (cursor_enter (Session.parent self))
                (c_cursor_enter (userdata (Session.parent self)))
                eq_refl eq_refl) as (-> & ->).
    destruct (Session.buffer self); simpl; lia.
  - destruct (cursor_upcall_read (cursor_leave (Session.parent self))
                (c_cursor_leave (userdata (Session.parent self)))
                eq_refl eq_refl) as (-> & ->).
    destruct (Session.buffer self); simpl; lia.
  - destruct (cursor_upcall_read (cursor_hotspot (Session.parent self))
                (c_cursor_hotspot x y (userdata (Session.parent self)))
                eq_refl eq_refl) as (-> & ->).
    destruct (Session.buffer self); simpl; lia.
Qed.

(** ** Creation and destruction in the session dialect *)

Lemma session_create_some (o : output) (render_cursor capture : bool)
    (self0 : Session.ext_screencopy) (w w' : world) :
  session_create_as o render_cursor capture w = Ok (Some self0, w') ->
  exists (m1 m2 : obj),
    calloc_ok (env w) = true /\ pool_create_ok (env w) = true
    /\ session_grants capture (env w) = true
    /\ ext_image_source_manager (globals w) = Some m1
    /\ ext_screencopy_manager (globals w) = Some m2
    /\ self0
       = session_opened (S (next_obj w)) (env w)
           (Session.new_self o (if capture then false else render_cursor)
              capture (Some (next_obj w)))
    /\ trace w'
       = trace w
         ++ c_pool_create (Some (next_obj w))
            :: session_open_calls_in o
                 (if capture then false else render_cursor) capture m1 m2
                 (S (next_obj w)) (env w)
    /\ env w' = env w /\ globals w' = globals w.
Proof.
  unfold session_create_as, Session.ext_screencopy_create_cursor,
    Session.ext_screencopy_create.
  destruct capture; mred;
    (destruct (calloc_ok (env w)); simpl; [|discriminate]);
    unfold wv_buffer_pool_create; mred;
    (destruct (pool_create_ok (env w)); simpl; [|discriminate]);
    match goal with
    | |- context [Session.ext_screencopy_init_session ?a ?b] =>
        destruct (Session.ext_screencopy_init_session a b)
          as [[[r self1] w1]|] eqn:Hinit; [|discriminate]
    end;
    destruct (session_init_session_effect _ _ _ _ _ Hinit)
      as (m1 & m2 & H1 & H2 & -> & -> & Htr & He & Hg);
    simpl in H1, H2, Htr, He, Hg; simpl;
    match goal with
    | |- context [session_grants ?c ?e] =>
        destruct (session_grants c e) eqn:Hgr; simpl; [|discriminate]
    end;
    intros [= <- <-]; exists m1, m2;
    (assert (Hsrc : source_ok (env w) = true)
       by (unfold session_grants in Hgr;
           destruct (source_ok (env w)); [reflexivity | discriminate]));
    (repeat split; auto; rewrite Htr, <- !app_assoc; reflexivity).
Qed.

(** [destroy] always returns; it destroys the session the object points
    to, releases the buffer in the slot, and frees the object. *)
Lemma session_destroy_effect (self : Session.ext_screencopy) (w : world) :
  exists (w' : world),
    Session.ext_screencopy_destroy self w = Ok (tt, w')
    /\ trace w'
       = trace w
         ++ option_list (c_session_destroy <$> Session.session self)
         ++ option_list (c_pool_release (Session.pool self)
                           <$> Session.buffer self)
         ++ [c_free].
Proof.
  unfold Session.ext_screencopy_destroy.
  destruct (Session.session self), (Session.buffer self);
    mred; unfold wv_buffer_pool_release; simpl;
    (eexists; split; [reflexivity|]; simpl; rewrite <- ?app_assoc;
     reflexivity).
Qed.

(** Along a run the buffers taken are the buffers disposed of, the one in
    the slot, and the ones overwritten. *)
Lemma session_run_account (l : list Session.input)
    (self self' : Session.ext_screencopy) (w w' : world) :
  Session.run self l w = Ok (self', w') ->
  exists (calls : list call),
    trace w' = trace w ++ calls
    /\ (length (acquisitions calls) + held (Session.buffer self)
        = length (disposals calls) + held (Session.buffer self')
          + overwritten self l w)%nat.
Proof.
  revert self w. induction l as [|i l IH]; intros self w Hrun.
  - injection Hrun as <- <-. exists []. rewrite app_nil_r.
    split; [reflexivity | simpl; lia].
  - simpl in Hrun. unfold bind in Hrun. cbn [overwritten].
    destruct (Session.step self i w) as [[self1 w1]|] eqn:Hstep;
      [|discriminate].
    destruct (session_step_effect _ _ _ _ _ Hstep)
      as (calls & Heff & Htr & _).
    destruct (IH _ _ Hrun) as (calls' & Htr' & Hacc).
    pose proof (session_effect_account _ _ _ _ _ Heff) as Hone.
    exists (calls ++ calls').
    split; [rewrite Htr', Htr, app_assoc; reflexivity|].
    unfold acquisitions, disposals in *.
    rewrite !select_app, !length_app. lia.
Qed.

(** ** Further properties of the session dialect *)

(** X17.  The buffers of a session of the session dialect over its whole life.
    The session dialect schedules a capture whatever its slot holds, and a
    capture scheduled over a full slot overwrites the buffer in it.  From
    [create] or [create_cursor] through any run that the process survives: the
    buffers taken from the pool are the buffers disposed of (released, or
    delivered by the completion callback), the one in the slot, and one for
    every input that scheduled a capture over a full slot: a [start] with the
    format known, or a negotiation-complete event with a start waiting.
    [destroy] releases the one in the slot, so after it exactly the
    overwritten buffers are unaccounted for; when the owner never starts a
    capture while one is outstanding, none is. *)
Theorem session_dialect_loses_overwritten_buffers (o : output)
    (render_cursor capture : bool) (l : list Session.input)
    (self0 self : Session.ext_screencopy) (w0 w1 w2 w3 : world) :
  session_create_as o render_cursor capture w0 = Ok (Some self0, w1) ->
  Session.run self0 l w1 = Ok (self, w2) ->
  Session.ext_screencopy_destroy self w2 = Ok (tt, w3) ->
  exists (lived all : list call),
    trace w2 = trace w0 ++ lived
    /\ trace w3 = trace w0 ++ all
    /\ length (acquisitions lived)
       = (length (disposals lived) + held (Session.buffer self)
          + overwritten self0 l w1)%nat
    /\ length (acquisitions all)
       = (length (disposals all) + overwritten self0 l w1)%nat.
Proof.
  intros Hcreate Hrun Hdestroy.
  destruct (session_create_some _ _ _ _ _ _ Hcreate)
    as (m1 & m2 & _ & _ & _ & _ & _ & Hself & Htr1 & _).
  destruct (session_run_account _ _ _ _ _ Hrun) as (calls & Htr2 & Hacc).
  destruct (session_destroy_effect self w2) as (w3' & Hd & Htr3).
  rewrite Hd in Hdestroy. injection Hdestroy as <-.
  assert (Hb0 : Session.buffer self0 = None)
    by (rewrite Hself, session_opened_buffer; reflexivity).
  rewrite Hb0 in Hacc. simpl in Hacc.
  destruct (session_open_calls_in_read o
              (if capture then false else render_cursor) capture m1 m2
              (S (next_obj w0)) (env w0)) as (Ha & Hdis & _).
  eexists _, _.
  split; [rewrite Htr2, Htr1, <- app_assoc; reflexivity|].
  split; [rewrite Htr3, Htr2, Htr1, <- !app_assoc; reflexivity|].
  unfold acquisitions, disposals in *.
  rewrite !select_app, !length_app. cbn [select is_acquisition is_disposal].
  rewrite Ha, Hdis.
  destruct (Session.session self), (Session.buffer self); simpl in *;
    split; lia.
Qed.

(** The theorem on [session_session_run], whose second start overwrites
    the buffer of the first capture: two buffers are taken, one is
    delivered, one is lost. *)
Lemma session_dialect_loses_overwritten_buffers_witness :
  match Session.ext_screencopy_create 7%nat true world0 with
  | Ok (Some self0, w1) =>
      match Session.run self0 session_session_run w1 with
      | Ok (self, w2) =>
          match Session.ext_screencopy_destroy self w2 with
          | Ok (_, w3) =>
              length (acquisitions (trace w3)) = 2%nat
              /\ length (disposals (trace w3)) = 1%nat
              /\ overwritten self0 session_session_run w1 = 1%nat
          | Fault _ => False
          end
      | Fault _ => False
      end
  | _ => False
  end.
Proof.
  destruct (Session.ext_screencopy_create 7%nat true world0)
    as [[[self0|] w1]|f] eqn:Hcreate;
    [|vm_compute in Hcreate; discriminate Hcreate ..].
  destruct (Session.run self0 session_session_run w1)
    as [[self w2]|f] eqn:Hrun.
  2: { revert Hrun. vm_compute in Hcreate. injection Hcreate as <- <-.
       vm_compute. discriminate. }
  destruct (Session.ext_screencopy_destroy self w2) as [[[] w3]|f] eqn:Hd.
  2: { destruct (session_destroy_effect self w2) as (w3 & Hd' & _).
       rewrite Hd' in Hd. discriminate Hd. }
  destruct (session_dialect_loses_overwritten_buffers 7%nat true false
              session_session_run self0 self world0 w1 w2 w3 Hcreate Hrun Hd)
    as (lived & all & _ & Ht & _ & Hacc).
  assert (Hover : overwritten self0 session_session_run w1 = 1%nat
                  /\ length (disposals (trace w3)) = 1%nat).
  { revert Hd. revert Hrun. vm_compute in Hcreate.
    injection Hcreate as <- <-. vm_compute. intros [= <- <-].
    vm_compute. intros [= <-]. split; reflexivity. }
  destruct Hover as (Hover & Hdisp).
  rewrite Ht in *. simpl in *. rewrite Hover in *.
  split; [rewrite Hacc, Hdisp; reflexivity|]. split; [exact Hdisp|reflexivity].
Defined.

Lemma session_init_session_fault (self : Session.ext_screencopy) (w : world)
    (f : fault) :
  Session.ext_screencopy_init_session self w = Fault f ->
  f = null_dereference
  /\ (ext_image_source_manager (globals w) = None
      \/ (source_ok (env w) = true
          /\ ext_screencopy_manager (globals w) = None)).
Proof.
  intros Hrun.
  destruct (ext_image_source_manager (globals w)) as [m1|] eqn:H1.
  - destruct (source_ok (env w)) eqn:Hsrc.
    + destruct (ext_screencopy_manager (globals w)) as [m2|] eqn:H2.
      * destruct (session_init_session_runs self w m1 m2 H1)
          as (w1 & Hrun' & _); [intros _; exact H2|].
        rewrite Hrun' in Hrun. discriminate Hrun.
      * revert Hrun. unfold Session.ext_screencopy_init_session.
        destruct self as [? ? [s|] ? ? ? ? ? ? ? [|] ? ? ? ? ? ? ?]; simpl;
          mred; rewrite H1; simpl; rewrite Hsrc; simpl; rewrite H2; simpl;
          intros [= <-]; auto.
    + destruct (session_init_session_runs self w m1 0%nat H1)
        as (w1 & Hrun' & _); [rewrite Hsrc; discriminate|].
      rewrite Hrun' in Hrun. discriminate Hrun.
  - revert Hrun. unfold Session.ext_screencopy_init_session.
    destruct self as [? ? [s|] ? ? ? ? ? ? ? [|] ? ? ? ? ? ? ?]; simpl;
      mred; rewrite H1; simpl; intros [= <-]; auto.
Qed.

Lemma session_open_calls_in_leave_nothing (o : output)
    (render_cursors capture : bool) (m1 m2 n : obj) (e : environment) :
  session_grants capture e = false ->
  let calls := session_open_calls_in o render_cursors capture m1 m2 n e in
  select is_pool_created calls = []
  /\ select is_pool_destroyed calls = []
  /\ length (select is_source_created calls)
     = length (select is_source_destroyed calls)
  /\ select is_session_created calls = []
  /\ select is_frame_created calls = [].
Proof.
  unfold session_open_calls_in, session_grants.
  destruct (source_ok e), capture, (cursor_ok e), (session_ok e);
    try discriminate; repeat split; reflexivity.
Qed.

Lemma session_opened_pool (n : obj) (e : environment)
    (self : Session.ext_screencopy) :
  Session.pool (session_opened n e self) = Session.pool self.
Proof.
  unfold session_opened.
  destruct (source_ok e), (Session.capture_cursor self), (cursor_ok e);
    reflexivity.
Qed.

Lemma session_create_none (o : output) (render_cursor capture : bool)
    (w w' : world) :
  session_create_as o render_cursor capture w = Ok (None, w') ->
  calloc_ok (env w) && pool_create_ok (env w)
  && session_grants capture (env w) = false
  /\ exists (calls : list call),
       trace w' = trace w ++ calls
       /\ leaves_nothing calls
       /\ (if calloc_ok (env w) then last calls = Some c_free
           else calls = []).
Proof.
  unfold session_create_as, Session.ext_screencopy_create_cursor,
    Session.ext_screencopy_create.
  destruct capture; mred;
    (destruct (calloc_ok (env w)); simpl;
     [|intros [= <-]; split; [reflexivity|]; exists [];
       rewrite app_nil_r; repeat split; reflexivity]);
    unfold wv_buffer_pool_create; mred;
    (destruct (pool_create_ok (env w)); simpl;
     [|intros [= <-]; split; [reflexivity|];
       exists [c_pool_create None; c_free]; simpl;
       rewrite <- !app_assoc; repeat split; reflexivity]);
    match goal with
    | |- context [Session.ext_screencopy_init_session ?a ?b] =>
        destruct (Session.ext_screencopy_init_session a b)
          as [[[r self1] w1]|] eqn:Hinit; [|discriminate]
    end;
    destruct (session_init_session_effect _ _ _ _ _ Hinit)
      as (m1 & m2 & H1 & H2 & -> & -> & Htr & He & Hg);
    simpl in H1, H2, Htr, He, Hg; simpl;
    match goal with
    | |- context [session_grants ?c ?e] =>
        destruct (session_grants c e) eqn:Hgr; simpl; [discriminate|]
    end;
    intros [= <-]; (split; [reflexivity|]);
    rewrite session_opened_pool;
    match type of Htr with
    | _ = _ ++ ?opened =>
        exists ([c_pool_create (Some (next_obj w))] ++ opened
                ++ [c_pool_destroy (Some (next_obj w)); c_free]);
        (split; [cbn [trace set_trace]; rewrite Htr, <- !app_assoc;
                 reflexivity|]);
        match opened with
        | session_open_calls_in ?a ?b ?c ?d ?e ?f ?g =>
            destruct (session_open_calls_in_leave_nothing a b c d e f g Hgr)
              as (C1 & C2 & C3 & C4 & C5)
        end
    end;
    cbv zeta in *;
    (split;
     [ unfold leaves_nothing; rewrite !select_app, !length_app;
       rewrite C1, C2, C3, C4, C5; repeat split; reflexivity
     | change [c_pool_destroy (Some (next_obj w)); c_free]
         with ([c_pool_destroy (Some (next_obj w))] ++ [c_free]);
       rewrite !app_assoc; apply last_snoc ]).
Qed.

Lemma session_create_fault (o : output) (render_cursor capture : bool)
    (w : world) (f : fault) :
  session_create_as o render_cursor capture w = Fault f ->
  f = null_dereference
  /\ calloc_ok (env w) = true /\ pool_create_ok (env w) = true
  /\ (ext_image_source_manager (globals w) = None
      \/ (source_ok (env w) = true
          /\ ext_screencopy_manager (globals w) = None)).
Proof.
  unfold session_create_as, Session.ext_screencopy_create_cursor,
    Session.ext_screencopy_create.
  destruct capture; mred;
    (destruct (calloc_ok (env w)); simpl; [|discriminate]);
    unfold wv_buffer_pool_create; mred;
    (destruct (pool_create_ok (env w)); simpl; [|discriminate]);
    match goal with
    | |- context [Session.ext_screencopy_init_session ?a ?b] =>
        destruct (Session.ext_screencopy_init_session a b)
          as [[[r self1] w1]|f0] eqn:Hinit
    end;
    try (simpl; destruct (r <? 0); simpl; discriminate);
    intros [= <-];
    destruct (session_init_session_fault _ _ _ Hinit) as (-> & Hm);
    simpl in Hm; auto.
Qed.

(** X18.  What [ext_screencopy_create] and [ext_screencopy_create_cursor] of
    the session dialect return, in any world.  A session is returned exactly
    when the object, the pool, the image source, for [create_cursor] the
    cursor session, and the capture session are all granted; [create_cursor]
    then holds the cursor session and the capture session got from it, with a
    listener on each, and does not ask for cursors to be rendered.  When
    something is refused no session is returned, every pool and image source
    created has been destroyed, and the last call frees the object (no call at
    all when the object could not be allocated).  The process stops only on a
    manager global that is null. *)
Theorem session_create_outcome (o : output) (render_cursor capture : bool)
    (w : world) :
  match session_create_as o render_cursor capture w with
  | Ok (Some self, w') =>
      calloc_ok (env w) && pool_create_ok (env w)
      && session_grants capture (env w) = true
      /\ Session.pool self = Some (next_obj w)
      /\ Session.session self
         = Some (if capture then S (S (S (next_obj w)))
                 else S (S (next_obj w)))
      /\ Session.cursor self
         = (if capture then Some (S (S (next_obj w))) else None)
      /\ Session.render_cursors self
         = (if capture then false else render_cursor)
      /\ Session.capture_cursor self = capture
      /\ Session.buffer self = None
      /\ Session.have_buffer_info self = false
      /\ Session.should_start self = false
      /\ rate_limit (Session.parent self) = 30
      /\ exists (m1 m2 : obj),
           trace w'
           = trace w
             ++ c_pool_create (Some (next_obj w))
                :: session_open_calls_in o
                     (if capture then false else render_cursor) capture
                     m1 m2 (S (next_obj w)) (env w)
  | Ok (None, w') =>
      calloc_ok (env w) && pool_create_ok (env w)
      && session_grants capture (env w) = false
      /\ exists (calls : list call),
           trace w' = trace w ++ calls
           /\ leaves_nothing calls
           /\ (if calloc_ok (env w) then last calls = Some c_free
               else calls = [])
  | Fault f =>
      f = null_dereference
      /\ calloc_ok (env w) = true /\ pool_create_ok (env w) = true
      /\ (ext_image_source_manager (globals w) = None
          \/ (source_ok (env w) = true
              /\ ext_screencopy_manager (globals w) = None))
  end.
Proof.
  destruct (session_create_as o render_cursor capture w)
    as [[[self|] w']|f] eqn:Hcreate.
  - destruct (session_create_some _ _ _ _ _ _ Hcreate)
      as (m1 & m2 & Hc & Hp & Hgr & _ & _ & -> & Htr & _).
    rewrite Hc, Hp, Hgr.
    assert (Hshape :
              source_ok (env w) = true /\ session_ok (env w) = true
              /\ (capture = true -> cursor_ok (env w) = true)).
    { unfold session_grants in Hgr.
      destruct (source_ok (env w)), capture, (cursor_ok (env w)),
        (session_ok (env w)); try discriminate; auto. }
    destruct Hshape as (Hsrc & Hses & Hcur).
    unfold session_opened. rewrite Hsrc, Hses.
    destruct capture; simpl; [rewrite (Hcur eq_refl); simpl|];
      (do 10 (split; [reflexivity|])); exists m1, m2; exact Htr.
  - exact (session_create_none _ _ _ _ _ Hcreate).
  - exact (session_create_fault _ _ _ _ _ Hcreate).
Qed.

Lemma session_create_returns (o : output) (render_cursor capture : bool)
    (w : world) (m1 m2 : obj) :
  ext_image_source_manager (globals w) = Some m1 ->
  ext_screencopy_manager (globals w) = Some m2 ->
  exists (r : option Session.ext_screencopy) (w' : world),
    session_create_as o render_cursor capture w = Ok (r, w').
Proof.
  intros H1 H2.
  destruct (session_create_as o render_cursor capture w)
    as [[r w']|f] eqn:Hcreate; [eexists _, _; reflexivity|].
  destruct (session_create_fault _ _ _ _ _ Hcreate)
    as (_ & _ & _ & [Hm|[_ Hm]]); congruence.
Qed.

(** ** The choice of the backend *)

(** [screencopy_create] consults the advertised managers once and
    delegates to one backend: the table [ext_screencopy_impl] when the
    capture manager and [ext_image_source_manager] are both advertised, the
    table [wlr_screencopy_impl] otherwise when the wlr manager is advertised,
    and none when neither is. *)
Lemma screencopy_create_dispatch {ext_t wlr_t : Type}
    (ext_impl : screencopy_impl ext_t) (wlr_impl : screencopy_impl wlr_t)
    (o : output) (render_cursor : bool) (w : world) :
  screencopy_create ext_impl wlr_impl o render_cursor w
  = if ext_advertised (globals w)
    then on_result (fmap ext_handle) (create ext_impl o render_cursor w)
    else if bool_decide (screencopy_manager (globals w) <> None)
    then on_result (fmap wlr_handle) (create wlr_impl o render_cursor w)
    else Ok (None, w).
Proof.
  unfold screencopy_create, bind, get_globals, ext_advertised, on_result.
  destruct (bool_decide (ext_screencopy_manager (globals w) <> None)
            && bool_decide (ext_image_source_manager (globals w) <> None)).
  - destruct (create ext_impl o render_cursor w) as [[r w']|]; reflexivity.
  - destruct (bool_decide (screencopy_manager (globals w) <> None));
      [|reflexivity].
    destruct (create wlr_impl o render_cursor w) as [[r w']|]; reflexivity.
Qed.

(** Behind the test of [screencopy_create], [create] of the session dialect
    returns a session exactly when everything is granted. *)
Lemma session_create_behind_guard (o : output) (render_cursor : bool)
    (w : world) (m1 m2 : obj) :
  ext_image_source_manager (globals w) = Some m1 ->
  ext_screencopy_manager (globals w) = Some m2 ->
  exists (w' : world),
    Session.ext_screencopy_create o render_cursor w
    = Ok (if session_create_grants (env w)
          then Some (session_opened (S (next_obj w)) (env w)
                       (Session.new_self o render_cursor false
                          (Some (next_obj w))))
          else None, w')
    /\ if session_create_grants (env w)
       then trace w'
            = trace w
              ++ c_pool_create (Some (next_obj w))
                 :: session_open_calls_in o render_cursor false m1 m2
                      (S (next_obj w)) (env w)
       else exists (calls : list call),
              trace w' = trace w ++ calls /\ leaves_nothing calls.
Proof.
  intros H1 H2. unfold session_create_grants.
  destruct (Session.ext_screencopy_create o render_cursor w)
    as [[[self|] w']|f] eqn:Hcreate.
  - destruct (session_create_some o render_cursor false _ _ _ Hcreate)
      as (m1' & m2' & Hc & Hp & Hgr & E1 & E2 & -> & Htr & _).
    rewrite Hc, Hp, Hgr. simpl. exists w'. split; [reflexivity|].
    rewrite Htr. congruence.
  - destruct (session_create_none o render_cursor false _ _ Hcreate)
      as (Hgr & calls & Htr & Hnothing & _).
    rewrite Hgr. exists w'. split; [reflexivity|].
    exists calls. split; assumption.
  - destruct (session_create_fault o render_cursor false _ _ Hcreate)
      as (_ & _ & _ & [Hm|[_ Hm]]); congruence.
Qed.

(** [create] of the frame dialect, with the two managers it uses
    advertised, returns a session exactly when everything is granted. *)
Lemma frame_create_with_managers (o : output) (render_cursor : bool)
    (w : world) (m1 m2 : obj) :
  ext_output_image_source_manager (globals w) = Some m1 ->
  ext_screencopy_manager (globals w) = Some m2 ->
  exists (w' : world),
    Frame.ext_screencopy_create o render_cursor w
    = Ok (if frame_grants (env w)
          then Some (Frame.set_session (Some (S (S (next_obj w))))
                       (Frame.new_self o render_cursor false
                          (Some (next_obj w))))
          else None, w')
    /\ if frame_grants (env w)
       then trace w'
            = trace w
              ++ c_pool_create (Some (next_obj w))
                 :: frame_open_calls o render_cursor m1 m2 (S (next_obj w))
                      (env w)
       else exists (calls : list call),
              trace w' = trace w ++ calls /\ leaves_nothing calls.
Proof.
  intros H1 H2.
  destruct (Frame.ext_screencopy_create o render_cursor w)
    as [[[self|] w']|f] eqn:Hcreate.
  - destruct (frame_create_some _ _ _ _ _ Hcreate)
      as (m1' & m2' & Hgr & E1 & E2 & -> & Htr & _).
    rewrite Hgr. exists w'. split; [reflexivity|].
    rewrite Htr. congruence.
  - destruct (frame_create_none _ _ _ _ Hcreate)
      as (Hgr & calls & Htr & Hnothing & _).
    rewrite Hgr. exists w'. split; [reflexivity|].
    exists calls. split; assumption.
  - destruct (frame_create_fault _ _ _ _ Hcreate)
      as (_ & _ & _ & [Hm|[_ Hm]]); congruence.
Qed.

(** C6, as stated, fails.  The compositor advertises the manager interfaces
    of the frame dialect (the capture manager and the output image source
    manager, the two globals that dialect uses) and grants every object, so
    that [create] of the frame dialect returns a session; the frame dialect
    is linked as [ext_screencopy_impl], the session dialect stands for the
    other table.  [screencopy_create] returns null and has made no call: its
    test reads [ext_image_source_manager], which is not advertised. *)
Lemma C6_counterexample :
  ext_screencopy_manager (globals world_frame_managers) = Some 4%nat
  /\ ext_output_image_source_manager (globals world_frame_managers)
     = Some 3%nat
  /\ (exists (w' : world),
         Frame.ext_screencopy_create 7%nat true world_frame_managers
         = Ok (Some frame_created, w'))
  /\ screencopy_create Frame.ext_screencopy_impl Session.ext_screencopy_impl
       7%nat true world_frame_managers
     = Ok (None, world_frame_managers).
Proof.
  split; [reflexivity|]. split; [reflexivity|].
  split; [eexists; vm_compute; reflexivity|].
  vm_compute. reflexivity.
Qed.

(** C6, amended.  [screencopy_create] picks one backend by one test of the
    manager globals, and the choice stays with the handle.

    With the capture manager and [ext_image_source_manager] both advertised
    it returns what [create] of the table [ext_screencopy_impl] returns, as
    a handle of that backend, and tries no other.  Otherwise, with the wlr
    manager advertised, it returns what [create] of [wlr_screencopy_impl]
    returns, as a handle of that backend.  Otherwise it returns null and has
    made no call.

    The two globals of the test are the two that the session dialect uses:
    linked as [ext_screencopy_impl] it returns, behind the test, a handle
    with a session opened on the output whenever the object, the pool, the
    image source and the session are granted, and null, with nothing left
    behind, when one is refused.  The frame dialect uses
    [ext_output_image_source_manager], which the test does not read: linked
    as [ext_screencopy_impl] it returns a handle in the same way when that
    global is advertised as well.

    [screencopy_start], [screencopy_stop] and [screencopy_destroy] go to the
    backend the handle came from, whatever is advertised by then. *)
Theorem C6_create_dispatches_on_manager_globals {ext_t wlr_t : Type}
    (ext_impl : screencopy_impl ext_t) (wlr_impl : screencopy_impl wlr_t)
    (o : output) (render_cursor : bool) (w : world) :
  (ext_advertised (globals w) = true ->
   screencopy_create ext_impl wlr_impl o render_cursor w
   = on_result (fmap ext_handle) (create ext_impl o render_cursor w))
  /\ (ext_advertised (globals w) = false ->
      screencopy_manager (globals w) <> None ->
      screencopy_create ext_impl wlr_impl o render_cursor w
      = on_result (fmap wlr_handle) (create wlr_impl o render_cursor w))
  /\ (ext_advertised (globals w) = false ->
      screencopy_manager (globals w) = None ->
      screencopy_create ext_impl wlr_impl o render_cursor w = Ok (None, w))
  /\ (forall (m1 m2 : obj),
         ext_image_source_manager (globals w) = Some m1 ->
         ext_screencopy_manager (globals w) = Some m2 ->
         exists (w' : world),
           screencopy_create Session.ext_screencopy_impl wlr_impl o
             render_cursor w
           = Ok (if session_create_grants (env w)
                 then Some (ext_handle
                              (session_opened (S (next_obj w)) (env w)
                                 (Session.new_self o render_cursor false
                                    (Some (next_obj w)))))
                 else None, w')
           /\ if session_create_grants (env w)
              then trace w'
                   = trace w
                     ++ c_pool_create (Some (next_obj w))
                        :: session_open_calls_in o render_cursor false m1 m2
                             (S (next_obj w)) (env w)
              else exists (calls : list call),
                     trace w' = trace w ++ calls /\ leaves_nothing calls)
  /\ (forall (m1 m2 m3 : obj),
         ext_image_source_manager (globals w) = Some m1 ->
         ext_screencopy_manager (globals w) = Some m2 ->
         ext_output_image_source_manager (globals w) = Some m3 ->
         exists (w' : world),
           screencopy_create Frame.ext_screencopy_impl wlr_impl o
             render_cursor w
           = Ok (if frame_grants (env w)
                 then Some (ext_handle
                              (Frame.set_session (Some (S (S (next_obj w))))
                                 (Frame.new_self o render_cursor false
                                    (Some (next_obj w)))))
                 else None, w')
           /\ if frame_grants (env w)
              then trace w'
                   = trace w
                     ++ c_pool_create (Some (next_obj w))
                        :: frame_open_calls o render_cursor m3 m2
                             (S (next_obj w)) (env w)
              else exists (calls : list call),
                     trace w' = trace w ++ calls /\ leaves_nothing calls)
  /\ (forall (e : ext_t) (x : wlr_t) (immediate : bool) (w2 : world),
         screencopy_start ext_impl wlr_impl (ext_handle e) immediate w2
         = on_result (fun '(r, e') => (r, ext_handle e'))
             (start ext_impl e immediate w2)
         /\ screencopy_start ext_impl wlr_impl (wlr_handle x) immediate w2
            = on_result (fun '(r, x') => (r, wlr_handle x'))
                (start wlr_impl x immediate w2)
         /\ screencopy_stop ext_impl wlr_impl (ext_handle e) w2
            = on_result ext_handle (stop ext_impl e w2)
         /\ screencopy_stop ext_impl wlr_impl (wlr_handle x) w2
            = on_result wlr_handle (stop wlr_impl x w2)
         /\ screencopy_destroy ext_impl wlr_impl (Some (ext_handle e)) w2
            = destroy ext_impl e w2
         /\ screencopy_destroy ext_impl wlr_impl (Some (wlr_handle x)) w2
            = destroy wlr_impl x w2).
Proof.
  split; [|split; [|split; [|split; [|split]]]].
  - intros Hext. rewrite screencopy_create_dispatch, Hext. reflexivity.
  - intros Hext Hwlr. rewrite screencopy_create_dispatch, Hext.
    rewrite bool_decide_true by exact Hwlr. reflexivity.
  - intros Hext Hwlr. rewrite screencopy_create_dispatch, Hext, Hwlr.
    reflexivity.
  - intros m1 m2 H1 H2.
    destruct (session_create_behind_guard o render_cursor w m1 m2 H1 H2)
      as (w' & Hcreate & Htr).
    exists w'. split; [|exact Htr].
    rewrite screencopy_create_dispatch. unfold ext_advertised.
    rewrite H1, H2. simpl. rewrite Hcreate. simpl.
    destruct (session_create_grants (env w)); reflexivity.
  - intros m1 m2 m3 H1 H2 H3.
    destruct (frame_create_with_managers o render_cursor w m3 m2 H3 H2)
      as (w' & Hcreate & Htr).
    exists w'. split; [|exact Htr].
    rewrite screencopy_create_dispatch. unfold ext_advertised.
    rewrite H1, H2. simpl. rewrite Hcreate. simpl.
    destruct (frame_grants (env w)); reflexivity.
  - intros e x immediate w2. unfold screencopy_start, screencopy_stop, bind.
    simpl.
    destruct (start ext_impl e immediate w2) as [[[r e'] w']|];
      destruct (start wlr_impl x immediate w2) as [[[r' x'] w'']|];
      destruct (stop ext_impl e w2) as [[e'' w3]|];
      destruct (stop wlr_impl x w2) as [[x'' w4]|];
      repeat split; reflexivity.
Qed.

(** C6, amended, at concrete worlds.  With every manager advertised and
    every object granted, the session dialect linked as
    [ext_screencopy_impl] gives a handle of the session dialect, and the
    frame dialect linked as [ext_screencopy_impl] gives a handle of the frame
    dialect, each with its session opened; with no manager advertised the
    result is null and no call is made. *)
Lemma C6_create_dispatches_on_manager_globals_witness :
  (exists (w' : world),
      screencopy_create Session.ext_screencopy_impl Frame.ext_screencopy_impl
        7%nat true world0
      = Ok (Some (ext_handle session_created), w')
      /\ trace w'
         = [c_pool_create (Some 10%nat);
            c_create_output_source 2%nat 7%nat (Some 11%nat);
            c_manager_capture 4%nat 11%nat [OPTIONS_RENDER_CURSORS]
              (Some 12%nat);
            c_source_destroy 11%nat;
            c_session_add_listener 12%nat])
  /\ (exists (w' : world),
         screencopy_create Frame.ext_screencopy_impl
           Session.ext_screencopy_impl 7%nat true world0
         = Ok (Some (ext_handle frame_created), w')
         /\ trace w' = trace world_created)
  /\ screencopy_create Frame.ext_screencopy_impl Session.ext_screencopy_impl
       7%nat true world_no_protocol
     = Ok (None, world_no_protocol).
Proof.
  split; [|split].
  - destruct (C6_create_dispatches_on_manager_globals
                Session.ext_screencopy_impl Frame.ext_screencopy_impl
                7%nat true world0) as (_ & _ & _ & H & _).
    exact (H 2%nat 4%nat eq_refl eq_refl).
  - destruct (C6_create_dispatches_on_manager_globals
                Frame.ext_screencopy_impl Session.ext_screencopy_impl
                7%nat true world0) as (_ & _ & _ & _ & H & _).
    exact (H 2%nat 4%nat 3%nat eq_refl eq_refl eq_refl).
  - destruct (C6_create_dispatches_on_manager_globals
                Frame.ext_screencopy_impl Session.ext_screencopy_impl
                7%nat true world_no_protocol) as (_ & _ & H & _).
    exact (H eq_refl eq_refl).
Defined.

(** X19.  What the guard of [screencopy_create] is worth to the session
    dialect.  [screencopy_create] calls the backend only when the capture
    manager and the image source manager are both advertised, and these are
    the two globals the session dialect dereferences: behind the guard its
    [create] always returns, a session or null, and [screencopy_create]
    returns the same.  [screencopy_create_cursor] has no guard: it calls the
    [create_cursor] of the table it is given, which stops the process on a
    null image source manager as soon as the object and the pool are
    allocated; for a table without [create_cursor] it returns null and makes
    no call. *)
Theorem screencopy_create_guards_session_dialect {wlr_t : Type}
    (wlr_screencopy_impl : screencopy_impl wlr_t) (o : output)
    (render_cursor : bool) (w : world) :
  (ext_screencopy_manager (globals w) <> None ->
   ext_image_source_manager (globals w) <> None ->
   exists (r : option Session.ext_screencopy) (w' : world),
     Session.ext_screencopy_create o render_cursor w = Ok (r, w')
     /\ screencopy_create Session.ext_screencopy_impl wlr_screencopy_impl o
          render_cursor w
        = Ok (ext_handle <$> r, w'))
  /\ (calloc_ok (env w) = true -> pool_create_ok (env w) = true ->
      ext_image_source_manager (globals w) = None ->
      screencopy_create_cursor Session.ext_screencopy_impl o w
      = Fault null_dereference)
  /\ (forall (T : Type) (impl : screencopy_impl T),
         create_cursor impl = None ->
         screencopy_create_cursor impl o w = Ok (None, w)).
Proof.
  split; [|split].
  - intros Hm2 Hm1.
    destruct (ext_screencopy_manager (globals w)) as [m2|] eqn:E2;
      [|contradiction].
    destruct (ext_image_source_manager (globals w)) as [m1|] eqn:E1;
      [|contradiction].
    destruct (session_create_returns o render_cursor false w m1 m2 E1 E2)
      as (r & w' & Hcreate).
    simpl in Hcreate. exists r, w'. split; [exact Hcreate|].
    unfold screencopy_create, bind, get_globals. rewrite E1, E2. simpl.
    rewrite Hcreate. reflexivity.
  - intros Hc Hp Hm. unfold screencopy_create_cursor. simpl.
    unfold Session.ext_screencopy_create_cursor. mred. rewrite Hc. simpl.
    unfold wv_buffer_pool_create. mred. rewrite Hp. simpl.
    unfold Session.ext_screencopy_init_session. simpl. mred.
    rewrite Hm. reflexivity.
  - intros T impl Hnone. unfold screencopy_create_cursor. rewrite Hnone.
    reflexivity.
Qed.

(** The theorem in the world where every manager is advertised, and in
    the world where only the wlr manager is. *)
Lemma screencopy_create_guards_session_dialect_witness :
  (exists (r : option Session.ext_screencopy) (w' : world),
      screencopy_create Session.ext_screencopy_impl Frame.ext_screencopy_impl
        7%nat true world0
      = Ok (ext_handle <$> r, w'))
  /\ screencopy_create_cursor Session.ext_screencopy_impl 7%nat world_wlr_only
     = Fault null_dereference.
Proof.
  destruct (screencopy_create_guards_session_dialect
              Frame.ext_screencopy_impl 7%nat true world0) as (H1 & _).
  destruct (screencopy_create_guards_session_dialect
              Frame.ext_screencopy_impl 7%nat true world_wlr_only)
    as (_ & H2 & _).
  split.
  - destruct H1 as (r & w' & _ & H); [discriminate | discriminate |].
    exists r, w'. exact H.
  - apply H2; reflexivity.
Defined.

(** X20.  Session dialect: a reopening that is refused leaves the object
    pointing to the session it has destroyed.  On the invalidating failure
    with the image source refused, the handler releases the buffer, destroys
    the session, asks for the source, and calls the completion callback with
    result failed; [ext_screencopy_init_session] has returned before assigning
    [self->session], so the field still names the destroyed session.
    [destroy] then destroys that session a second time, and a [start] (the
    format being known) attaches a buffer to it and commits on it. *)
Theorem session_refused_reopen_keeps_destroyed_session
    (self : Session.ext_screencopy) (w : world) (s m1 : obj) (b : buf) :
  Session.buffer self = Some b ->
  Session.session self = Some s ->
  ext_image_source_manager (globals w) = Some m1 ->
  source_ok (env w) = false ->
  exists (w' w'' : world),
    Session.session_handle_failed self Session.FAILURE_REASON_INVALID_BUFFER w
    = Ok (Session.set_buffer None self, w')
    /\ trace w'
       = trace w
         ++ [c_log LogFailed; c_pool_release (Session.pool self) b;
             c_session_destroy s;
             c_create_output_source m1 (Session.wl_output self) None;
             c_on_done SCREENCOPY_FAILED None
               (userdata (Session.parent self))]
    /\ Session.ext_screencopy_destroy (Session.set_buffer None self) w'
       = Ok (tt, w'')
    /\ trace w'' = trace w' ++ [c_session_destroy s; c_free]
    /\ (Session.have_buffer_info self = true ->
        forall (immediate : bool),
        exists (b1 : buf) (w1 : world) (calls : list call),
          Session.ext_screencopy_start (Session.set_buffer None self)
            immediate w'
          = Ok ((0, Session.set_buffer (Some b1) self), w1)
          /\ trace w1 = trace w' ++ calls
          /\ In (c_session_attach_buffer s b1) calls
          /\ commits calls
             = [c_session_commit s
                  (if negb immediate then [OPTIONS_ON_DAMAGE] else [])]).
Proof.
  intros Hb Hs Hm Hsrc.
  assert (Hfail : exists w',
             Session.session_handle_failed self
               Session.FAILURE_REASON_INVALID_BUFFER w
             = Ok (Session.set_buffer None self, w')
             /\ trace w'
                = trace w
                  ++ [c_log LogFailed; c_pool_release (Session.pool self) b;
                      c_session_destroy s;
                      c_create_output_source m1 (Session.wl_output self) None;
                      c_on_done SCREENCOPY_FAILED None
                        (userdata (Session.parent self))]).
  { unfold Session.session_handle_failed, Session.session_handle_failed_with.
    mred. rewrite Hb. mred.
    unfold wv_buffer_pool_release. simpl.
    match goal with
    | |- context [Session.ext_screencopy_init_session ?a ?b] =>
        destruct (session_init_session_runs a b m1 0%nat)
          as (w3 & Hinit & Htr3 & He3 & Hg3 & _);
          [exact Hm | simpl; rewrite Hsrc; discriminate |]; rewrite Hinit
    end.
    unfold session_opened, session_open_calls_in in *. simpl in *.
    rewrite Hsrc in *. rewrite Hs in Htr3. simpl in Htr3.
    eexists. split; [reflexivity|].
    cbn [trace set_trace]. rewrite Htr3, <- !app_assoc. reflexivity. }
  destruct Hfail as (w' & Hfail & Htr).
  destruct (session_destroy_effect (Session.set_buffer None self) w')
    as (w'' & Hd & Htrd).
  simpl in Htrd. rewrite Hs in Htrd. simpl in Htrd.
  exists w', w''.
  split; [exact Hfail|]. split; [exact Htr|].
  split; [exact Hd|]. split; [exact Htrd|].
  intros Hinfo immediate.
  destruct (session_schedule_capture_runs (Session.set_buffer None self)
              immediate w' s Hs) as (b1 & w1 & rects & Hrun & Htr1 & _).
  exists b1, w1, (session_capture_calls (Session.pool self) s b1 rects
                    immediate).
  split.
  { unfold Session.ext_screencopy_start.
    cbn [Session.have_buffer_info Session.set_buffer]. rewrite Hinfo.
    cbn [negb]. unfold bind. rewrite Hrun. destruct self; reflexivity. }
  split; [exact Htr1|].
  split; [right; left; reflexivity|].
  apply session_capture_calls_read.
Qed.

(** The theorem on [session_capturing] in a world that refuses the image
    source. *)
Lemma session_refused_reopen_keeps_destroyed_session_witness :
  exists (w' w'' : world),
    Session.session_handle_failed session_capturing
      Session.FAILURE_REASON_INVALID_BUFFER world_refusing
    = Ok (session_idle, w')
    /\ Session.ext_screencopy_destroy session_idle w' = Ok (tt, w'')
    /\ select is_session_destroyed (trace w'')
       = [c_session_destroy 12%nat; c_session_destroy 12%nat].
Proof.
  destruct (session_refused_reopen_keeps_destroyed_session session_capturing
              world_refusing 12%nat 2%nat 0%nat eq_refl eq_refl eq_refl
              eq_refl)
    as (w' & w'' & H1 & Htr1 & H2 & Htr2 & _).
  exists w', w''. split; [exact H1|]. split; [exact H2|].
  rewrite Htr2, Htr1. reflexivity.
Defined.

(** X21.  Frame dialect: a reopening that is refused leaves the object without
    a session.  On the invalidating failure with the image source or the
    session refused, the handler destroys the frame, releases the buffer,
    destroys the session and clears [self->session] before asking for the new
    one; the completion callback is still called, last.  [destroy] then
    destroys no session; but the format stays known, so the next [start] goes
    on to schedule a capture and stops the process on the null session. *)
Theorem frame_refused_reopen_leaves_no_session
    (self : Frame.ext_screencopy) (w : world) (f s m1 m2 : obj) (b : buf) :
  Frame.frame self = Some f ->
  Frame.buffer self = Some b ->
  Frame.session self = Some s ->
  ext_output_image_source_manager (globals w) = Some m1 ->
  ext_screencopy_manager (globals w) = Some m2 ->
  source_ok (env w) && session_ok (env w) = false ->
  exists (self' : Frame.ext_screencopy) (w' w'' : world) (calls : list call),
    Frame.frame_listener self f
      (Frame.ev_failed Frame.FAILURE_REASON_BUFFER_CONSTRAINTS) w
    = Ok (self', w')
    /\ Frame.session self' = None
    /\ Frame.frame self' = None
    /\ Frame.buffer self' = None
    /\ Frame.have_buffer_info self' = Frame.have_buffer_info self
    /\ trace w' = trace w ++ calls
    /\ select is_session_destroyed calls = [c_session_destroy s]
    /\ select is_session_created calls = []
    /\ last calls
       = Some (c_on_done SCREENCOPY_FAILED None
                 (userdata (Frame.parent self)))
    /\ Frame.ext_screencopy_destroy self' w' = Ok (tt, w'')
    /\ trace w'' = trace w' ++ [c_free]
    /\ (Frame.have_buffer_info self = true ->
        forall (immediate : bool) (w1 : world),
          Frame.ext_screencopy_start self' immediate w1
          = Fault null_dereference).
Proof.
  intros Hf Hb Hs Hm1 Hm2 Hno.
  destruct (Frame.frame_listener self f
              (Frame.ev_failed Frame.FAILURE_REASON_BUFFER_CONSTRAINTS) w)
    as [[self' w']|flt] eqn:Hstep.
  2: { exfalso. revert Hstep. simpl. unfold Frame.frame_handle_failed,
    Frame.frame_handle_failed_with.
       rewrite Hf. rewrite bool_decide_true by reflexivity. mred.
       rewrite Hb. mred. unfold wv_buffer_pool_release. simpl.
       match goal with
       | |- context [Frame.ext_screencopy_init_session ?a ?b] =>
           destruct (frame_init_session_runs a b m1 m2 Hm1 Hm2)
             as (w3 & Hinit & _); rewrite Hinit
       end.
       discriminate. }
  destruct (frame_step_effect self self' (Frame.on_frame f
              (Frame.ev_failed Frame.FAILURE_REASON_BUFFER_CONSTRAINTS))
              w w' Hstep) as (calls & Heff & Htr & _).
  inversion Heff as [| | | | | | | | | | | | | | |f0 b0 m1' m2' Hf' Hb'
                     Hm1' Hm2' Hi Hself Hcalls]; subst.
  rewrite Hno in *. rewrite Hs in *.
  destruct (frame_destroy_effect
              (Frame.set_session None
                 (Frame.set_buffer None (Frame.set_frame None self))) w')
    as (w'' & Hd & Htrd).
  simpl in Htrd.
  eexists _, w', w'', _.
  split; [reflexivity|].
  do 4 (split; [reflexivity|]).
  split; [exact Htr|].
  destruct (frame_open_calls_objects (Frame.wl_output self)
              (Frame.render_cursors self) m1' m2' (next_obj w) (env w))
    as (_ & _ & C3 & C4 & _).
  cbv zeta in C3, C4. rewrite Hno in C3. simpl in C3.
  rewrite !select_app, C4.
  rewrite (nil_length_inv _ C3).
  split; [reflexivity|]. split; [reflexivity|].
  split.
  { rewrite !app_assoc. apply last_snoc. }
  split; [exact Hd|]. split; [exact Htrd|].
  intros Hinfo immediate w1.
  unfold Frame.ext_screencopy_start. simpl. rewrite Hinfo. simpl.
  unfold bind at 1. unfold Frame.ext_screencopy_schedule_capture. simpl.
  mred. unfold wv_buffer_pool_acquire.
  destruct (pool_queue w1); reflexivity.
Qed.

(** The theorem on [frame_capturing] in a world that refuses the image
    source. *)
Lemma frame_refused_reopen_leaves_no_session_witness :
  exists (self' : Frame.ext_screencopy) (w' : world),
    Frame.frame_listener frame_capturing 13%nat
      (Frame.ev_failed Frame.FAILURE_REASON_BUFFER_CONSTRAINTS) world_refusing
    = Ok (self', w')
    /\ Frame.session self' = None
    /\ Frame.ext_screencopy_start self' true w' = Fault null_dereference.
Proof.
  destruct (frame_refused_reopen_leaves_no_session frame_capturing
              world_refusing 13%nat 12%nat 3%nat 4%nat 0%nat eq_refl eq_refl
              eq_refl eq_refl eq_refl eq_refl)
    as (self' & w' & w'' & calls & H1 & H2 & _ & _ & _ & _ & _ & _ & _ & _
        & _ & H3).
  exists self', w'. split; [exact H1|]. split; [exact H2|].
  apply H3. reflexivity.
Defined.

(** ** The footprint of the session dialect *)

Lemma session_fixed_refl (a : Session.ext_screencopy) : session_fixed a a.
Proof. repeat split. Qed.

Lemma session_fixed_trans (a b c : Session.ext_screencopy) :
  session_fixed a b -> session_fixed b c -> session_fixed a c.
Proof.
  unfold session_fixed. intros H1 H2.
  decompose [and] H1. decompose [and] H2. repeat split; congruence.
Qed.

Lemma session_may_call_fixed (a b : Session.ext_screencopy) (e : environment)
    (c : call) :
  session_fixed a b -> session_may_call b e c -> session_may_call a e c.
Proof.
  unfold session_fixed, session_may_call, Session.capture_domain.
  intros (Hp & Ho & Hr & Hpool & Hcc).
  destruct c; rewrite ?Hp, ?Ho, ?Hr, ?Hpool, ?Hcc; auto.
Qed.

Lemma session_capture_calls_may (self : Session.ext_screencopy)
    (e : environment) (s : obj) (b : buf) (rects : region)
    (immediate : bool) :
  Forall (session_may_call self e)
    (session_capture_calls (Session.pool self) s b rects immediate).
Proof.
  unfold session_capture_calls.
  repeat first [apply Forall_cons; split; [simpl; auto|]
               | apply Forall_app; split].
  - apply Forall_map, Forall_forall. intros r _.
    unfold session_hint, damage_hint. exact I.
  - repeat constructor.
Qed.

Lemma session_open_calls_in_may (self : Session.ext_screencopy)
    (e : environment) (m1 m2 n : obj) :
  Forall (session_may_call self e)
    (session_open_calls_in (Session.wl_output self)
       (Session.render_cursors self) (Session.capture_cursor self)
       m1 m2 n e).
Proof.
  unfold session_open_calls_in.
  destruct (source_ok e), (Session.capture_cursor self) eqn:Hc,
    (cursor_ok e), (session_ok e);
    repeat constructor; simpl; auto.
Qed.

Lemma session_resize_call_may (self : Session.ext_screencopy)
    (e : environment) :
  session_may_call self e (session_resize_call self e).
Proof.
  unfold session_resize_call.
  destruct (ENABLE_SCREENCOPY_DMABUF e) eqn:He; simpl;
    [destruct (Session.have_linux_dmabuf self); simpl;
     [destruct (enable_linux_dmabuf (Session.parent self)) eqn:Hp; simpl|]|];
    repeat split; auto; discriminate.
Qed.

Lemma session_opened_fixed (n : obj) (e : environment)
    (self : Session.ext_screencopy) :
  session_fixed self (session_opened n e self).
Proof.
  unfold session_opened.
  destruct (source_ok e), (Session.capture_cursor self) eqn:Hc,
    (cursor_ok e); repeat split; simpl; auto.
Qed.

(** One input makes only calls of the footprint and writes none of the
    fields set at creation. *)
Lemma session_effect_footprint (self self' : Session.ext_screencopy)
    (w : world) (i : Session.input) (calls : list call) :
  session_effect self w i self' calls ->
  Forall (session_may_call self (env w)) calls /\ session_fixed self self'.
Proof.
  intros Heff. destruct Heff;
    try (split; [repeat constructor | repeat split]; fail).
  - split; [apply session_capture_calls_may | repeat split].
  - split; [constructor|].
    destruct (ENABLE_SCREENCOPY_DMABUF (env w)); repeat split.
  - split; [|repeat split].
    repeat constructor; apply session_resize_call_may.
  - split; [|repeat split].
    apply Forall_app. split;
      [repeat constructor; apply session_resize_call_may|].
    apply Forall_app. split; [apply session_capture_calls_may|].
    repeat constructor.
  - split.
    + apply Forall_app. split; [repeat constructor|].
      apply Forall_app. split.
      { destruct (Session.session self); repeat constructor. }
      apply Forall_app. split; [apply session_open_calls_in_may|].
      repeat constructor.
    + eapply session_fixed_trans; [|apply session_opened_fixed].
      repeat split.
  - split; [|repeat split]. unfold cursor_upcall.
    destruct (cursor_enter (Session.parent self)) eqn:Hreg;
      repeat constructor; simpl; auto.
  - split; [|repeat split]. unfold cursor_upcall.
    destruct (cursor_leave (Session.parent self)) eqn:Hreg;
      repeat constructor; simpl; auto.
  - split; [|repeat split]. unfold cursor_upcall.
    destruct (cursor_hotspot (Session.parent self)) eqn:Hreg;
      repeat constructor; simpl; auto.
Qed.

Lemma session_may_call_not_lifecycle (self : Session.ext_screencopy)
    (e : environment) (calls : list call) :
  Forall (session_may_call self e) calls -> select is_lifecycle calls = [].
Proof.
  intros H. apply select_none. eapply Forall_impl; [exact H|].
  intros c Hc. destruct c; simpl in *; try reflexivity; contradiction.
Qed.

(** X22.  The footprint of a session of the session dialect between its
    creation and its destruction.  Over any run of calls of the owner, of
    session events and of cursor events that the process survives, from any
    session: every call made is one [session_may_call] allows.  The pool is
    neither created nor destroyed and nothing is freed; acquire, release and
    resize are on the pool of the session; a cursor callback is made only when
    the parent has it, and the cursor position is never passed on; the
    callbacks get the parent's userdata; a cursor session is asked for only
    when the session was made by [create_cursor].  The fields set at creation
    are never written. *)
Theorem session_run_stays_in_footprint (l : list Session.input)
    (self0 self : Session.ext_screencopy) (w0 w : world) :
  Session.run self0 l w0 = Ok (self, w) ->
  exists (calls : list call),
    trace w = trace w0 ++ calls
    /\ Forall (session_may_call self0 (env w0)) calls
    /\ select is_lifecycle calls = []
    /\ session_fixed self0 self
    /\ env w = env w0 /\ globals w = globals w0.
Proof.
  intros Hrun.
  pose (I := fun (self : Session.ext_screencopy) (w : world) =>
          exists calls,
            trace w = trace w0 ++ calls
            /\ Forall (session_may_call self0 (env w0)) calls
            /\ session_fixed self0 self
            /\ env w = env w0 /\ globals w = globals w0).
  assert (HI : I self w).
  { apply (session_run_invariant I) with (l := l) (self := self0) (w := w0);
      [| |exact Hrun].
    - clear. intros self w i self' w' calls (t & Ht & Hmay & Hfix & He & Hg)
        Heff Htr He' Hg'.
      destruct (session_effect_footprint _ _ _ _ _ Heff) as (Hmay' & Hfix').
      exists (t ++ calls). split; [rewrite Htr, Ht, app_assoc; reflexivity|].
      split; [|split; [exact (session_fixed_trans _ _ _ Hfix Hfix')|]].
      + apply Forall_app. split; [exact Hmay|].
        rewrite He in Hmay'. eapply Forall_impl; [exact Hmay'|].
        intros c. apply session_may_call_fixed. exact Hfix.
      + split; congruence.
    - exists []. rewrite app_nil_r. repeat split. constructor. }
  destruct HI as (calls & Ht & Hmay & Hfix & He & Hg).
  exists calls. split; [exact Ht|]. split; [exact Hmay|].
  split; [exact (session_may_call_not_lifecycle _ _ _ Hmay)|].
  split; [exact Hfix|]. split; assumption.
Qed.

(** The theorem on [session_session_run] from [session_idle], whose parent
    has no cursor callback: the cursor event of the run makes no call. *)
Lemma session_run_stays_in_footprint_witness :
  match Session.run session_idle session_session_run world_capturing with
  | Ok (self, w) =>
      exists (calls : list call),
        trace w = calls
        /\ select is_lifecycle calls = []
        /\ Session.pool self = Some 10%nat
  | Fault _ => False
  end.
Proof.
  destruct (Session.run session_idle session_session_run world_capturing)
    as [[self w]|f] eqn:Hrun.
  - destruct (session_run_stays_in_footprint _ _ _ _ _ Hrun)
      as (calls & Ht & _ & Hl & Hfix & _).
    exists calls. split; [exact Ht|]. split; [exact Hl|].
    destruct Hfix as (_ & _ & _ & Hp & _). exact Hp.
  - vm_compute in Hrun. discriminate Hrun.
Defined.

(** X23.  Session dialect: once the format is known it stays known.  No call
    of the owner, no session event and no cursor event clears
    [have_buffer_info], not even the reopening of the session after an
    invalidating failure, and with the format known no start is recorded as
    waiting; so every later [start] that returns has scheduled a capture at
    once, whatever the slot holds. *)
Theorem session_format_stays_known (l : list Session.input)
    (self self' : Session.ext_screencopy) (w w' : world) :
  Session.have_buffer_info self = true ->
  Session.should_start self = false ->
  Session.run self l w = Ok (self', w') ->
  Session.have_buffer_info self' = true
  /\ Session.should_start self' = false
  /\ forall (immediate : bool) (r : Z) (self'' : Session.ext_screencopy)
            (w1 w2 : world),
       Session.ext_screencopy_start self' immediate w1
       = Ok ((r, self''), w2) ->
       exists (calls : list call),
         trace w2 = trace w1 ++ calls
         /\ length (acquisitions calls) = 1%nat
         /\ length (commits calls) = 1%nat.
Proof.
  intros Hinfo Hstart Hrun.
  pose (I := fun (self : Session.ext_screencopy) (w : world) =>
          Session.have_buffer_info self = true
          /\ Session.should_start self = false).
  assert (Hopened : forall n e x,
             Session.have_buffer_info (session_opened n e x)
             = Session.have_buffer_info x
             /\ Session.should_start (session_opened n e x)
                = Session.should_start x).
  { intros n e x. unfold session_opened.
    destruct (source_ok e), (Session.capture_cursor x), (cursor_ok e);
      split; reflexivity. }
  assert (HI : I self' w').
  { apply (session_run_invariant I) with (l := l) (self := self) (w := w);
      [| |exact Hrun].
    - clear - Hopened. unfold I.
      intros self w i self' w' calls (Hi & Hs) Heff _ _ _.
      destruct Heff; simpl;
        try (split; first [assumption | reflexivity]); try congruence.
      + destruct (ENABLE_SCREENCOPY_DMABUF (env w)); split; assumption.
      + rewrite (proj1 (Hopened _ _ _)), (proj2 (Hopened _ _ _)).
        split; assumption.
    - split; assumption. }
  destruct HI as (Hi' & Hs'). split; [exact Hi'|]. split; [exact Hs'|].
  intros immediate r self'' w1 w2.
  unfold Session.ext_screencopy_start. rewrite Hi'. simpl. unfold bind.
  destruct (Session.ext_screencopy_schedule_capture self' immediate w1)
    as [[self1 w3]|] eqn:Hsched; [|discriminate].
  simpl. intros [= _ _ <-].
  destruct (session_schedule_capture_effect _ _ _ _ _ Hsched)
    as (s & b & rects & _ & _ & Htr & _).
  eexists. split; [exact Htr|].
  destruct (session_capture_calls_read (Session.pool self') s b rects
              immediate) as (Ha & _ & Hc).
  rewrite Ha, Hc. split; reflexivity.
Qed.

(** The theorem on [session_capturing] over an invalidating failure. *)
Lemma session_format_stays_known_witness :
  match Session.run session_capturing
          [Session.on_session
             (Session.ev_failed Session.FAILURE_REASON_INVALID_BUFFER);
           Session.on_session (Session.ev_dimensions 800 600)]
          world_capturing with
  | Ok (self', w') =>
      Session.have_buffer_info self' = true
      /\ Session.session self' = Some 15%nat
  | Fault _ => False
  end.
Proof.
  destruct (Session.run session_capturing
              [Session.on_session
                 (Session.ev_failed Session.FAILURE_REASON_INVALID_BUFFER);
               Session.on_session (Session.ev_dimensions 800 600)]
              world_capturing)
    as [[self' w']|f] eqn:Hrun; [|vm_compute in Hrun; discriminate Hrun].
  split.
  - exact (proj1 (session_format_stays_known _ session_capturing self'
                    world_capturing w' eq_refl eq_refl Hrun)).
  - vm_compute in Hrun. injection Hrun as <- _. reflexivity.
Defined.

Lemma session_schedule_capture_hints (self : Session.ext_screencopy)
    (immediate : bool) (w : world) (s : obj) :
  Session.session self = Some s ->
  exists (b : buf) (w1 : world),
    Session.ext_screencopy_schedule_capture self immediate w
    = Ok (Session.set_buffer (Some b) self, w1)
    /\ trace w1
       = trace w
         ++ session_capture_calls (Session.pool self) s b
              (buffer_damage (stored w1 b)) immediate
    /\ (forall x, bufs w1 !! b = Some x ->
                  domain x = Session.capture_domain self)
    /\ (forall b', b' <> b -> bufs w1 !! b' = bufs w !! b').
Proof.
  intros Hs.
  unfold Session.ext_screencopy_schedule_capture, session_capture_calls,
    stored.
  mred. rewrite Hs.
  unfold wv_buffer_pool_acquire.
  destruct (pool_queue w) as [|b q] eqn:Hq; simpl;
    rewrite for_each_emit; simpl;
    (eexists _, _; split; [reflexivity|]; simpl;
     split; [rewrite <- !app_assoc; reflexivity|]; split).
  - intros x. rewrite lookup_alter_eq, lookup_insert_eq. simpl.
    intros [= <-]. reflexivity.
  - intros b' Hne. rewrite lookup_alter_ne, lookup_insert_ne by congruence.
    reflexivity.
  - intros x. rewrite lookup_alter_eq.
    destruct (bufs w !! b); simpl; intros [= <-]. reflexivity.
  - intros b' Hne. rewrite lookup_alter_ne by congruence. reflexivity.
Qed.

Lemma select_own_session_hints (s : obj) (rects : region) :
  select is_session_hint (map (session_hint s) rects)
  = map (session_hint s) rects.
Proof.
  induction rects as [|r rects IH]; cbn [map select]; [reflexivity|].
  assert (Hr : is_session_hint (session_hint s r) = true).
  { unfold session_hint. destruct (damage_hint r) as [[[x y] wd] ht].
    reflexivity. }
  rewrite Hr, IH. reflexivity.
Qed.

Lemma session_hints_of_boxes (s : obj) (rects : region) :
  Forall box_ok rects ->
  map (session_hint s) rects
  = map (fun r => c_session_damage_buffer s (x1 r mod 2 ^ 32)
                    (y1 r mod 2 ^ 32) (x2 r - x1 r) (y2 r - y1 r)) rects.
Proof.
  induction 1 as [|r rects Hr _ IH]; cbn [map]; [reflexivity|].
  rewrite IH. unfold session_hint at 1. rewrite (damage_hint_box r Hr).
  reflexivity.
Qed.

(** X24.  One capture of the session dialect, call by call.  Scheduling a
    capture asks nothing of the slot: whatever it holds, a buffer is taken
    from the pool and put in it.  The buffer is tagged with the domain of the
    session (cursor for one made by [create_cursor]), attached to the session,
    one damage hint is sent for each rectangle of its buffer damage, in order,
    with the width [x2 - x1] and the height [y2 - y1] for a box that is not
    inverted, and the capture is committed: with the on-damage option exactly
    when [immediate] is false.  No other buffer is touched. *)
Theorem session_capture_sends_buffer_damage (self : Session.ext_screencopy)
    (immediate : bool) (w : world) (s : obj) :
  Session.session self = Some s ->
  exists (b : buf) (w1 : world) (calls : list call),
    Session.ext_screencopy_schedule_capture self immediate w
    = Ok (Session.set_buffer (Some b) self, w1)
    /\ trace w1 = trace w ++ calls
    /\ calls
       = [c_pool_acquire (Session.pool self) b; c_session_attach_buffer s b]
         ++ select is_session_hint calls
         ++ [c_session_commit s
               (if immediate then [] else [OPTIONS_ON_DAMAGE]);
             c_log (LogCommitted immediate (Some b))]
    /\ select is_session_hint calls
       = map (session_hint s) (buffer_damage (stored w1 b))
    /\ (Forall box_ok (buffer_damage (stored w1 b)) ->
        select is_session_hint calls
        = map (fun r => c_session_damage_buffer s
                          (x1 r mod 2 ^ 32) (y1 r mod 2 ^ 32)
                          (x2 r - x1 r) (y2 r - y1 r))
            (buffer_damage (stored w1 b)))
    /\ (forall x, bufs w1 !! b = Some x ->
                  domain x = Session.capture_domain self)
    /\ (forall b', b' <> b -> bufs w1 !! b' = bufs w !! b').
Proof.
  intros Hs.
  destruct (session_schedule_capture_hints self immediate w s Hs)
    as (b & w1 & Hrun & Htr & Hdom & Hother).
  exists b, w1. eexists. split; [exact Hrun|]. split; [exact Htr|].
  assert (Hsel : select is_session_hint
                   (session_capture_calls (Session.pool self) s b
                      (buffer_damage (stored w1 b)) immediate)
                 = map (session_hint s) (buffer_damage (stored w1 b))).
  { unfold session_capture_calls.
    rewrite !select_app, select_own_session_hints.
    simpl. apply app_nil_r. }
  rewrite Hsel.
  split; [destruct immediate; reflexivity|]. split; [reflexivity|].
  split; [|split; assumption].
  apply session_hints_of_boxes.
Qed.

(** The theorem on [session_capturing], whose slot is full, with buffer 0
    back in the pool. *)
Lemma session_capture_sends_buffer_damage_witness :
  exists (w1 : world) (calls : list call),
    Session.ext_screencopy_schedule_capture session_capturing false
      world_recycled
    = Ok (session_capturing, w1)
    /\ trace w1 = calls
    /\ select is_session_hint calls
       = [c_session_damage_buffer 12%nat 0 0 64 32]
    /\ commits calls = [c_session_commit 12%nat [OPTIONS_ON_DAMAGE]].
Proof.
  destruct (session_capture_sends_buffer_damage session_capturing false
              world_recycled 12%nat eq_refl)
    as (b & w1 & calls & Hrun & Htr & Hcalls & Hsel & _).
  assert (Hb : b = 0%nat /\ buffer_damage (stored w1 b)
                            = [{| x1 := 0; y1 := 0; x2 := 64; y2 := 32 |}]).
  { revert Hrun. vm_compute. intros [= <- <-]. split; reflexivity. }
  destruct Hb as (-> & Hdamage).
  exists w1, calls. split; [exact Hrun|]. split; [exact Htr|].
  split; [rewrite Hsel, Hdamage; reflexivity|].
  rewrite Hcalls, Hsel, Hdamage. reflexivity.
Defined.

(** X25.  [destroy] in both dialects and through [screencopy_destroy].  It
    always returns.  It destroys the frame (frame dialect) and the session the
    object points to, releases the buffer in the slot to the pool of the
    session, and frees the object, last; it does not destroy the pool that
    [create] made, nor the cursor session.  [screencopy_destroy] of a null
    pointer makes no call, and of a session it is the [destroy] of its
    backend. *)
Theorem destroy_frees_object_keeps_pool {wlr_t : Type}
    (wlr_screencopy_impl : screencopy_impl wlr_t) (w : world) :
  (forall (self : Frame.ext_screencopy),
      exists (w' : world) (calls : list call),
        Frame.ext_screencopy_destroy self w = Ok (tt, w')
        /\ screencopy_destroy Frame.ext_screencopy_impl wlr_screencopy_impl
             (Some (ext_handle self)) w
           = Ok (tt, w')
        /\ trace w' = trace w ++ calls
        /\ select is_lifecycle calls = [c_free]
        /\ last calls = Some c_free
        /\ length (select is_frame_destroyed calls) = held (Frame.frame self)
        /\ length (select is_session_destroyed calls)
           = held (Frame.session self)
        /\ disposals calls
           = option_list (c_pool_release (Frame.pool self)
                            <$> Frame.buffer self))
  /\ (forall (self : Session.ext_screencopy),
         exists (w' : world) (calls : list call),
           Session.ext_screencopy_destroy self w = Ok (tt, w')
           /\ screencopy_destroy Session.ext_screencopy_impl
                wlr_screencopy_impl (Some (ext_handle self)) w
              = Ok (tt, w')
           /\ trace w' = trace w ++ calls
           /\ select is_lifecycle calls = [c_free]
           /\ last calls = Some c_free
           /\ length (select is_session_destroyed calls)
              = held (Session.session self)
           /\ disposals calls
              = option_list (c_pool_release (Session.pool self)
                               <$> Session.buffer self))
  /\ screencopy_destroy Frame.ext_screencopy_impl wlr_screencopy_impl None w
     = Ok (tt, w).
Proof.
  split; [|split; [|reflexivity]].
  - intros self.
    destruct (frame_destroy_effect self w) as (w' & Hd & Htr).
    exists w'. eexists. split; [exact Hd|]. split; [exact Hd|].
    split; [exact Htr|].
    assert (Hlast : forall (a b c : list call),
               last (a ++ b ++ c ++ [c_free]) = Some c_free)
      by (intros; rewrite !app_assoc; apply last_snoc).
    rewrite Hlast. unfold disposals. rewrite !select_app.
    destruct (Frame.frame self), (Frame.session self), (Frame.buffer self);
      simpl; repeat split; reflexivity.
  - intros self.
    destruct (session_destroy_effect self w) as (w' & Hd & Htr).
    exists w'. eexists. split; [exact Hd|]. split; [exact Hd|].
    split; [exact Htr|].
    assert (Hlast : forall (a b : list call),
               last (a ++ b ++ [c_free]) = Some c_free)
      by (intros; rewrite !app_assoc; apply last_snoc).
    rewrite Hlast. unfold disposals. rewrite !select_app.
    destruct (Session.session self), (Session.buffer self);
      simpl; repeat split; reflexivity.
Qed.

(** ** The earlier theorems at concrete inputs *)

(** The account of the buffers on [frame_session_run], destroyed with its
    third capture outstanding: three buffers taken, three disposed of. *)
Lemma frame_dialect_buffers_balanced_witness :
  match Frame.run frame_created frame_session_run world_created with
  | Ok (self, w2) =>
      match Frame.ext_screencopy_destroy self w2 with
      | Ok (_, w3) =>
          in_flight self = 1%nat
          /\ length (acquisitions (trace w3)) = 3%nat
          /\ length (disposals (trace w3)) = 3%nat
      | Fault _ => False
      end
  | Fault _ => False
  end.
Proof.
  destruct (Frame.run frame_created frame_session_run world_created)
    as [[self w2]|f] eqn:Hrun; [|vm_compute in Hrun; discriminate Hrun].
  destruct (Frame.ext_screencopy_destroy self w2) as [[[] w3]|f] eqn:Hd.
  - destruct (frame_dialect_buffers_balanced 7%nat true frame_session_run
                frame_created self world0 world_created w2 w3 eq_refl
                eq_refl Hrun Hd) as (_ & _ & _ & _ & Hall).
    assert (Hacq : in_flight self = 1%nat
                   /\ length (acquisitions (trace w3)) = 3%nat).
    { revert Hd. vm_compute in Hrun. injection Hrun as <- <-.
      vm_compute. intros [= <-]. split; reflexivity. }
    destruct Hacq as (Hin & Hacq).
    split; [exact Hin|]. split; [exact Hacq|].
    rewrite <- Hall. exact Hacq.
  - destruct (frame_destroy_effect self w2) as (w3 & Hd' & _).
    rewrite Hd' in Hd. discriminate Hd.
Defined.

(** One capture of the session dialect on [session_idle], ended by the
    invalidating failure. *)
Lemma session_dialect_buffer_disposed_exactly_once_witness :
  exists (b : buf) (self1 : Session.ext_screencopy) (w1 : world)
         (after : option Session.ext_screencopy) (w2 : world)
         (ended : list call),
    Session.ext_screencopy_schedule_capture session_idle true world0
    = Ok (self1, w1)
    /\ finish_session self1
         (by_session_failed Session.FAILURE_REASON_INVALID_BUFFER) w1
       = Ok (after, w2)
    /\ disposals ended = [c_pool_release (Some 10%nat) b].
Proof.
  destruct (session_dialect_buffer_disposed_exactly_once session_idle true
              world0 12%nat 2%nat 4%nat
              (by_session_failed Session.FAILURE_REASON_INVALID_BUFFER)
              eq_refl eq_refl eq_refl eq_refl eq_refl eq_refl)
    as (b & self1 & w1 & begun & after & w2 & ended & H1 & _ & _ & _ & _
        & H2 & _ & _ & H3 & _).
  exists b, self1, w1, after, w2, ended. auto.
Defined.

(** A start deferred with [immediate] true on the session [create]
    leaves: the capture is committed without the on-damage option. *)
Lemma session_deferred_start_commits_with_recorded_flag_witness :
  exists (self1 self2 : Session.ext_screencopy) (w2 : world)
         (calls : list call),
    Session.ext_screencopy_start session_created true world_created
    = Ok ((0, self1), world_created)
    /\ Session.session_handle_constraints_done self1 world_created
       = Ok (self2, w2)
    /\ trace w2 = trace world_created ++ calls
    /\ commits calls = [c_session_commit 12%nat []].
Proof.
  destruct (session_deferred_start_commits_with_recorded_flag session_created
              true world_created 12%nat eq_refl eq_refl)
    as (self1 & self2 & w2 & b & calls & H1 & H2 & H3 & _ & H4 & _).
  exists self1, self2, w2, calls. auto.
Defined.
